(** * LiteTable: the table view engine of [src/LiteTable.js]

    A shallow embedding of [LiteTableManager] (row cache, sort, filters,
    pagination, row pooling) and of the date helpers [isDateInRange] and
    [parseDate], followed by the properties proved about them.

    Conventions of the embedding.
    - JavaScript strings are [string]s.  Whitespace and digits are the ASCII
      ones; the non-ASCII white space that [String.prototype.trim] also
      removes is outside the model.
    - The numbers of the pagination arithmetic ([displayLimit],
      [currentPageIndex], array lengths) are integer valued doubles,
      [Infinity], [-Infinity] or [NaN]: type [jsnum].  Integers are exact
      (they stay far below 2^53; negative zero is identified with zero).
    - The numbers that serve as sort keys are arbitrary doubles: type [float],
      a finite double being the rational it denotes.
    - A [Date] that holds a local midnight is its day number (days since
      1970-01-01 in local time), [None] being [Invalid Date].
    - The built-ins whose value depends on binary64 rounding, on the ICU
      collation data or on the time zone ([Number], [parseFloat],
      [localeCompare], [new Date(string)]) are the fields of a [Runtime];
      everything is proved for every runtime.
    - A thrown exception leaves the state as it was mutated up to the throw:
      a method is a function [State -> run], the pair of the exception (if
      any) and of the state it leaves. *)

From Stdlib Require Import List ZArith QArith Qround Lia Bool String Ascii.
From Stdlib Require Import Permutation Sorted Lqa.
Import ListNotations.

Local Open Scope string_scope.
Local Open Scope list_scope.
Local Open Scope Z_scope.

(** ** Strings *)

Module Str.

Definition isDigit (c : ascii) : bool :=
  let n := nat_of_ascii c in (48 <=? n)%nat && (n <=? 57)%nat.

(** White space removed by [trim], in the ASCII range:
    TAB, LF, VT, FF, CR and SPACE. *)
Definition isSpace (c : ascii) : bool :=
  let n := nat_of_ascii c in
  ((9 <=? n)%nat && (n <=? 13)%nat) || (n =? 32)%nat.

(** A string is truthy when it is not empty. *)
Definition truthy (s : string) : bool :=
  match s with EmptyString => false | String _ _ => true end.

Fixpoint trimStart (s : string) : string :=
  match s with
  | EmptyString => EmptyString
  | String c s' => if isSpace c then trimStart s' else s
  end.

Fixpoint allSpace (s : string) : bool :=
  match s with
  | EmptyString => true
  | String c s' => isSpace c && allSpace s'
  end.

Fixpoint trimEnd (s : string) : string :=
  match s with
  | EmptyString => EmptyString
  | String c s' => if allSpace s then EmptyString else String c (trimEnd s')
  end.

(** [s.trim()] *)
Definition trim (s : string) : string := trimEnd (trimStart s).

(** [/^\d{2}\/\d{2}\/\d{4}$/.test(s)] *)
Definition isDateFormat (s : string) : bool :=
  match list_ascii_of_string s with
  | [d1; d2; s1; m1; m2; s2; y1; y2; y3; y4] =>
      isDigit d1 && isDigit d2 && Ascii.eqb s1 "/" &&
      isDigit m1 && isDigit m2 && Ascii.eqb s2 "/" &&
      isDigit y1 && isDigit y2 && isDigit y3 && isDigit y4
  | _ => false
  end.

Fixpoint contains (c : ascii) (s : string) : bool :=
  match s with
  | EmptyString => false
  | String d s' => Ascii.eqb c d || contains c s'
  end.

(** [s.replace(/<[^>]*>/g, '')]: a match starts at a "<" that is followed,
    anywhere later, by a ">", and runs up to the first such ">". *)
Fixpoint stripTagsFrom (inTag : bool) (s : string) : string :=
  match s with
  | EmptyString => EmptyString
  | String c s' =>
      if inTag then
        if Ascii.eqb c ">" then stripTagsFrom false s'
        else stripTagsFrom true s'
      else if Ascii.eqb c "<" && contains ">" s' then stripTagsFrom true s'
      else String c (stripTagsFrom false s')
  end.

Definition stripTags (s : string) : string := stripTagsFrom false s.

(** [s.replace(',', '.')]: the first comma only. *)
Fixpoint replaceComma (s : string) : string :=
  match s with
  | EmptyString => EmptyString
  | String c s' =>
      if Ascii.eqb c "," then String "." s' else String c (replaceComma s')
  end.

(** [s.split('/')], the pieces in order (one piece for a string without
    separator, the empty string included). *)
Fixpoint splitSlash (s : string) : list string :=
  match s with
  | EmptyString => [EmptyString]
  | String c s' =>
      if Ascii.eqb c "/" then EmptyString :: splitSlash s'
      else match splitSlash s' with
           | p :: ps => String c p :: ps
           | [] => [String c EmptyString]
           end
  end.

End Str.

(** ** Numbers of the pagination arithmetic *)

Inductive jsnum : Type :=
| Num (z : Z)
| PInf
| NInf
| NaN.

Module JsNum.

Definition ofNat (n : nat) : jsnum := Num (Z.of_nat n).

Definition neg (a : jsnum) : jsnum :=
  match a with
  | Num z => Num (- z)
  | PInf => NInf
  | NInf => PInf
  | NaN => NaN
  end.

(** [a * b] *)
Definition mul (a b : jsnum) : jsnum :=
  match a, b with
  | NaN, _ | _, NaN => NaN
  | Num x, Num y => Num (x * y)
  | Num x, PInf | PInf, Num x =>
      if x =? 0 then NaN else if 0 <? x then PInf else NInf
  | Num x, NInf | NInf, Num x =>
      if x =? 0 then NaN else if 0 <? x then NInf else PInf
  | PInf, PInf | NInf, NInf => PInf
  | PInf, NInf | NInf, PInf => NInf
  end.

(** [a + b] *)
Definition add (a b : jsnum) : jsnum :=
  match a, b with
  | NaN, _ | _, NaN => NaN
  | Num x, Num y => Num (x + y)
  | PInf, NInf | NInf, PInf => NaN
  | PInf, _ | _, PInf => PInf
  | NInf, _ | _, NInf => NInf
  end.

(** [a - b] *)
Definition sub (a b : jsnum) : jsnum := add a (neg b).

(** [a < b] *)
Definition lt (a b : jsnum) : bool :=
  match a, b with
  | NaN, _ | _, NaN => false
  | Num x, Num y => x <? y
  | NInf, NInf | PInf, _ | _, NInf => false
  | NInf, _ | _, PInf => true
  end.

(** [a > b] *)
Definition gt (a b : jsnum) : bool := lt b a.

(** [a <= b] *)
Definition le (a b : jsnum) : bool :=
  match a, b with
  | NaN, _ | _, NaN => false
  | Num x, Num y => x <=? y
  | NInf, _ | _, PInf => true
  | PInf, _ | _, NInf => false
  end.

(** [Math.min(a, b)] *)
Definition min (a b : jsnum) : jsnum :=
  match a, b with
  | NaN, _ | _, NaN => NaN
  | _, _ => if lt b a then b else a
  end.

(** [Math.ceil(a / b)].  For integers the ceiling of the exact quotient; a
    finite number over an infinity is zero. *)
Definition ceilDiv (a b : jsnum) : jsnum :=
  match a, b with
  | NaN, _ | _, NaN => NaN
  | Num x, Num y =>
      if y =? 0 then (if x =? 0 then NaN else if 0 <? x then PInf else NInf)
      else Num (- ((- x) / y))
  | Num _, (PInf | NInf) => Num 0
  | PInf, Num y => if 0 <=? y then PInf else NInf
  | NInf, Num y => if 0 <=? y then NInf else PInf
  | (PInf | NInf), (PInf | NInf) => NaN
  end.

End JsNum.

(** ** Doubles used as sort keys *)

Inductive float : Type :=
| FNaN
| FInf (negative : bool)
| FFin (q : Q).

Module Float.

Definition ofZ (z : Z) : float := FFin (inject_Z z).
Definition ofNat (n : nat) : float := ofZ (Z.of_nat n).

Definition isNaN (a : float) : bool :=
  match a with FNaN => true | _ => false end.

Definition isFinite (a : float) : bool :=
  match a with FFin _ => true | _ => false end.

(** [a - b].  The difference of two finite doubles has the sign of the exact
    difference, which is all the callers look at. *)
Definition sub (a b : float) : float :=
  match a, b with
  | FNaN, _ | _, FNaN => FNaN
  | FFin x, FFin y => FFin (x - y)
  | FInf s, FFin _ => FInf s
  | FFin _, FInf s => FInf (negb s)
  | FInf s, FInf t => if Bool.eqb s t then FNaN else FInf s
  end.

(** [a * m] for a multiplier [m] that is 1 or -1. *)
Definition scale (a : float) (m : Z) : float :=
  match a with
  | FNaN => FNaN
  | FInf s => FInf (if 0 <=? m then s else negb s)
  | FFin x => FFin (x * inject_Z m)
  end.

(** [a > 0] *)
Definition positive (a : float) : bool :=
  match a with
  | FNaN => false
  | FInf s => negb s
  | FFin x => negb (Qle_bool x 0)
  end.

(** [a < 0] *)
Definition negative (a : float) : bool :=
  match a with
  | FNaN => false
  | FInf s => s
  | FFin x => negb (Qle_bool 0 x)
  end.

(** Truncation toward zero of a finite value. *)
Definition truncate (x : Q) : Z :=
  if Qle_bool 0 x then Qfloor x else Qceiling x.

End Float.

(** ** Dates *)

(** A [Date] at a local midnight: its day number, or [None] when invalid. *)
Definition jsdate : Type := option Z.

Module JsDate.

(** Day number of the civil date [y]-[m]-[d] (month [m] in 1..12) in the
    proleptic Gregorian calendar, day 0 being 1970-01-01. *)
Definition daysFromCivil (y m d : Z) : Z :=
  let y' := if m <=? 2 then y - 1 else y in
  let era := y' / 400 in
  let yoe := y' - era * 400 in
  let mp := if 2 <? m then m - 3 else m + 9 in
  let doy := (153 * mp + 2) / 5 + d - 1 in
  let doe := yoe * 365 + yoe / 4 - yoe / 100 + doy in
  era * 146097 + doe - 719468.

(** The civil date (year, month in 1..12, day of month) of a day number. *)
Definition civilFromDays (n : Z) : Z * Z * Z :=
  let z := n + 719468 in
  let era := z / 146097 in
  let doe := z - era * 146097 in
  let yoe := (doe - doe / 1460 + doe / 36524 - doe / 146096) / 365 in
  let doy := doe - (365 * yoe + yoe / 4 - yoe / 100) in
  let mp := (5 * doy + 2) / 153 in
  let d := doy - (153 * mp + 2) / 5 + 1 in
  let m := if mp <? 10 then mp + 3 else mp - 9 in
  let y := yoe + era * 400 in
  (if m <=? 2 then y + 1 else y, m, d).

Definition getFullYear (n : Z) : Z := fst (fst (civilFromDays n)).
(** Month index, 0 for January. *)
Definition getMonth (n : Z) : Z := snd (fst (civilFromDays n)) - 1.
Definition getDate (n : Z) : Z := snd (civilFromDays n).
(** Day of the week, 0 for Sunday; 1970-01-01 was a Thursday. *)
Definition getDay (n : Z) : Z := (n + 4) mod 7.

(** The largest day number of a valid time value (8.64e15 ms). *)
Definition maxDay : Z := 100000000.

(** [new Date(year, monthIndex, day)] on integers: a year in 0..99 means
    1900 + year, the month index and the day overflow into the next or the
    previous months and years, and a date outside the range of time values
    is invalid. *)
Definition make (year monthIndex day : Z) : jsdate :=
  let yr := if (0 <=? year) && (year <=? 99) then 1900 + year else year in
  let ym := yr + monthIndex / 12 in
  let mn := monthIndex mod 12 in
  let n := daysFromCivil ym (mn + 1) 1 + day - 1 in
  if (- maxDay <=? n) && (n <=? maxDay) then Some n else None.

(** [new Date(year, monthIndex, day)] on numbers: a component that is not
    finite gives an invalid date, the others are truncated. *)
Definition ofNumbers (year monthIndex day : float) : jsdate :=
  match year, monthIndex, day with
  | FFin y, FFin m, FFin d =>
      make (Float.truncate y) (Float.truncate m) (Float.truncate d)
  | _, _, _ => None
  end.

(** [d.setDate(k)] on a valid date: day [k] of the month of [d]. *)
Definition setDate (d : Z) (k : Z) : jsdate :=
  let first := d - getDate d + 1 in
  let n := first + k - 1 in
  if (- maxDay <=? n) && (n <=? maxDay) then Some n else None.

(** [a >= b], [a <= b], [a < b], [a > b] and [a.getTime() === b.getTime()]:
    false as soon as one side is invalid. *)
Definition ge (a b : jsdate) : bool :=
  match a, b with Some x, Some y => y <=? x | _, _ => false end.
Definition le (a b : jsdate) : bool :=
  match a, b with Some x, Some y => x <=? y | _, _ => false end.
Definition lt (a b : jsdate) : bool :=
  match a, b with Some x, Some y => x <? y | _, _ => false end.
Definition gt (a b : jsdate) : bool := lt b a.
Definition sameTime (a b : jsdate) : bool :=
  match a, b with Some x, Some y => x =? y | _, _ => false end.

Definition msPerDay : Z := 86400000.

(** [a - b], in milliseconds. *)
Definition diff (a b : jsdate) : float :=
  match a, b with
  | Some x, Some y => Float.ofZ ((x - y) * msPerDay)
  | _, _ => FNaN
  end.

End JsDate.

(** ** The runtime *)

Record Runtime : Type := mkRuntime {
  (** [Number(s)] *)
  toNumber : string -> float;
  (** [parseFloat(s)] *)
  parseFloat : string -> float;
  (** [a.localeCompare(b, 'fr', { sensitivity: 'base', numeric: true })] *)
  localeCompare : string -> string -> float;
  (** [new Date(s)] followed by [setHours(0, 0, 0, 0)]: the local day that
      holds the instant [s] denotes. *)
  localDayOfString : string -> jsdate
}.

(** ** Data model *)

(** The attributes of an element, in document order. *)
Definition attrs : Type := list (string * string).

Module Attr.

Fixpoint getAttribute (name : string) (a : attrs) : option string :=
  match a with
  | [] => None
  | (n, v) :: a' => if String.eqb n name then Some v else getAttribute name a'
  end.

(** An attribute that exists keeps its place, a new one goes last. *)
Fixpoint setAttribute (name value : string) (a : attrs) : attrs :=
  match a with
  | [] => [(name, value)]
  | (n, v) :: a' =>
      if String.eqb n name then (n, value) :: a'
      else (n, v) :: setAttribute name value a'
  end.

Definition removeAttribute (name : string) (a : attrs) : attrs :=
  filter (fun nv => negb (String.eqb (fst nv) name)) a.

End Attr.

(** A cell of the source markup, as the constructor reads it. *)
Record SrcCell : Type := {
  srcInnerHTML : string;
  srcTextContent : string;
  srcInnerText : string;
  srcAttributes : attrs
}.

(** A row of the source markup: its cells. *)
Definition SrcRow : Type := list SrcCell.

(** A cell and a row of the rendered body (a [td] and a [tr] element); the
    [data-original-index] attribute of the row is a field of its own. *)
Record SurfaceCell : Type := {
  cellInnerHTML : string;
  cellAttributes : attrs
}.

Record Surface : Type := {
  dataOriginalIndex : nat;
  surfaceCells : list SurfaceCell
}.

(** Cell Snapshot *)
Record CellData : Type := {
  innerHTML : string;
  textContent : string;
  title : string;
  attributes : attrs
}.

(** Row Record *)
Record RowData : Type := {
  originalIndex : nat;
  element : Surface;
  cells : list CellData
}.

Inductive Direction : Type := Asc | Desc.

Record SortState : Type := {
  column : option nat;
  direction : option Direction
}.

Record DateRange : Type := {
  from : option string;
  to : option string
}.

(** The text of the [.tableInfo] element. *)
Inductive InfoText : Type :=
| InitialText
| Showing (showing : jsnum) (filteredTotal total : nat).

(** An object whose keys are column indices: [Object.entries] lists integer
    keys in ascending order, so the entries are kept in that order. *)
Definition ColumnMap (V : Type) : Type := list (nat * V).

Fixpoint setKey {V : Type} (k : nat) (v : V) (o : ColumnMap V) : ColumnMap V :=
  match o with
  | [] => [(k, v)]
  | (k', v') :: o' =>
      if (k <? k')%nat then (k, v) :: o
      else if (k =? k')%nat then (k, v) :: o'
      else (k', v') :: setKey k v o'
  end.

(** The fields of a [LiteTableManager] that the methods below read or write
    ([allRows], [container], [table] only serve the filter controls and
    [destroy]).  [rowPool] is kept with the last element of the array first:
    [push] is a cons and [pop] takes the head.  [sortButtons] holds, for each
    sort button of the last header row, the direction class it shows.
    [tableInfo] is [None] when the container has no [.tableInfo] element.
    [allocations] counts the rows created by [cloneNode] in [updateTable]. *)
Record State : Type := mkState {
  displayLimit : jsnum;
  currentPageIndex : jsnum;
  currentDateFilters : ColumnMap string;
  currentValueFilters : ColumnMap string;
  currentDateRangeFilters : ColumnMap DateRange;
  currentSort : SortState;
  columnCount : nat;
  rowsCache : list RowData;
  filteredRows : list RowData;
  rowPool : list Surface;
  tbody : list Surface;
  sortButtons : list (option Direction);
  tableInfo : option InfoText;
  allocations : nat
}.

Definition setDisplayLimit (v : jsnum) (s : State) : State :=
  mkState v (currentPageIndex s) (currentDateFilters s) (currentValueFilters s)
    (currentDateRangeFilters s) (currentSort s) (columnCount s) (rowsCache s)
    (filteredRows s) (rowPool s) (tbody s) (sortButtons s) (tableInfo s)
    (allocations s).

Definition setCurrentPageIndex (v : jsnum) (s : State) : State :=
  mkState (displayLimit s) v (currentDateFilters s) (currentValueFilters s)
    (currentDateRangeFilters s) (currentSort s) (columnCount s) (rowsCache s)
    (filteredRows s) (rowPool s) (tbody s) (sortButtons s) (tableInfo s)
    (allocations s).

Definition setCurrentDateFilters (v : ColumnMap string) (s : State) : State :=
  mkState (displayLimit s) (currentPageIndex s) v (currentValueFilters s)
    (currentDateRangeFilters s) (currentSort s) (columnCount s) (rowsCache s)
    (filteredRows s) (rowPool s) (tbody s) (sortButtons s) (tableInfo s)
    (allocations s).

Definition setCurrentValueFilters (v : ColumnMap string) (s : State) : State :=
  mkState (displayLimit s) (currentPageIndex s) (currentDateFilters s) v
    (currentDateRangeFilters s) (currentSort s) (columnCount s) (rowsCache s)
    (filteredRows s) (rowPool s) (tbody s) (sortButtons s) (tableInfo s)
    (allocations s).

Definition setCurrentDateRangeFilters (v : ColumnMap DateRange) (s : State)
  : State :=
  mkState (displayLimit s) (currentPageIndex s) (currentDateFilters s)
    (currentValueFilters s) v (currentSort s) (columnCount s) (rowsCache s)
    (filteredRows s) (rowPool s) (tbody s) (sortButtons s) (tableInfo s)
    (allocations s).

Definition setCurrentSort (v : SortState) (s : State) : State :=
  mkState (displayLimit s) (currentPageIndex s) (currentDateFilters s)
    (currentValueFilters s) (currentDateRangeFilters s) v (columnCount s)
    (rowsCache s) (filteredRows s) (rowPool s) (tbody s) (sortButtons s)
    (tableInfo s) (allocations s).

Definition setRowsCache (v : list RowData) (s : State) : State :=
  mkState (displayLimit s) (currentPageIndex s) (currentDateFilters s)
    (currentValueFilters s) (currentDateRangeFilters s) (currentSort s)
    (columnCount s) v (filteredRows s) (rowPool s) (tbody s) (sortButtons s)
    (tableInfo s) (allocations s).

Definition setFilteredRows (v : list RowData) (s : State) : State :=
  mkState (displayLimit s) (currentPageIndex s) (currentDateFilters s)
    (currentValueFilters s) (currentDateRangeFilters s) (currentSort s)
    (columnCount s) (rowsCache s) v (rowPool s) (tbody s) (sortButtons s)
    (tableInfo s) (allocations s).

Definition setRowPool (v : list Surface) (s : State) : State :=
  mkState (displayLimit s) (currentPageIndex s) (currentDateFilters s)
    (currentValueFilters s) (currentDateRangeFilters s) (currentSort s)
    (columnCount s) (rowsCache s) (filteredRows s) v (tbody s) (sortButtons s)
    (tableInfo s) (allocations s).

Definition setTbody (v : list Surface) (s : State) : State :=
  mkState (displayLimit s) (currentPageIndex s) (currentDateFilters s)
    (currentValueFilters s) (currentDateRangeFilters s) (currentSort s)
    (columnCount s) (rowsCache s) (filteredRows s) (rowPool s) v
    (sortButtons s) (tableInfo s) (allocations s).

Definition setSortButtons (v : list (option Direction)) (s : State) : State :=
  mkState (displayLimit s) (currentPageIndex s) (currentDateFilters s)
    (currentValueFilters s) (currentDateRangeFilters s) (currentSort s)
    (columnCount s) (rowsCache s) (filteredRows s) (rowPool s) (tbody s) v
    (tableInfo s) (allocations s).

Definition setTableInfo (v : option InfoText) (s : State) : State :=
  mkState (displayLimit s) (currentPageIndex s) (currentDateFilters s)
    (currentValueFilters s) (currentDateRangeFilters s) (currentSort s)
    (columnCount s) (rowsCache s) (filteredRows s) (rowPool s) (tbody s)
    (sortButtons s) v (allocations s).

Definition setAllocations (v : nat) (s : State) : State :=
  mkState (displayLimit s) (currentPageIndex s) (currentDateFilters s)
    (currentValueFilters s) (currentDateRangeFilters s) (currentSort s)
    (columnCount s) (rowsCache s) (filteredRows s) (rowPool s) (tbody s)
    (sortButtons s) (tableInfo s) v.

(** Exceptions: [new Error(message)] and the [TypeError] of a property read
    on [undefined] or [null]. *)
Inductive exn : Type :=
| Error (message : string)
| TypeError.

Inductive completion (A : Type) : Type :=
| Normal (a : A)
| Throw (e : exn).

Arguments Normal {A} a.
Arguments Throw {A} e.

(** The outcome of a method: the exception it threw, if any, and the state
    it left. *)
Definition run : Type := (option exn * State)%type.

(** ** [Array.prototype.sort] *)

(** [l.sort(comparefn)]: the sort is stable, and an element moves behind
    another one only when [comparefn] is positive on the pair ([NaN] counts
    as zero).  For a consistent comparator this is the one list every
    conforming engine returns; for an inconsistent one the standard leaves the
    order to the engine, and the model is the insertion sort below. *)
Section ArraySort.

Context {A : Type}.
Variable comparefn : A -> A -> float.

Fixpoint insertSorted (x : A) (l : list A) : list A :=
  match l with
  | [] => [x]
  | y :: l' =>
      if Float.positive (comparefn x y) then y :: insertSorted x l'
      else x :: l
  end.

Fixpoint arraySort (l : list A) : list A :=
  match l with
  | [] => []
  | x :: l' => insertSorted x (arraySort l')
  end.

End ArraySort.

(** ** Row Cache construction (constructor, lines 124-152) *)

(** [getTextContent(element)] *)
Definition getTextContent (element : option SrcCell) : string :=
  match element with
  | None => ""
  | Some e =>
      if Str.truthy (srcTextContent e) then srcTextContent e
      else if Str.truthy (srcInnerText e) then srcInnerText e
      else ""
  end.

(** [getElementAttributes(element)]: every attribute but [style]. *)
Definition getElementAttributes (element : SrcCell) : attrs :=
  filter (fun nv => negb (String.eqb (fst nv) "style")) (srcAttributes element).

Definition snapshotCell (cell : SrcCell) : CellData :=
  {| innerHTML := srcInnerHTML cell;
     textContent := Str.trim (getTextContent (Some cell));
     title := match Attr.getAttribute "title" (srcAttributes cell) with
              | Some t => t
              | None => ""
              end;
     attributes := getElementAttributes cell |}.

(** [row.cloneNode(true)], the row carrying its [data-original-index]. *)
Definition cloneSource (index : nat) (row : SrcRow) : Surface :=
  {| dataOriginalIndex := index;
     surfaceCells :=
       map (fun c => {| cellInnerHTML := srcInnerHTML c;
                        cellAttributes := srcAttributes c |}) row |}.

Definition buildRow (indexed : nat * SrcRow) : RowData :=
  {| originalIndex := fst indexed;
     element := cloneSource (fst indexed) (snd indexed);
     cells := map snapshotCell (snd indexed) |}.

(** [this.rowsCache], from the rows of the body in document order. *)
Definition buildCache (rows : list SrcRow) : list RowData :=
  map buildRow (combine (seq 0 (List.length rows)) rows).

(** ** Cell access *)

(** [rowData.cells[colIndex]] *)
Definition cellAt (rowData : RowData) (colIndex : nat) : option CellData :=
  nth_error (cells rowData) colIndex.

(** [rowData.cells[colIndex]?.textContent || ''] *)
Definition cellText (rowData : RowData) (colIndex : nat) : string :=
  match cellAt rowData colIndex with
  | Some c => textContent c
  | None => ""
  end.

Inductive ColumnType : Type := TypeText | TypeDate | TypeNumber.

Definition dateFormatMessage : string := "Invalid date format. Use DD/MM/YYYY".

Section Engine.

Variable rt : Runtime.

(** ** Date helpers (lines 42-93) *)

(** [dateStr.split('/').map(Number)] read as [[day, month, year]], then
    [new Date(year, month - 1, day)].  A missing piece is [undefined], which
    the arithmetic and the constructor turn into [NaN]. *)
Definition parseDate (dateStr : string) : jsdate :=
  let parts := map (toNumber rt) (Str.splitSlash dateStr) in
  let day := nth 0 parts FNaN in
  let month := nth 1 parts FNaN in
  let year := nth 2 parts FNaN in
  JsDate.ofNumbers year (Float.sub month (Float.ofZ 1)) day.

Definition bindDate (d : jsdate) (f : Z -> jsdate) : jsdate :=
  match d with
  | Some n => f n
  | None => None
  end.

(** [isDateInRange(dateStr, range)]; [now] is the local day number of
    [new Date()]. *)
Definition isDateInRange (now : Z) (dateStr range : string) : completion bool :=
  if negb (Str.isDateFormat dateStr) then Throw (Error dateFormatMessage)
  else
    let date := parseDate dateStr in
    let today :=
      JsDate.make (JsDate.getFullYear now) (JsDate.getMonth now)
        (JsDate.getDate now) in
    if String.eqb range "today" then Normal (JsDate.sameTime date today)
    else if String.eqb range "week" then
      let startOfWeek :=
        bindDate today (fun t =>
          JsDate.setDate t (JsDate.getDate t - JsDate.getDay t)) in
      let endOfWeek :=
        bindDate startOfWeek (fun w =>
          JsDate.setDate w (JsDate.getDate w + 6)) in
      Normal (JsDate.ge date startOfWeek && JsDate.le date endOfWeek)
    else if String.eqb range "month" then
      let startOfMonth :=
        bindDate today (fun t =>
          JsDate.make (JsDate.getFullYear t) (JsDate.getMonth t) 1) in
      let endOfMonth :=
        bindDate today (fun t =>
          JsDate.make (JsDate.getFullYear t) (JsDate.getMonth t + 1) 0) in
      Normal (JsDate.ge date startOfMonth && JsDate.le date endOfMonth)
    else if String.eqb range "quarter" then
      let startOfQuarter :=
        bindDate today (fun t =>
          let currentQuarter := JsDate.getMonth t / 3 in
          JsDate.make (JsDate.getFullYear t) (currentQuarter * 3) 1) in
      let endOfQuarter :=
        bindDate today (fun t =>
          let currentQuarter := JsDate.getMonth t / 3 in
          JsDate.make (JsDate.getFullYear t) ((currentQuarter + 1) * 3) 0) in
      Normal (JsDate.ge date startOfQuarter && JsDate.le date endOfQuarter)
    else if String.eqb range "year" then
      let startOfYear :=
        bindDate today (fun t => JsDate.make (JsDate.getFullYear t) 0 1) in
      let endOfYear :=
        bindDate today (fun t => JsDate.make (JsDate.getFullYear t) 11 31) in
      Normal (JsDate.ge date startOfYear && JsDate.le date endOfYear)
    else Normal true.

(** ** Sort Engine (lines 592-628) *)

(** [this.rowsCache.find(r => r.cells[columnIndex])
      ?.cells[columnIndex].textContent] *)
Definition sampleValue (cache : list RowData) (columnIndex : nat)
  : option string :=
  match find (fun r => match cellAt r columnIndex with
                       | Some _ => true
                       | None => false
                       end) cache with
  | Some r => option_map textContent (cellAt r columnIndex)
  | None => None
  end.

Definition inferColumnType (cache : list RowData) (columnIndex : nat)
  : ColumnType :=
  match sampleValue cache columnIndex with
  | Some sample =>
      if Str.truthy sample then
        if Str.isDateFormat sample then TypeDate
        else if negb (Float.isNaN (toNumber rt (Str.replaceComma sample)))
        then TypeNumber
        else TypeText
      else TypeText
  | None => TypeText
  end.

Definition multiplierOf (d : Direction) : Z :=
  match d with Asc => 1 | Desc => -1 end.

(** The comparator handed to [sort] at lines 607-627. *)
Definition compareRows (columnType : ColumnType) (multiplier : Z)
  (columnIndex : nat) (a b : RowData) : float :=
  let aValue := cellText a columnIndex in
  let bValue := cellText b columnIndex in
  if negb (Str.truthy aValue) && negb (Str.truthy bValue) then Float.ofZ 0
  else if negb (Str.truthy aValue) then Float.ofZ (1 * multiplier)
  else if negb (Str.truthy bValue) then Float.ofZ (-1 * multiplier)
  else
    match columnType with
    | TypeDate =>
        Float.scale (JsDate.diff (parseDate aValue) (parseDate bValue))
          multiplier
    | TypeNumber =>
        Float.scale
          (Float.sub (parseFloat rt (Str.replaceComma aValue))
             (parseFloat rt (Str.replaceComma bValue)))
          multiplier
    | TypeText => Float.scale (localeCompare rt aValue bValue) multiplier
    end.

(** [sortRows(columnIndex, direction)] on the cache. *)
Definition sortCache (columnIndex : nat) (d : Direction)
  (cache : list RowData) : list RowData :=
  arraySort
    (compareRows (inferColumnType cache columnIndex) (multiplierOf d)
       columnIndex)
    cache.

Definition sortRows (columnIndex : nat) (d : Direction) (s : State) : State :=
  setRowsCache (sortCache columnIndex d (rowsCache s)) s.

(** [this.rowsCache.sort((a, b) => a.originalIndex - b.originalIndex)] *)
Definition compareOriginalIndex (a b : RowData) : float :=
  Float.sub (Float.ofNat (originalIndex a)) (Float.ofNat (originalIndex b)).

Definition restoreOriginalOrder (s : State) : State :=
  setRowsCache (arraySort compareOriginalIndex (rowsCache s)) s.

(** ** Filter Engine (lines 501-531) *)

(** The loop over [Object.entries(this.currentDateFilters)] for one row. *)
Fixpoint dateFiltersPass (now : Z) (rowData : RowData)
  (entries : ColumnMap string) : completion bool :=
  match entries with
  | [] => Normal true
  | (colIndex, filterVal) :: rest =>
      if negb (Str.truthy filterVal) then dateFiltersPass now rowData rest
      else
        match isDateInRange now (cellText rowData colIndex) filterVal with
        | Throw e => Throw e
        | Normal false => Normal false
        | Normal true => dateFiltersPass now rowData rest
        end
  end.

(** A bound of a date range is set when it is neither [null] nor empty. *)
Definition bound (b : option string) : option string :=
  match b with
  | Some v => if Str.truthy v then Some v else None
  | None => None
  end.

(** The loop over [Object.entries(this.currentDateRangeFilters)]. *)
Fixpoint rangeFiltersPass (rowData : RowData) (entries : ColumnMap DateRange)
  : bool :=
  match entries with
  | [] => true
  | (colIndex, range) :: rest =>
      match bound (from range), bound (to range) with
      | None, None => rangeFiltersPass rowData rest
      | f, t =>
          let cellVal := cellText rowData colIndex in
          if negb (Str.isDateFormat cellVal) then false
          else
            let cellDate := parseDate cellVal in
            if match f with
               | Some v => JsDate.lt cellDate (localDayOfString rt v)
               | None => false
               end then false
            else if match t with
                    | Some v => JsDate.gt cellDate (localDayOfString rt v)
                    | None => false
                    end then false
            else rangeFiltersPass rowData rest
      end
  end.

(** The loop over [Object.entries(this.currentValueFilters)]. *)
Fixpoint valueFiltersPass (rowData : RowData) (entries : ColumnMap string)
  : bool :=
  match entries with
  | [] => true
  | (colIndex, filterVal) :: rest =>
      if negb (Str.truthy filterVal) then valueFiltersPass rowData rest
      else if negb (String.eqb (cellText rowData colIndex) filterVal) then false
      else valueFiltersPass rowData rest
  end.

(** The callback of [this.rowsCache.filter] at lines 502-530. *)
Definition rowPasses (now : Z) (s : State) (rowData : RowData)
  : completion bool :=
  match dateFiltersPass now rowData (currentDateFilters s) with
  | Throw e => Throw e
  | Normal false => Normal false
  | Normal true =>
      if negb (rangeFiltersPass rowData (currentDateRangeFilters s))
      then Normal false
      else Normal (valueFiltersPass rowData (currentValueFilters s))
  end.

(** [l.filter(f)] for a callback that may throw: the first exception ends
    the traversal. *)
Fixpoint filterRows (f : RowData -> completion bool) (l : list RowData)
  : completion (list RowData) :=
  match l with
  | [] => Normal []
  | r :: l' =>
      match f r with
      | Throw e => Throw e
      | Normal keep =>
          match filterRows f l' with
          | Throw e => Throw e
          | Normal kept => Normal (if keep then r :: kept else kept)
          end
      end
  end.

(** [applyFilters()]: the value assigned to [this.filteredRows], or the
    exception that prevents the assignment. *)
Definition applyFilters (now : Z) (s : State) : completion (list RowData) :=
  filterRows (rowPasses now s) (rowsCache s).

(** ** Reconciler: the render loop (lines 455-489) *)

(** The patch of one cell of a reused row (lines 468-480). *)
Definition patchCell (cell : SurfaceCell) (data : CellData) : SurfaceCell :=
  let retitled :=
    if Str.truthy (title data)
    then Attr.setAttribute "title" (title data) (cellAttributes cell)
    else Attr.removeAttribute "title" (cellAttributes cell) in
  {| cellInnerHTML := innerHTML data;
     cellAttributes :=
       fold_left
         (fun acc nv =>
            if negb (String.eqb (fst nv) "innerHTML")
            then Attr.setAttribute (fst nv) (snd nv) acc
            else acc)
         (attributes data) retitled |}.

(** The loop over [j] at lines 466-482: the cells the row has, as far as
    the record has cells. *)
Fixpoint patchCells (trCells : list SurfaceCell) (data : list CellData)
  : list SurfaceCell :=
  match trCells, data with
  | c :: cs, d :: ds => patchCell c d :: patchCells cs ds
  | cs, [] => cs
  | [], _ => []
  end.

(** [this.filteredRows[i]] *)
Definition rowAt (s : State) (i : Z) : option RowData :=
  if i <? 0 then None else nth_error (filteredRows s) (Z.to_nat i).

Definition appendChild (tr : Surface) (s : State) : State :=
  setTbody (tbody s ++ [tr]) s.

Definition tagged (index : nat) (tr : Surface) : Surface :=
  {| dataOriginalIndex := index; surfaceCells := surfaceCells tr |}.

(** One turn of the loop at lines 460-489, for the index [i]. *)
Definition renderRow (s : State) (i : Z) : run :=
  match rowPool s with
  | tr :: pool =>
      let s' := setRowPool pool s in
      match rowAt s i with
      | None => (Some TypeError, s')
      | Some rowData =>
          let patched :=
            {| dataOriginalIndex := dataOriginalIndex tr;
               surfaceCells :=
                 patchCells (surfaceCells tr) (cells rowData) |} in
          (None, appendChild (tagged (originalIndex rowData) patched) s')
      end
  | [] =>
      match rowAt s i with
      | None => (Some TypeError, s)
      | Some rowData =>
          let s' := setAllocations (S (allocations s)) s in
          (None,
           appendChild (tagged (originalIndex rowData) (element rowData)) s')
      end
  end.

Fixpoint renderLoop (turns : nat) (i : Z) (s : State) : run :=
  match turns with
  | O => (None, s)
  | S turns' =>
      match renderRow s i with
      | (Some e, s') => (Some e, s')
      | (None, s') => renderLoop turns' (i + 1) s'
      end
  end.

(** [for (let i = minIndex; i < maxIndex; i++)].  Between two integers the
    loop has [maxIndex - minIndex] turns; from [-Infinity] its first turn
    reads an entry that does not exist; under an infinite [maxIndex] it runs
    until the index leaves the array. *)
Definition renderRows (minIndex maxIndex : jsnum) (s : State) : run :=
  if JsNum.lt minIndex maxIndex then
    match minIndex, maxIndex with
    | Num a, Num b => renderLoop (Z.to_nat (b - a)) a s
    | Num a, _ =>
        renderLoop
          (Z.to_nat (Z.max 1 (Z.of_nat (List.length (filteredRows s)) + 1 - a)))
          a s
    | _, _ => renderRow s (-1)
    end
  else (None, s).

(** The loop at lines 455-458: every displayed row goes to the pool. *)
Definition detachRows (s : State) : State :=
  setTbody [] (setRowPool (rev (tbody s) ++ rowPool s) s).

(** ** View Controller (lines 438-498 and 534-589) *)

(** The first step of [updateTable] (lines 439-441). *)
Definition sortPhase (s : State) : State :=
  match column (currentSort s), direction (currentSort s) with
  | Some c, Some d => sortRows c d s
  | _, _ => s
  end.

Definition totalPagesOf (s : State) : jsnum :=
  JsNum.ceilDiv (JsNum.ofNat (List.length (filteredRows s))) (displayLimit s).

(** Lines 444-447. *)
Definition clampPage (s : State) : State :=
  if JsNum.gt (currentPageIndex s) (totalPagesOf s)
  then setCurrentPageIndex (Num 1) s
  else s.

Definition minIndexOf (s : State) : jsnum :=
  JsNum.mul (displayLimit s) (JsNum.sub (currentPageIndex s) (Num 1)).

Definition maxIndexOf (s : State) : jsnum :=
  JsNum.min (JsNum.mul (displayLimit s) (currentPageIndex s))
    (JsNum.ofNat (List.length (filteredRows s))).

(** Lines 491-494. *)
Definition publishInfo (minIndex maxIndex : jsnum) (s : State) : run :=
  match tableInfo s with
  | None => (Some TypeError, s)
  | Some _ =>
      (None,
       setTableInfo
         (Some (Showing (JsNum.sub maxIndex minIndex)
                  (List.length (filteredRows s)) (List.length (rowsCache s))))
         s)
  end.

(** [updateTable()].  The pagination buttons that [updatePagination]
    rebuilds at the end are not part of the state. *)
Definition updateTable (now : Z) (s : State) : run :=
  let s1 := sortPhase s in
  match applyFilters now s1 with
  | Throw e => (Some e, s1)
  | Normal kept =>
      let s2 := clampPage (setFilteredRows kept s1) in
      let minIndex := minIndexOf s2 in
      let maxIndex := maxIndexOf s2 in
      match renderRows minIndex maxIndex (detachRows s2) with
      | (Some e, s3) => (Some e, s3)
      | (None, s3) => publishInfo minIndex maxIndex s3
      end
  end.

(** The direction a click gives (lines 538-545 and 566-573). *)
Definition nextDirection (current : SortState) (columnIndex : nat)
  : option Direction :=
  match column current with
  | Some c =>
      if (c =? columnIndex)%nat then
        match direction current with
        | Some Asc => Some Desc
        | Some Desc => None
        | None => Some Asc
        end
      else Some Asc
  | None => Some Asc
  end.

(** [querySelectorAll('thead tr:last-child th button')[columnIndex - 1]] *)
Definition buttonOf (s : State) (columnIndex : nat)
  : option (option Direction) :=
  match columnIndex with
  | O => None
  | S k => nth_error (sortButtons s) k
  end.

Fixpoint markButtons (k : nat) (d : option Direction)
  (buttons : list (option Direction)) : list (option Direction) :=
  match buttons with
  | [] => []
  | b :: bs =>
      match k with
      | O => d :: map (fun _ => None) bs
      | S k' => None :: markButtons k' d bs
      end
  end.

(** [handleSort(columnIndex)] *)
Definition handleSort (now : Z) (columnIndex : nat) (s : State) : run :=
  let d := nextDirection (currentSort s) columnIndex in
  let sorted :=
    {| column := match d with Some _ => Some columnIndex | None => None end;
       direction := d |} in
  match buttonOf s columnIndex with
  | None =>
      let s1 := setCurrentSort sorted s in
      let s2 :=
        match d with
        | None => restoreOriginalOrder s1
        | Some _ => s1
        end in
      updateTable now s2
  | Some _ =>
      let s1 := setCurrentSort sorted s in
      let s2 :=
        setSortButtons (markButtons (columnIndex - 1) d (sortButtons s1)) s1 in
      let s3 :=
        match d with
        | None => restoreOriginalOrder s2
        | Some _ => s2
        end in
      updateTable now s3
  end.

(** ** Construction (lines 104-181) *)

(** What the constructor reads of the container: the table ([headerCells] is
    the number of [th] of the last header row, [bodyRows] the rows of the
    body) and whether it holds a [.tableInfo] element.  The table is taken to
    have a [tbody], and the header cells to hold no button of their own. *)
Record Table : Type := {
  headerCells : nat;
  bodyRows : list SrcRow
}.

Record Container : Type := {
  table : option Table;
  hasTableInfo : bool
}.

(** The test of lines 165-166 on the cell of a row. *)
Definition looksLikeDate (rowData : RowData) (colIndex : nat) : bool :=
  match cellAt rowData colIndex with
  | Some c =>
      let cellVal := Str.trim (Str.stripTags (textContent c)) in
      Str.truthy cellVal && Str.isDateFormat cellVal
  | None => false
  end.

(** The loops of lines 163-176: the first column, from column 2 on and
    below the number of header cells, in which some row holds a date. *)
Definition findDateColumn (headerCount : nat) (cache : list RowData)
  : option nat :=
  find (fun colIndex => existsb (fun r => looksLikeDate r colIndex) cache)
    (seq 2 (headerCount - 2)).

(** [sortButtons[k].classList.add('desc')], when the button exists. *)
Fixpoint addDesc (k : nat) (buttons : list (option Direction))
  : list (option Direction) :=
  match buttons, k with
  | [], _ => []
  | _ :: bs, O => Some Desc :: bs
  | b :: bs, S k' => b :: addDesc k' bs
  end.

(** [new LiteTableManager(tableContainer)].  Outside the test environment
    [initColumnsFilters] gives every header cell but the first a sort
    button.  The teardown of a manager already bound to the container and
    the creation of the filter controls are not modelled. *)
Definition newLiteTableManager (now : Z) (isTestEnvironment : bool)
  (tableContainer : option Container) : completion State :=
  match tableContainer with
  | None => Throw (Error "Table container is required")
  | Some container =>
      match table container with
      | None => Throw (Error "No table found in container")
      | Some t =>
          let cache := buildCache (bodyRows t) in
          let buttons :=
            if isTestEnvironment then []
            else repeat None (headerCells t - 1) in
          let s0 :=
            {| displayLimit := Num 25;
               currentPageIndex := Num 1;
               currentDateFilters := [];
               currentValueFilters := [];
               currentDateRangeFilters := [];
               currentSort := {| column := None; direction := None |};
               columnCount := headerCells t;
               rowsCache := cache;
               filteredRows := cache;
               rowPool := [];
               tbody := [];
               sortButtons := buttons;
               tableInfo := if hasTableInfo container then Some InitialText
                            else None;
               allocations := 0 |} in
          let s1 :=
            match findDateColumn (headerCells t) cache with
            | Some colIndex =>
                setSortButtons (addDesc (colIndex - 1) buttons)
                  (setCurrentSort
                     {| column := Some colIndex; direction := Some Desc |} s0)
            | None => s0
            end in
          match updateTable now s1 with
          | (Some e, _) => Throw e
          | (None, s2) => Normal s2
          end
      end
  end.

(** ** Entry points *)

Definition digitValue (radix : Z) (c : ascii) : option Z :=
  let n := Z.of_nat (nat_of_ascii c) in
  let v :=
    if (48 <=? n) && (n <=? 57) then n - 48
    else if (97 <=? n) && (n <=? 122) then n - 87
    else if (65 <=? n) && (n <=? 90) then n - 55
    else radix in
  if v <? radix then Some v else None.

Fixpoint readDigits (radix : Z) (acc : option Z) (s : string) : option Z :=
  match s with
  | EmptyString => acc
  | String c s' =>
      match digitValue radix c with
      | Some v =>
          readDigits radix
            (Some (match acc with Some a => a * radix + v | None => v end)) s'
      | None => acc
      end
  end.

(** [parseInt(s)]: leading white space, a sign, a [0x] prefix, then the
    longest run of digits; [NaN] without a digit. *)
Definition parseInt (s : string) : jsnum :=
  let s1 := Str.trimStart s in
  let signed :=
    match s1 with
    | String "-" r => (true, r)
    | String "+" r => (false, r)
    | _ => (false, s1)
    end in
  let prefixed :=
    match snd signed with
    | String "0" (String "x" r) => (16, r)
    | String "0" (String "X" r) => (16, r)
    | r => (10, r)
    end in
  match readDigits (fst prefixed) None (snd prefixed) with
  | Some v => Num (if fst signed then - v else v)
  | None => NaN
  end.

(** The calls that change the state: the listeners the constructor installs
    (a click on a page button is the event with the page index the button
    carries), the public [updateTable], and [sortRows] and [applyFilters]
    called directly, as the tests do. *)
Inductive Event : Type :=
| HeaderClick (columnIndex : nat)
| DateFilterChange (colIndex : nat) (value : string)
| ValueFilterChange (colIndex : nat) (value : string)
| DateRangeChange (colIndex : nat) (fromValue toValue : string)
| DisplayLimitChange (value : string)
| PageClick (pageIndex : jsnum)
| UpdateTable
| SortRows (columnIndex : nat) (d : Direction)
| ApplyFilters.

(** [input.value || null] *)
Definition valueOrNull (v : string) : option string :=
  if Str.truthy v then Some v else None.

Definition dispatch (now : Z) (e : Event) (s : State) : run :=
  match e with
  | HeaderClick columnIndex => handleSort now columnIndex s
  | DateFilterChange colIndex value =>
      updateTable now
        (setCurrentDateFilters (setKey colIndex value (currentDateFilters s)) s)
  | ValueFilterChange colIndex value =>
      updateTable now
        (setCurrentValueFilters
           (setKey colIndex value (currentValueFilters s)) s)
  | DateRangeChange colIndex fromValue toValue =>
      updateTable now
        (setCurrentDateRangeFilters
           (setKey colIndex
              {| from := valueOrNull fromValue; to := valueOrNull toValue |}
              (currentDateRangeFilters s)) s)
  | DisplayLimitChange value =>
      updateTable now
        (setDisplayLimit
           (if String.eqb value "all" then PInf else parseInt value) s)
  | PageClick pageIndex => updateTable now (setCurrentPageIndex pageIndex s)
  | UpdateTable => updateTable now s
  | SortRows columnIndex d => (None, sortRows columnIndex d s)
  | ApplyFilters =>
      match applyFilters now s with
      | Throw e => (Some e, s)
      | Normal kept => (None, setFilteredRows kept s)
      end
  end.

(** The states a manager goes through: each event, fired at some date,
    leaves the state of its run, thrown exception or not. *)
Inductive Reachable (s0 : State) : State -> Prop :=
| reach_init : Reachable s0 s0
| reach_step (s : State) (now : Z) (e : Event) :
    Reachable s0 s -> Reachable s0 (snd (dispatch now e s)).

(** The states of a run of [events]. *)
Fixpoint runEvents (events : list (Z * Event)) (s : State) : State :=
  match events with
  | [] => s
  | (now, e) :: rest => runEvents rest (snd (dispatch now e s))
  end.

End Engine.

(** ** A reference runtime

    A runtime to run the functions on concrete tables: plain decimal
    literals (a sign, digits, a fraction) read exactly, byte order on
    lower-cased text for the collation, and the time zone UTC.  It agrees
    with an engine on the literals it reads; nothing is proved from it but
    concrete runs. *)

Module Ref.

(** Reads a run of decimal digits after [acc]: the value, the number of
    digits read and the rest. *)
Fixpoint readRun (acc : Z) (count : nat) (s : string) : Z * nat * string :=
  match s with
  | EmptyString => (acc, count, s)
  | String c s' =>
      if Str.isDigit c
      then readRun (acc * 10 + (Z.of_nat (nat_of_ascii c) - 48)) (S count) s'
      else (acc, count, s)
  end.

(** Reads digits with an optional fraction: the value and the rest. *)
Definition readDecimal (s : string) : option (Q * string) :=
  let '(whole, n, r) := readRun 0 0 s in
  match r with
  | String "." r' =>
      let '(mantissa, k, r'') := readRun whole 0 r' in
      if (n + k =? 0)%nat then None
      else Some (Qmake mantissa (Z.to_pos (10 ^ Z.of_nat k)), r'')
  | _ => if (n =? 0)%nat then None else Some (inject_Z whole, r)
  end.

Definition readSigned (s : string) : option (Q * string) :=
  match s with
  | String "-" r =>
      match readDecimal r with
      | Some (q, rest) => Some (Qopp q, rest)
      | None => None
      end
  | String "+" r => readDecimal r
  | _ => readDecimal s
  end.

Definition toNumber (s : string) : float :=
  match Str.trim s with
  | EmptyString => Float.ofZ 0
  | t =>
      match readSigned t with
      | Some (q, EmptyString) => FFin q
      | _ => FNaN
      end
  end.

Definition parseFloat (s : string) : float :=
  match readSigned (Str.trimStart s) with
  | Some (q, _) => FFin q
  | None => FNaN
  end.

Definition lower (c : ascii) : nat :=
  let n := nat_of_ascii c in
  if (65 <=? n)%nat && (n <=? 90)%nat then (n + 32)%nat else n.

Fixpoint localeCompare (a b : string) : float :=
  match a, b with
  | EmptyString, EmptyString => Float.ofZ 0
  | EmptyString, String _ _ => Float.ofZ (-1)
  | String _ _, EmptyString => Float.ofZ 1
  | String x a', String y b' =>
      if (lower x <? lower y)%nat then Float.ofZ (-1)
      else if (lower y <? lower x)%nat then Float.ofZ 1
      else localeCompare a' b'
  end.

(** [YYYY-MM-DD], read as a day of the time zone UTC. *)
Definition localDayOfString (s : string) : jsdate :=
  match list_ascii_of_string s with
  | [y1; y2; y3; y4; s1; m1; m2; s2; d1; d2] =>
      if forallb Str.isDigit [y1; y2; y3; y4; m1; m2; d1; d2]
         && Ascii.eqb s1 "-" && Ascii.eqb s2 "-"
      then
        let digit c := Z.of_nat (nat_of_ascii c) - 48 in
        let y := ((digit y1 * 10 + digit y2) * 10 + digit y3) * 10 + digit y4 in
        let m := digit m1 * 10 + digit m2 in
        let d := digit d1 * 10 + digit d2 in
        if (1 <=? m) && (m <=? 12) && (1 <=? d) && (d <=? 31)
        then Some (JsDate.daysFromCivil y m d)
        else None
      else None
  | _ => None
  end.

Definition runtime : Runtime :=
  mkRuntime toNumber parseFloat localeCompare localDayOfString.

End Ref.


(** ** Properties, in the words of the specification *)

(** The half-open index range [[a, b)] of a list. *)
Definition slice {A : Type} (a b : Z) (l : list A) : list A :=
  firstn (Z.to_nat (b - a)) (skipn (Z.to_nat a) l).

(** The sort key of a row is empty. *)
Definition emptyKey (columnIndex : nat) (rowData : RowData) : bool :=
  negb (Str.truthy (cellText rowData columnIndex)).

(** Some row of the cache holds, in the column, a cell whose text matches
    [DD/MM/YYYY] once its tag-like runs are removed and the result trimmed. *)
Definition holdsDate (cache : list RowData) (colIndex : nat) : Prop :=
  exists r c,
    In r cache /\ cellAt r colIndex = Some c /\
    Str.isDateFormat (Str.trim (Str.stripTags (textContent c))) = true.

(** Some row of the cache holds, in the column, a cell whose text matches
    [DD/MM/YYYY]. *)
Definition holdsPlainDate (cache : list RowData) (colIndex : nat) : Prop :=
  exists r c,
    In r cache /\ cellAt r colIndex = Some c /\
    Str.isDateFormat (textContent c) = true.

(** A date range with a bound set. *)
Definition rangeActive (range : DateRange) : bool :=
  match bound (from range), bound (to range) with
  | None, None => false
  | _, _ => true
  end.

(** The first active entry of the bucketed-date filters. *)
Definition firstActive (entries : ColumnMap string) : option (nat * string) :=
  find (fun e => Str.truthy (snd e)) entries.

Section Predicates.

Variable rt : Runtime.

(** A row passes a categorical entry: the entry is inactive or the text of
    the cell is the filter value. *)
Definition categoricalOK (rowData : RowData) (entry : nat * string) : bool :=
  negb (Str.truthy (snd entry))
  || String.eqb (cellText rowData (fst entry)) (snd entry).

(** A row passes a date-range entry: the entry is inactive, or the text of
    the cell is a date that is neither before the lower bound nor after the
    upper bound. *)
Definition rangeOK (rowData : RowData) (entry : nat * DateRange) : bool :=
  negb (rangeActive (snd entry))
  || (Str.isDateFormat (cellText rowData (fst entry))
      && negb (match bound (from (snd entry)) with
               | Some v =>
                   JsDate.lt (parseDate rt (cellText rowData (fst entry)))
                     (localDayOfString rt v)
               | None => false
               end)
      && negb (match bound (to (snd entry)) with
               | Some v =>
                   JsDate.gt (parseDate rt (cellText rowData (fst entry)))
                     (localDayOfString rt v)
               | None => false
               end)).

(** A row passes a bucketed-date entry: the entry is inactive, or the text
    of the cell is a date of the bucket. *)
Definition bucketOK (now : Z) (rowData : RowData) (entry : nat * string)
  : bool :=
  negb (Str.truthy (snd entry))
  || match isDateInRange rt now (cellText rowData (fst entry)) (snd entry) with
     | Normal b => b
     | Throw _ => false
     end.

(** The conjunction of every predicate of the Filter State. *)
Definition passesEvery (now : Z) (s : State) (rowData : RowData) : bool :=
  forallb (bucketOK now rowData) (currentDateFilters s)
  && forallb (rangeOK rowData) (currentDateRangeFilters s)
  && forallb (categoricalOK rowData) (currentValueFilters s).

(** The surfaces: the pool, the displayed rows and the allocation count. *)
Definition surfacesOf (s : State) : list Surface * list Surface * nat :=
  (rowPool s, tbody s, allocations s).

(** A sequence of update cycles that each show at most [K] rows.  Between
    two cycles anything but the surfaces may change (filters, sort state,
    page, display limit, cache order).  A cycle either returns, or is
    ended by the exception of a filter before it touches a surface. *)
Inductive Cycles (K : nat) (s0 : State) : State -> Prop :=
| cycles_start : Cycles K s0 s0
| cycles_render (s1 s2 s3 : State) (now : Z) :
    Cycles K s0 s1 ->
    surfacesOf s2 = surfacesOf s1 ->
    updateTable rt now s2 = (None, s3) ->
    (List.length (tbody s3) <= K)%nat ->
    Cycles K s0 s3
| cycles_abort (s1 s2 : State) (now : Z) (e : exn) :
    Cycles K s0 s1 ->
    surfacesOf s2 = surfacesOf s1 ->
    applyFilters rt now (sortPhase rt s2) = Throw e ->
    Cycles K s0 (snd (updateTable rt now s2)).

End Predicates.

(** ** Concrete tables *)

Module Demo.

(** A cell whose markup is its text. *)
Definition cell (text : string) : SrcCell :=
  {| srcInnerHTML := text;
     srcTextContent := text;
     srcInnerText := "";
     srcAttributes := [] |}.

Definition row (texts : list string) : SrcRow := map cell texts.

(** The table of [tests/sorting-filtering.test.js]. *)
Definition rows : list SrcRow :=
  [ row ["1"; "Active"; "15/04/2025"; "100"];
    row ["2"; "Inactive"; "20/03/2025"; "250"];
    row ["3"; "Pending"; "05/05/2025"; "75,5"];
    row ["4"; "Active"; "10/02/2025"; "300"];
    row ["5"; "Inactive"; "30/04/2025"; "125"] ].

Definition statusTable : Table := {| headerCells := 4; bodyRows := rows |}.

Definition container : Container :=
  {| table := Some statusTable; hasTableInfo := true |}.

(** 2025-11-02 *)
Definition today : Z := 20394.

Definition blank : State :=
  mkState NaN NaN [] [] [] {| column := None; direction := None |} 0
    [] [] [] [] [] None 0.

Definition stateOf (c : completion State) : State :=
  match c with
  | Normal s => s
  | Throw _ => blank
  end.

(** The manager of [container], built in the test environment. *)
Definition initial : State :=
  Eval vm_compute in
    stateOf (newLiteTableManager Ref.runtime today true (Some container)).

(** After a click on the header of column 3 and a direct [sortRows]. *)
Definition sorted : State :=
  snd (dispatch Ref.runtime today (SortRows 1 Desc)
         (snd (dispatch Ref.runtime today (HeaderClick 3) initial))).

(** A page size of 2. *)
Definition narrowed : State := setDisplayLimit (Num 2) initial.

Definition paged : State := snd (updateTable Ref.runtime today narrowed).

(** Page 3 of pages of 2 rows. *)
Definition thirdPage : State := setCurrentPageIndex (Num 3) narrowed.

(** The display limit set to [all]. *)
Definition unbounded : State :=
  snd (dispatch Ref.runtime today (DisplayLimitChange "all") initial).

(** A bucketed-date filter, and a date-range filter, on the column of the
    status. *)
Definition bucketOnStatus : State :=
  setCurrentDateFilters [(1%nat, "week")] initial.

Definition rangeOnStatus : State :=
  setCurrentDateRangeFilters
    [(1%nat, {| from := Some "2025-04-01"; to := None |})] initial.

Definition firstRow : RowData :=
  Eval vm_compute in nth 0 (buildCache rows) (buildRow (0%nat, [])).

(** A categorical filter on the column of the status. *)
Definition activeOnly : State :=
  setCurrentValueFilters [(1%nat, "Active")] initial.

(** A column with a date and an empty cell. *)
Definition gapCache : list RowData :=
  Eval vm_compute in buildCache [row ["01/02/2025"]; row [""]].

Definition gapDate : RowData :=
  Eval vm_compute in nth 0 gapCache (buildRow (0%nat, [])).

Definition gapEmpty : RowData :=
  Eval vm_compute in nth 1 gapCache (buildRow (0%nat, [])).

(** A column of dates under an empty first cell. *)
Definition blankFirstCache : list RowData :=
  Eval vm_compute in
    buildCache [row [""]; row ["02/01/2025"]; row ["01/02/2025"]].

(** A date in column 2 of a table whose last header row has two cells. *)
Definition narrowHeaderRows : list SrcRow := [row ["1"; "a"; "01/01/2025"]].

Definition narrowHeader : Container :=
  {| table := Some {| headerCells := 2; bodyRows := narrowHeaderRows |};
     hasTableInfo := true |}.

(** A text with a tag-like run before a date, in column 2. *)
Definition taggedRows : list SrcRow :=
  [row ["1"; "a"; "<i>01/01/2025"]; row ["2"; "b"; "x"]].

Definition taggedDate : Container :=
  {| table := Some {| headerCells := 3; bodyRows := taggedRows |};
     hasTableInfo := true |}.

End Demo.

(** What the render loop leaves alone: every field but the surfaces and the
    text of [.tableInfo]. *)
Definition controllerOf (s : State) :=
  (displayLimit s, currentPageIndex s, currentDateFilters s,
   currentValueFilters s, currentDateRangeFilters s, currentSort s,
   columnCount s, rowsCache s, filteredRows s, sortButtons s).

(** The order of the source rows. *)
Definition leIndex (a b : RowData) : Prop :=
  (originalIndex a <= originalIndex b)%nat.

(** The elements marked [late] all stand after the others. *)
Definition separated {A : Type} (late : A -> bool) (l : list A) : Prop :=
  exists front back,
    l = front ++ back /\
    Forall (fun a => late a = false) front /\
    Forall (fun a => late a = true) back.

(** ** Pagination bar (lines 401-435) *)

(** [a === b] on numbers. *)
Definition strictEquals (a b : jsnum) : bool :=
  match a, b with
  | Num x, Num y => x =? y
  | PInf, PInf | NInf, NInf => true
  | _, _ => false
  end.

(** The text of a button of the bar: [<<], [>>] or a page number. *)
Inductive ButtonText : Type :=
| FirstPage
| LastPage
| PageNumber (pageNum : jsnum).

(** A button of the bar; [pageIndex] is the page its listener sets (a
    disabled button has no listener). *)
Record PageButton : Type := {
  buttonText : ButtonText;
  pageIndex : jsnum;
  disabled : bool;
  active : bool
}.

(** [createButton(text, pageIndex, isDisabled)] *)
Definition createButton (text : ButtonText) (index : jsnum)
  (isDisabled : bool) : PageButton :=
  {| buttonText := text; pageIndex := index; disabled := isDisabled;
     active := false |}.

(** One turn of the loop of lines 425-432, for the offset [i]. *)
Definition numberedButton (s : State) (totalPages : jsnum) (i : Z)
  : list PageButton :=
  let pageNum := JsNum.add (currentPageIndex s) (Num i) in
  if JsNum.le pageNum (Num 0) then []
  else if JsNum.gt pageNum totalPages then []
  else [ {| buttonText := PageNumber pageNum;
            pageIndex := pageNum;
            disabled := false;
            active := strictEquals pageNum (currentPageIndex s) |} ].

(** [updatePagination()]: the buttons it puts in the
    [.lite-datatable-pagination] element, when the container has one. *)
Definition updatePagination (s : State) : list PageButton :=
  let totalPages := totalPagesOf s in
  let prevDisabled := JsNum.le (currentPageIndex s) (Num 2) in
  let nextDisabled :=
    JsNum.gt (JsNum.add (currentPageIndex s) (Num 2)) totalPages in
  createButton FirstPage (Num 1) prevDisabled
  :: flat_map (numberedButton s totalPages) [-1; 0; 1]
  ++ [createButton LastPage totalPages nextDisabled].

(** The pages the enabled buttons of a bar lead to, in the order of the
    bar. *)
Definition enabledPages (bar : list PageButton) : list jsnum :=
  map pageIndex (filter (fun b => negb (disabled b)) bar).

(** ** The options of a value filter (lines 361-386) *)

(** [a < b] on strings: the order of the code units. *)
Fixpoint lessThan (a b : string) : bool :=
  match a, b with
  | _, EmptyString => false
  | EmptyString, String _ _ => true
  | String x a', String y b' =>
      if (nat_of_ascii x <? nat_of_ascii y)%nat then true
      else if (nat_of_ascii x =? nat_of_ascii y)%nat then lessThan a' b'
      else false
  end.

(** The comparison of [sort()] without comparator, on strings. *)
Definition defaultCompare (a b : string) : float :=
  if lessThan a b then Float.ofZ (-1)
  else if lessThan b a then Float.ofZ 1
  else Float.ofZ 0.

(** [set.add(v)] on a [Set] kept in insertion order. *)
Definition setAdd (v : string) (set : list string) : list string :=
  if existsb (String.eqb v) set then set else set ++ [v].

(** [uniqueVals] after the loop of lines 363-368 over [allRows]. *)
Definition uniqueVals (allRows : list SrcRow) (colIndex : nat) : list string :=
  fold_left
    (fun set row =>
       match nth_error row colIndex with
       | Some cell =>
           let cellVal := Str.trim (getTextContent (Some cell)) in
           if Str.truthy cellVal then setAdd cellVal set else set
       | None => set
       end)
    allRows [].

(** The values of the options [createValueDropdown] gives the select of a
    column: the empty value of [All], then [[...uniqueVals].sort()]. *)
Definition valueOptions (allRows : list SrcRow) (colIndex : nat)
  : list string :=
  "" :: arraySort defaultCompare (uniqueVals allRows colIndex).

(** ** The type of a filter control (lines 276-286) *)

Section Controls.

Variable rt : Runtime.

(** The data type [initGlobalFiltersButtons] infers for a column with the
    class [filtered], from the first row whose cell in the column has a
    text that is not empty once trimmed: a column of dates gets the select
    of the date buckets, any other column the select of its values. *)
Definition filterDataType (allRows : list SrcRow) (colIndex : nat)
  : ColumnType :=
  match find (fun row =>
                match nth_error row colIndex with
                | Some cell =>
                    Str.truthy (Str.trim (getTextContent (Some cell)))
                | None => false
                end) allRows with
  | Some firstNonEmptyCell =>
      let sampleVal :=
        Str.trim (getTextContent (nth_error firstNonEmptyCell colIndex)) in
      if Str.isDateFormat sampleVal then TypeDate
      else if negb (Float.isNaN (toNumber rt (Str.replaceComma sampleVal)))
      then TypeNumber
      else TypeText
  | None => TypeText
  end.

End Controls.

(** ** Further properties, stated *)

(** The events that leave the bucketed-date filters as they are. *)
Definition keepsDateFilters (e : Event) : bool :=
  match e with
  | DateFilterChange _ _ => false
  | _ => true
  end.

(** The view: what the page shows. *)
Definition viewOf (s : State) :=
  (tbody s, tableInfo s, filteredRows s).

(** The state of a manager whose first active bucketed-date filter is on
    the column [colIndex], in which the cell of some row is no date. *)
Definition wedged (colIndex : nat) (filterVal : string) (s : State) : Prop :=
  firstActive (currentDateFilters s) = Some (colIndex, filterVal) /\
  exists r, In r (rowsCache s) /\
            Str.isDateFormat (cellText r colIndex) = false.

(** The indicator the Sort State asks of the button of index [k], which is
    the button of the column [k + 1]. *)
Definition indicatorOf (current : SortState) (k : nat) : option Direction :=
  match column current with
  | Some c => if (c =? S k)%nat then direction current else None
  | None => None
  end.

(** The sort buttons show the Sort State. *)
Definition showsSort (s : State) : Prop :=
  forall k, (k < List.length (sortButtons s))%nat ->
            nth_error (sortButtons s) k = Some (indicatorOf (currentSort s) k).

(** An event a user can fire on a page with [buttons] sort buttons: a click
    on a header is a click on one of the buttons. *)
Definition hitsButton (buttons : nat) (e : Event) : bool :=
  match e with
  | HeaderClick columnIndex =>
      (1 <=? columnIndex)%nat && (columnIndex <=? buttons)%nat
  | _ => true
  end.

(** The keys of an object are distinct, and [Object.entries] lists integer
    keys in ascending order. *)
Definition keysAscend {V : Type} (o : ColumnMap V) : Prop :=
  StronglySorted lt (map fst o).

(** The three filter objects of a manager. *)
Definition filtersAscend (s : State) : Prop :=
  keysAscend (currentDateFilters s) /\
  keysAscend (currentValueFilters s) /\
  keysAscend (currentDateRangeFilters s).

(** The order a direction asks of two sort keys. *)
Definition inOrder (d : Direction) (x y : Q) : Prop :=
  match d with
  | Asc => (x <= y)%Q
  | Desc => (y <= x)%Q
  end.

(** The rows of [l] that have a key stand in the order [d] of their keys. *)
Definition sortedBy (d : Direction) (key : RowData -> option Q)
  (l : list RowData) : Prop :=
  forall i j a b x y,
    (i < j)%nat ->
    nth_error l i = Some a -> nth_error l j = Some b ->
    key a = Some x -> key b = Some y ->
    inOrder d x y.

Section Keys.

Variable rt : Runtime.

(** The key [sortRows] compares on a column of dates: the day number of a
    cell that is not empty and parses to a valid date. *)
Definition dateKey (columnIndex : nat) (r : RowData) : option Q :=
  if emptyKey columnIndex r then None
  else option_map inject_Z (parseDate rt (cellText r columnIndex)).

(** The key [sortRows] compares on a column of numbers: the finite number
    [parseFloat] reads in a cell that is not empty, its first comma taken
    for the decimal point. *)
Definition numberKey (columnIndex : nat) (r : RowData) : option Q :=
  if emptyKey columnIndex r then None
  else match parseFloat rt (Str.replaceComma (cellText r columnIndex)) with
       | FFin q => Some q
       | _ => None
       end.

End Keys.

(** The order [compareRows] induces on the rows whose key is final: the
    keys in the order of the direction, the rows without key after the
    others in ascending order and before them in descending order. *)
Definition keyBefore (d : Direction) (key : RowData -> option Q)
  (a b : RowData) : Prop :=
  match key a, key b with
  | Some x, Some y => inOrder d x y
  | None, Some _ => d = Desc
  | Some _, None => d = Asc
  | None, None => True
  end.

(** A row of the body shows a Row Record: it carries the index of the
    record and, cell by cell, its markup. *)
Definition showsRow (tr : Surface) (r : RowData) : Prop :=
  dataOriginalIndex tr = originalIndex r /\
  map cellInnerHTML (surfaceCells tr) = map innerHTML (cells r).

(** The rows of a table of [width] columns, as the reconciler keeps them:
    the cache and the Filtered View hold records of [known], every row of
    the pool or of the body has [width] cells, and every row of the body
    shows a record of [known]. *)
Definition rendered (known : list RowData) (width : nat) (s : State) : Prop :=
  incl (rowsCache s) known /\
  incl (filteredRows s) known /\
  Forall (fun tr => List.length (surfaceCells tr) = width)
    (rowPool s ++ tbody s) /\
  Forall (fun tr => exists r, In r known /\ showsRow tr r) (tbody s).

(** The records of a table of [width] columns, as the constructor builds
    them. *)
Definition rectangular (known : list RowData) (width : nat) : Prop :=
  forall r, In r known ->
            List.length (cells r) = width /\
            List.length (surfaceCells (element r)) = width /\
            showsRow (element r) r.

(** The months counted from year 0: month [c] is month [c mod 12] (0 for
    January) of the year [c / 12].  [monthStart c] is the day number of its
    first day, [monthOf n] the month that holds the day [n]. *)
Definition monthStart (c : Z) : Z :=
  JsDate.daysFromCivil (c / 12) (c mod 12 + 1) 1.

Definition monthOf (n : Z) : Z :=
  12 * JsDate.getFullYear n + JsDate.getMonth n.

(** A year is a leap year. *)
Definition isLeapYear (y : Z) : bool :=
  (y mod 4 =? 0) && (negb (y mod 100 =? 0) || (y mod 400 =? 0)).

(** The number of days of the month [m] (1 for January) of the year [y]. *)
Definition daysInMonth (y m : Z) : Z :=
  if m =? 2 then (if isLeapYear y then 29 else 28)
  else if (m =? 4) || (m =? 6) || (m =? 9) || (m =? 11) then 30
  else 31.

(** The number a run of decimal digits denotes. *)
Definition digitsValue (s : string) : Z :=
  fold_left (fun acc c => 10 * acc + (Z.of_nat (nat_of_ascii c) - 48))
    (list_ascii_of_string s) 0.

Definition allDigits (s : string) : bool :=
  Str.truthy s && forallb Str.isDigit (list_ascii_of_string s).

(** A runtime whose [Number] reads a run of decimal digits as the number
    it denotes. *)
Definition readsDigits (rt : Runtime) : Prop :=
  forall s, allDigits s = true -> toNumber rt s = Float.ofZ (digitsValue s).

(** ** Proof automation *)

(** [lia] reasons on [/] and [mod] by their Euclidean equations. *)
Ltac Zify.zify_post_hook ::= Z.to_euclidean_division_equations.

(** Closes a goal whose last comparison contradicts the arithmetic. *)
Ltac absurd_order :=
  match goal with
  | H : _ < _ |- _ => exfalso; clear - H; lia
  | H : _ <= _ |- _ => exfalso; clear - H; lia
  | H : _ = _ |- _ => exfalso; clear - H; lia
  | H : _ <> _ |- _ => exfalso; clear - H; lia
  end.

(** Case analysis on every comparison of integers in the goal. *)
Ltac split_ifs :=
  repeat match goal with
  | |- context [?a <? ?b] => destruct (Z.ltb_spec a b); try absurd_order
  | |- context [?a <=? ?b] => destruct (Z.leb_spec a b); try absurd_order
  | |- context [?a =? ?b] => destruct (Z.eqb_spec a b); try absurd_order
  end;
  cbn [andb orb negb].

(** ** More concrete tables *)

Module Sample.

(** The table of the tests on page 3 of pages of 2 rows, after its cycle. *)
Definition lastPage : State :=
  Eval vm_compute in snd (updateTable Ref.runtime Demo.today Demo.thirdPage).

(** A page size that is no number. *)
Definition noLimit : State := setDisplayLimit NaN Demo.initial.

(** The manager of the table of the tests, built outside the test
    environment: the header cells but the first have a sort button. *)
Definition live : State :=
  Eval vm_compute in
    Demo.stateOf
      (newLiteTableManager Ref.runtime Demo.today false (Some Demo.container)).

(** After the selection of [Active] in the value filter of the status. *)
Definition filtered : State :=
  snd (dispatch Ref.runtime Demo.today (ValueFilterChange 1 "Active")
         Demo.initial).

(** The events that follow a bucketed-date filter on the status. *)
Definition laterEvents : list (Z * Event) :=
  [(Demo.today, HeaderClick 3); (Demo.today, PageClick (Num 2))].

(** After the selection of 2 in the page size select. *)
Definition byTwo : State :=
  Eval vm_compute in
    snd (dispatch Ref.runtime Demo.today (DisplayLimitChange "2")
           Demo.initial).

(** Clicks on the buttons of columns 1 and 3, and on a page button. *)
Definition clicks : list (Z * Event) :=
  [(Demo.today, HeaderClick 1); (Demo.today, PageClick (Num 1));
   (Demo.today, HeaderClick 3)].

(** After a click on the header of column 3, by pages of 2 rows. *)
Definition resorted : State :=
  Eval vm_compute in snd (handleSort Ref.runtime Demo.today 3 Demo.paged).

(** A cell a row of the pool kept from the record it displayed, and the
    snapshot of a cell without [class]. *)
Definition usedCell : SurfaceCell :=
  {| cellInnerHTML := "late";
     cellAttributes := [("class", "overdue"); ("title", "3 days")] |}.

Definition plainData : CellData :=
  {| innerHTML := "paid"; textContent := "paid"; title := "";
     attributes := [("id", "c4")] |}.

End Sample.

(** * Properties *)

(** ** [Array.prototype.sort] permutes *)

Section SortFacts.

Context {A : Type}.
Variable comparefn : A -> A -> float.

Lemma insertSorted_perm (x : A) (l : list A) :
  Permutation (insertSorted comparefn x l) (x :: l).
Proof.
  induction l as [|y l IH]; simpl.
  - apply Permutation_refl.
  - destruct (Float.positive (comparefn x y)).
    + apply perm_trans with (y :: x :: l).
      * apply perm_skip, IH.
      * apply perm_swap.
    + apply Permutation_refl.
Qed.

Lemma arraySort_perm (l : list A) : Permutation (arraySort comparefn l) l.
Proof.
  induction l as [|x l IH]; simpl.
  - apply perm_nil.
  - eapply perm_trans; [apply insertSorted_perm|].
    apply perm_skip, IH.
Qed.

End SortFacts.

(** ** The cache as built *)

Lemma buildRows_indices (rows : list SrcRow) (k : nat) :
  map originalIndex (map buildRow (combine (seq k (List.length rows)) rows))
  = seq k (List.length rows).
Proof.
  revert k; induction rows as [|r rows IH]; intro k; simpl.
  - reflexivity.
  - f_equal. apply IH.
Qed.

Lemma buildCache_indices (rows : list SrcRow) :
  map originalIndex (buildCache rows) = seq 0 (List.length rows).
Proof. apply buildRows_indices. Qed.

Lemma buildCache_length (rows : list SrcRow) :
  List.length (buildCache rows) = List.length rows.
Proof.
  rewrite <- (length_map originalIndex), buildCache_indices.
  apply length_seq.
Qed.

(** ** Frame facts of the update cycle *)

Section Frame.

Variable rt : Runtime.

Lemma renderRow_controller (s : State) (i : Z) :
  controllerOf (snd (renderRow s i)) = controllerOf s.
Proof.
  unfold renderRow.
  destruct (rowPool s) as [|tr pool]; destruct (rowAt s i); reflexivity.
Qed.

Lemma renderRow_tableInfo (s : State) (i : Z) :
  tableInfo (snd (renderRow s i)) = tableInfo s.
Proof.
  unfold renderRow.
  destruct (rowPool s) as [|tr pool]; destruct (rowAt s i); reflexivity.
Qed.

Lemma renderLoop_controller (turns : nat) (i : Z) (s : State) :
  controllerOf (snd (renderLoop turns i s)) = controllerOf s.
Proof.
  revert i s; induction turns as [|n IH]; intros i s; simpl.
  - reflexivity.
  - pose proof (renderRow_controller s i) as H.
    destruct (renderRow s i) as [[e|] s']; simpl in *.
    + exact H.
    + rewrite IH. exact H.
Qed.

Lemma renderLoop_tableInfo (turns : nat) (i : Z) (s : State) :
  tableInfo (snd (renderLoop turns i s)) = tableInfo s.
Proof.
  revert i s; induction turns as [|n IH]; intros i s; simpl.
  - reflexivity.
  - pose proof (renderRow_tableInfo s i) as H.
    destruct (renderRow s i) as [[e|] s']; simpl in *.
    + exact H.
    + rewrite IH. exact H.
Qed.

Lemma renderRows_controller (a b : jsnum) (s : State) :
  controllerOf (snd (renderRows a b s)) = controllerOf s.
Proof.
  unfold renderRows.
  destruct (JsNum.lt a b); [|reflexivity].
  destruct a; destruct b;
    first [apply renderLoop_controller | apply renderRow_controller].
Qed.

Lemma renderRows_tableInfo (a b : jsnum) (s : State) :
  tableInfo (snd (renderRows a b s)) = tableInfo s.
Proof.
  unfold renderRows.
  destruct (JsNum.lt a b); [|reflexivity].
  destruct a; destruct b;
    first [apply renderLoop_tableInfo | apply renderRow_tableInfo].
Qed.

Lemma publishInfo_controller (a b : jsnum) (s : State) :
  controllerOf (snd (publishInfo a b s)) = controllerOf s.
Proof. unfold publishInfo. destruct (tableInfo s); reflexivity. Qed.

Lemma rowsCache_of_controller (s s' : State) :
  controllerOf s' = controllerOf s -> rowsCache s' = rowsCache s.
Proof. unfold controllerOf. intro H. injection H. auto. Qed.

Lemma currentSort_of_controller (s s' : State) :
  controllerOf s' = controllerOf s -> currentSort s' = currentSort s.
Proof. unfold controllerOf. intro H. injection H. auto. Qed.

Lemma sortButtons_of_controller (s s' : State) :
  controllerOf s' = controllerOf s -> sortButtons s' = sortButtons s.
Proof. unfold controllerOf. intro H. injection H. auto. Qed.

Lemma clampPage_rowsCache (s : State) : rowsCache (clampPage s) = rowsCache s.
Proof. unfold clampPage. destruct (JsNum.gt _ _); reflexivity. Qed.

Lemma clampPage_currentSort (s : State) :
  currentSort (clampPage s) = currentSort s.
Proof. unfold clampPage. destruct (JsNum.gt _ _); reflexivity. Qed.

Lemma sortPhase_currentSort (s : State) :
  currentSort (sortPhase rt s) = currentSort s.
Proof.
  unfold sortPhase.
  destruct (column (currentSort s)); [|reflexivity].
  destruct (direction (currentSort s)); reflexivity.
Qed.

(** Whatever its outcome, an update cycle leaves the cache as its sort
    step made it, and the Sort State as it found it. *)
Lemma updateTable_rowsCache (now : Z) (s : State) :
  rowsCache (snd (updateTable rt now s)) = rowsCache (sortPhase rt s).
Proof.
  unfold updateTable.
  destruct (applyFilters rt now (sortPhase rt s)) as [kept|e]; [|reflexivity].
  set (s2 := clampPage (setFilteredRows kept (sortPhase rt s))).
  pose proof (renderRows_controller (minIndexOf s2) (maxIndexOf s2)
                (detachRows s2)) as H.
  destruct (renderRows (minIndexOf s2) (maxIndexOf s2) (detachRows s2))
    as [[e|] s3]; simpl in *.
  - rewrite (rowsCache_of_controller _ _ H). simpl.
    unfold s2. rewrite clampPage_rowsCache. reflexivity.
  - rewrite (rowsCache_of_controller _ _ (publishInfo_controller _ _ s3)).
    rewrite (rowsCache_of_controller _ _ H). simpl.
    unfold s2. rewrite clampPage_rowsCache. reflexivity.
Qed.

Lemma updateTable_currentSort (now : Z) (s : State) :
  currentSort (snd (updateTable rt now s)) = currentSort s.
Proof.
  unfold updateTable.
  destruct (applyFilters rt now (sortPhase rt s)) as [kept|e];
    [|apply sortPhase_currentSort].
  set (s2 := clampPage (setFilteredRows kept (sortPhase rt s))).
  pose proof (renderRows_controller (minIndexOf s2) (maxIndexOf s2)
                (detachRows s2)) as H.
  destruct (renderRows (minIndexOf s2) (maxIndexOf s2) (detachRows s2))
    as [[e|] s3]; simpl in *.
  - rewrite (currentSort_of_controller _ _ H). simpl.
    unfold s2. rewrite clampPage_currentSort. simpl.
    apply sortPhase_currentSort.
  - rewrite (currentSort_of_controller _ _ (publishInfo_controller _ _ s3)).
    rewrite (currentSort_of_controller _ _ H). simpl.
    unfold s2. rewrite clampPage_currentSort. simpl.
    apply sortPhase_currentSort.
Qed.

Lemma sortPhase_perm (s : State) :
  Permutation (rowsCache (sortPhase rt s)) (rowsCache s).
Proof.
  unfold sortPhase.
  destruct (column (currentSort s)); [|apply Permutation_refl].
  destruct (direction (currentSort s)); [|apply Permutation_refl].
  apply arraySort_perm.
Qed.

Lemma updateTable_perm (now : Z) (s : State) :
  Permutation (rowsCache (snd (updateTable rt now s))) (rowsCache s).
Proof. rewrite updateTable_rowsCache. apply sortPhase_perm. Qed.

Lemma handleSort_perm (now : Z) (columnIndex : nat) (s : State) :
  Permutation (rowsCache (snd (handleSort rt now columnIndex s))) (rowsCache s).
Proof.
  unfold handleSort.
  destruct (buttonOf s columnIndex);
    destruct (nextDirection (currentSort s) columnIndex);
    (eapply perm_trans; [apply updateTable_perm|]); simpl;
    first [apply Permutation_refl | apply arraySort_perm].
Qed.

Lemma dispatch_perm (now : Z) (e : Event) (s : State) :
  Permutation (rowsCache (snd (dispatch rt now e s))) (rowsCache s).
Proof.
  destruct e; simpl;
    try (eapply perm_trans; [apply updateTable_perm|]; apply Permutation_refl).
  - apply handleSort_perm.
  - apply arraySort_perm.
  - destruct (applyFilters rt now s); apply Permutation_refl.
Qed.

Lemma reachable_perm (s0 s : State) :
  Reachable rt s0 s -> Permutation (rowsCache s) (rowsCache s0).
Proof.
  induction 1 as [|s now e _ IH].
  - apply Permutation_refl.
  - eapply perm_trans; [apply dispatch_perm | exact IH].
Qed.

Lemma constructed_cache (now : Z) (env : bool) (c : Container) (t : Table)
  (s0 : State) :
  table c = Some t ->
  newLiteTableManager rt now env (Some c) = Normal s0 ->
  Permutation (rowsCache s0) (buildCache (bodyRows t)).
Proof.
  intros Ht Hnew. unfold newLiteTableManager in Hnew. rewrite Ht in Hnew.
  match type of Hnew with
  | match updateTable _ _ ?s1 with _ => _ end = _ =>
      pose proof (updateTable_perm now s1) as Hp;
      destruct (updateTable rt now s1) as [[e|] s2]; [discriminate|];
      injection Hnew as <-; simpl in Hp
  end.
  eapply perm_trans; [exact Hp|].
  destruct (findDateColumn (headerCells t) (buildCache (bodyRows t)));
    apply Permutation_refl.
Qed.

End Frame.

(** ** Restoring the original order *)

Lemma positive_compareOriginalIndex (a b : RowData) :
  Float.positive (compareOriginalIndex a b)
  = (originalIndex b <? originalIndex a)%nat.
Proof.
  unfold compareOriginalIndex, Float.ofNat, Float.ofZ, Float.sub,
    Float.positive, Qle_bool, Qminus, Qplus, Qopp, inject_Z.
  simpl.
  destruct (Nat.ltb_spec (originalIndex b) (originalIndex a));
    destruct (Z.leb_spec
                (((Z.of_nat (originalIndex a) * 1
                   + - Z.of_nat (originalIndex b) * 1) * 1)) 0);
    simpl; try reflexivity; lia.
Qed.

Lemma insertSorted_byIndex (x : RowData) (l : list RowData) :
  StronglySorted leIndex l ->
  StronglySorted leIndex (insertSorted compareOriginalIndex x l).
Proof.
  induction 1 as [|y l Hs IH Hy]; cbn [insertSorted].
  - constructor; [constructor | constructor].
  - rewrite positive_compareOriginalIndex.
    destruct (Nat.ltb_spec (originalIndex y) (originalIndex x)) as [Hlt|Hge].
    + constructor; [exact IH|].
      apply (Permutation_Forall
               (Permutation_sym (insertSorted_perm compareOriginalIndex x l))).
      constructor; [unfold leIndex; lia | exact Hy].
    + constructor.
      * constructor; assumption.
      * constructor; [exact Hge|].
        eapply Forall_impl; [|exact Hy].
        intros z Hz. unfold leIndex in *. lia.
Qed.

Lemma arraySort_byIndex (l : list RowData) :
  StronglySorted leIndex (arraySort compareOriginalIndex l).
Proof.
  induction l as [|x l IH]; simpl.
  - constructor.
  - apply insertSorted_byIndex, IH.
Qed.

Lemma sorted_seq (n k : nat) : StronglySorted le (seq k n).
Proof.
  revert k; induction n as [|n IH]; intro k; simpl.
  - constructor.
  - constructor; [apply IH|].
    apply Forall_forall. intros x Hx. apply in_seq in Hx. lia.
Qed.

Lemma sorted_by_index (l : list RowData) :
  StronglySorted le (map originalIndex l) -> StronglySorted leIndex l.
Proof.
  induction l as [|a l IH]; simpl; intro H.
  - constructor.
  - inversion H as [|? ? Hs Hall]; subst.
    constructor; [apply IH, Hs|].
    apply Forall_forall. intros x Hx.
    rewrite Forall_forall in Hall. apply Hall, in_map, Hx.
Qed.

(** Two lists sorted by index that hold the same rows, the indices being
    pairwise distinct, are the same list. *)
Lemma sorted_perm_unique (l1 l2 : list RowData) :
  StronglySorted leIndex l1 ->
  StronglySorted leIndex l2 ->
  NoDup (map originalIndex l1) ->
  Permutation l1 l2 ->
  l1 = l2.
Proof.
  revert l2; induction l1 as [|a l1 IH]; intros l2 H1 H2 Hnd Hp.
  - apply Permutation_nil in Hp. now subst.
  - destruct l2 as [|b l2].
    + apply Permutation_sym, Permutation_nil in Hp. discriminate.
    + inversion H1 as [|? ? Hs1 Ha]; subst.
      inversion H2 as [|? ? Hs2 Hb]; subst.
      simpl in Hnd. inversion Hnd as [|? ? Hnotin Hnd']; subst.
      assert (Hab : a = b).
      { assert (Hin_a : In a (b :: l2))
          by (eapply Permutation_in; [exact Hp | now left]).
        assert (Hin_b : In b (a :: l1))
          by (eapply Permutation_in;
              [apply Permutation_sym; exact Hp | now left]).
        destruct Hin_b as [Heq|Hin_b]; [exact Heq|].
        destruct Hin_a as [Heq|Hin_a]; [now symmetry|].
        rewrite Forall_forall in Ha, Hb.
        pose proof (Ha _ Hin_b) as Hle1. pose proof (Hb _ Hin_a) as Hle2.
        unfold leIndex in *.
        exfalso. apply Hnotin.
        replace (originalIndex a) with (originalIndex b) by lia.
        apply in_map, Hin_b. }
      subst b. f_equal.
      apply IH; try assumption.
      eapply Permutation_cons_inv; exact Hp.
Qed.

Lemma restore_built_order (rows : list SrcRow) (cache : list RowData) :
  Permutation cache (buildCache rows) ->
  arraySort compareOriginalIndex cache = buildCache rows.
Proof.
  intro Hp.
  apply sorted_perm_unique.
  - apply arraySort_byIndex.
  - apply sorted_by_index. rewrite buildCache_indices. apply sorted_seq.
  - apply (Permutation_NoDup
             (l := map originalIndex (buildCache rows))).
    + apply Permutation_map, Permutation_sym.
      eapply perm_trans; [apply arraySort_perm | exact Hp].
    + rewrite buildCache_indices. apply seq_NoDup.
  - eapply perm_trans; [apply arraySort_perm | exact Hp].
Qed.

Section Claims.

Variable rt : Runtime.

Lemma reachable_built_cache (now : Z) (env : bool) (c : Container)
  (t : Table) (s0 s : State) :
  table c = Some t ->
  newLiteTableManager rt now env (Some c) = Normal s0 ->
  Reachable rt s0 s ->
  Permutation (rowsCache s) (buildCache (bodyRows t)).
Proof.
  intros Ht Hnew Hreach.
  eapply perm_trans; [apply (reachable_perm rt _ _ Hreach)|].
  eapply constructed_cache; eassumption.
Qed.

(** ** Cache integrity *)

(** C1.  For a manager constructed over a table of [n] rows and any state it
    reaches through any sequence of events (header clicks, direct [sortRows]
    calls in any column and direction, filter, page and limit changes), the
    Row Cache is a permutation of the cache as built, and the list of its
    [originalIndex] values is a permutation of [0, ..., n-1]: nothing is
    dropped, duplicated or renumbered. *)
Theorem cache_integrity (now : Z) (env : bool) (c : Container) (t : Table)
  (s0 s : State) :
  table c = Some t ->
  newLiteTableManager rt now env (Some c) = Normal s0 ->
  Reachable rt s0 s ->
  Permutation (rowsCache s) (buildCache (bodyRows t)) /\
  Permutation (map originalIndex (rowsCache s))
    (seq 0 (List.length (bodyRows t))).
Proof.
  intros Ht Hnew Hreach.
  assert (Hp : Permutation (rowsCache s) (buildCache (bodyRows t)))
    by (eapply reachable_built_cache; eassumption).
  split; [exact Hp|].
  rewrite <- buildCache_indices. apply Permutation_map, Hp.
Qed.

(** ** The three-state sort cycle *)

Lemma handleSort_currentSort (now : Z) (columnIndex : nat) (s : State) :
  currentSort (snd (handleSort rt now columnIndex s))
  = {| column := match nextDirection (currentSort s) columnIndex with
                 | Some _ => Some columnIndex
                 | None => None
                 end;
       direction := nextDirection (currentSort s) columnIndex |}.
Proof.
  unfold handleSort.
  destruct (buttonOf s columnIndex);
    destruct (nextDirection (currentSort s) columnIndex);
    rewrite updateTable_currentSort; reflexivity.
Qed.

Lemma handleSort_rowsCache (now : Z) (columnIndex : nat) (s : State) :
  rowsCache (snd (handleSort rt now columnIndex s))
  = match nextDirection (currentSort s) columnIndex with
    | Some d => sortCache rt columnIndex d (rowsCache s)
    | None => arraySort compareOriginalIndex (rowsCache s)
    end.
Proof.
  unfold handleSort.
  destruct (buttonOf s columnIndex);
    destruct (nextDirection (currentSort s) columnIndex);
    rewrite updateTable_rowsCache; reflexivity.
Qed.

(** C2.  From a state the manager has reached in which the column is not
    the sorted one, three activations of the header of that column set the
    Sort State to ascending, then descending, then none; the first two leave
    the cache as [sortRows] orders it in that direction, and the third
    returns the Row Cache to the cache as built, the order of the source. *)
Theorem sort_cycle_restores_order (now0 now1 now2 now3 : Z) (env : bool)
  (c : Container) (t : Table) (s0 s : State) (columnIndex : nat) :
  table c = Some t ->
  newLiteTableManager rt now0 env (Some c) = Normal s0 ->
  Reachable rt s0 s ->
  column (currentSort s) <> Some columnIndex ->
  let s1 := snd (handleSort rt now1 columnIndex s) in
  let s2 := snd (handleSort rt now2 columnIndex s1) in
  let s3 := snd (handleSort rt now3 columnIndex s2) in
  (currentSort s1
   = {| column := Some columnIndex; direction := Some Asc |} /\
   rowsCache s1 = sortCache rt columnIndex Asc (rowsCache s)) /\
  (currentSort s2
   = {| column := Some columnIndex; direction := Some Desc |} /\
   rowsCache s2 = sortCache rt columnIndex Desc (rowsCache s1)) /\
  (currentSort s3 = {| column := None; direction := None |} /\
   rowsCache s3 = buildCache (bodyRows t) /\
   map originalIndex (rowsCache s3) = seq 0 (List.length (bodyRows t))).
Proof.
  intros Ht Hnew Hreach Hcol s1 s2 s3.
  assert (Hd1 : nextDirection (currentSort s) columnIndex = Some Asc).
  { unfold nextDirection.
    destruct (column (currentSort s)) as [k|]; [|reflexivity].
    destruct (Nat.eqb_spec k columnIndex); [congruence | reflexivity]. }
  assert (Hs1 : currentSort s1
                = {| column := Some columnIndex; direction := Some Asc |}).
  { unfold s1. rewrite handleSort_currentSort, Hd1. reflexivity. }
  assert (Hd2 : nextDirection (currentSort s1) columnIndex = Some Desc).
  { rewrite Hs1. unfold nextDirection. simpl.
    now rewrite Nat.eqb_refl. }
  assert (Hs2 : currentSort s2
                = {| column := Some columnIndex; direction := Some Desc |}).
  { unfold s2. rewrite handleSort_currentSort, Hd2. reflexivity. }
  assert (Hd3 : nextDirection (currentSort s2) columnIndex = None).
  { rewrite Hs2. unfold nextDirection. simpl.
    now rewrite Nat.eqb_refl. }
  assert (Hcache : rowsCache s3 = buildCache (bodyRows t)).
  { unfold s3. rewrite handleSort_rowsCache, Hd3.
    apply restore_built_order.
    eapply perm_trans; [apply handleSort_perm|].
    eapply perm_trans; [apply handleSort_perm|].
    eapply reachable_built_cache; eassumption. }
  repeat split.
  - exact Hs1.
  - unfold s1. rewrite handleSort_rowsCache, Hd1. reflexivity.
  - exact Hs2.
  - unfold s2. rewrite handleSort_rowsCache, Hd2. reflexivity.
  - unfold s3. rewrite handleSort_currentSort, Hd3. reflexivity.
  - exact Hcache.
  - rewrite Hcache. apply buildCache_indices.
Qed.

(** ** The pool of row surfaces *)

Lemma rowAt_negative (s : State) : rowAt s (-1) = None.
Proof. reflexivity. Qed.

(** A turn of the render loop that does not throw shows one more row, and
    creates it only when the pool is empty. *)
Lemma renderRow_surfaces (s s' : State) (i : Z) :
  renderRow s i = (None, s') ->
  List.length (tbody s') = S (List.length (tbody s)) /\
  List.length (rowPool s') = (List.length (rowPool s) - 1)%nat /\
  allocations s'
  = (allocations s + (1 - List.length (rowPool s)))%nat.
Proof.
  unfold renderRow.
  destruct (rowPool s) as [|tr pool] eqn:Hpool;
    destruct (rowAt s i) as [rowData|]; intro H;
    try discriminate; injection H as <-; simpl;
    rewrite ?length_app, ?Hpool; simpl; repeat split; lia.
Qed.

Lemma renderLoop_surfaces (turns : nat) (i : Z) (s s' : State) :
  renderLoop turns i s = (None, s') ->
  List.length (tbody s') = (List.length (tbody s) + turns)%nat /\
  List.length (rowPool s') = (List.length (rowPool s) - turns)%nat /\
  allocations s'
  = (allocations s + (turns - List.length (rowPool s)))%nat.
Proof.
  revert i s; induction turns as [|n IH]; intros i s; cbn [renderLoop].
  - intro H. injection H as <-. repeat split; lia.
  - destruct (renderRow s i) as [[e|] s1] eqn:Hrow; [discriminate|].
    intro H. apply IH in H. apply renderRow_surfaces in Hrow.
    destruct H as (H1 & H2 & H3). destruct Hrow as (R1 & R2 & R3).
    repeat split; lia.
Qed.

Lemma renderRows_surfaces (a b : jsnum) (s s' : State) :
  renderRows a b s = (None, s') ->
  exists turns : nat,
    List.length (tbody s') = (List.length (tbody s) + turns)%nat /\
    List.length (rowPool s') = (List.length (rowPool s) - turns)%nat /\
    allocations s'
    = (allocations s + (turns - List.length (rowPool s)))%nat.
Proof.
  unfold renderRows.
  destruct (JsNum.lt a b).
  - destruct a; destruct b; intro H;
      first [ apply renderLoop_surfaces in H; eexists; exact H
            | exfalso; revert H; unfold renderRow; rewrite rowAt_negative;
              destruct (rowPool s); discriminate ].
  - intro H. injection H as <-. exists 0%nat. repeat split; lia.
Qed.

Lemma sortPhase_surfaces (s : State) :
  surfacesOf (sortPhase rt s) = surfacesOf s.
Proof.
  unfold sortPhase.
  destruct (column (currentSort s)); [|reflexivity].
  destruct (direction (currentSort s)); reflexivity.
Qed.

Lemma clampPage_surfaces (s : State) : surfacesOf (clampPage s) = surfacesOf s.
Proof. unfold clampPage. destruct (JsNum.gt _ _); reflexivity. Qed.

Lemma publishInfo_surfaces (a b : jsnum) (s s' : State) :
  publishInfo a b s = (None, s') -> surfacesOf s' = surfacesOf s.
Proof.
  unfold publishInfo. destruct (tableInfo s); intro H; [|discriminate].
  injection H as <-. reflexivity.
Qed.

(** An update cycle that returns shows [shown] rows on the surfaces it had,
    pooled or displayed, and creates only the rows it lacks. *)
Lemma updateTable_surfaces (now : Z) (s s' : State) :
  updateTable rt now s = (None, s') ->
  let owned := (List.length (rowPool s) + List.length (tbody s))%nat in
  let shown := List.length (tbody s') in
  List.length (rowPool s') = (owned - shown)%nat /\
  allocations s' = (allocations s + (shown - owned))%nat.
Proof.
  unfold updateTable.
  destruct (applyFilters rt now (sortPhase rt s)) as [kept|e]; [|discriminate].
  set (s2 := clampPage (setFilteredRows kept (sortPhase rt s))).
  assert (H2 : surfacesOf s2 = surfacesOf s).
  { unfold s2. rewrite clampPage_surfaces.
    change (surfacesOf (setFilteredRows kept (sortPhase rt s)))
      with (surfacesOf (sortPhase rt s)).
    apply sortPhase_surfaces. }
  unfold surfacesOf in H2. injection H2 as Hpool Hbody Halloc.
  destruct (renderRows (minIndexOf s2) (maxIndexOf s2) (detachRows s2))
    as [[e|] s3] eqn:Hrender; [discriminate|].
  intro Hinfo. apply publishInfo_surfaces in Hinfo.
  unfold surfacesOf in Hinfo. injection Hinfo as Hp Hb Ha.
  apply renderRows_surfaces in Hrender.
  destruct Hrender as (turns & Ht & Hq & Hn).
  simpl in Ht, Hq, Hn.
  rewrite length_app, length_rev, Hpool, Hbody in Hq, Hn.
  rewrite Halloc in Hn.
  simpl. rewrite Hp, Hb, Ha. split; lia.
Qed.

Lemma updateTable_abort_surfaces (now : Z) (s : State) (e : exn) :
  applyFilters rt now (sortPhase rt s) = Throw e ->
  surfacesOf (snd (updateTable rt now s)) = surfacesOf s.
Proof.
  intro H. unfold updateTable. rewrite H. simpl. apply sortPhase_surfaces.
Qed.

Lemma cycles_invariant (K : nat) (s0 s : State) :
  Cycles rt K s0 s ->
  allocations s0 = (List.length (rowPool s0) + List.length (tbody s0))%nat ->
  (allocations s0 <= K)%nat ->
  allocations s = (List.length (rowPool s) + List.length (tbody s))%nat /\
  (allocations s <= K)%nat.
Proof.
  intros Hc H0 HK.
  induction Hc as [|s1 s2 s3 now _ IH Hsame Hupd Hshown
                   |s1 s2 now e _ IH Hsame Habort].
  - split; assumption.
  - destruct IH as [IH1 IH2].
    unfold surfacesOf in Hsame. injection Hsame as Hp Hb Ha.
    apply updateTable_surfaces in Hupd. simpl in Hupd.
    destruct Hupd as [Hq Hn].
    rewrite Hp, Hb in Hq, Hn. rewrite Ha in Hn. split; lia.
  - destruct IH as [IH1 IH2].
    apply (updateTable_abort_surfaces now s2 e) in Habort.
    rewrite Hsame in Habort.
    unfold surfacesOf in Habort. injection Habort as Hp Hb Ha.
    rewrite Hp, Hb, Ha. split; assumption.
Qed.

(** C3.  Take a manager as its constructor leaves it, and any sequence of
    update cycles after it, each showing at most [K] rows as the first one
    did, whatever changes between two cycles.  Then at most [K] row surfaces
    have been created in all, and every surface created is either in the
    pool or displayed: a cycle reuses the surfaces it owns before it creates
    one. *)
Theorem pool_bound (K : nat) (now : Z) (env : bool) (c : option Container)
  (s0 s : State) :
  newLiteTableManager rt now env c = Normal s0 ->
  (List.length (tbody s0) <= K)%nat ->
  Cycles rt K s0 s ->
  (allocations s <= K)%nat /\
  allocations s = (List.length (rowPool s) + List.length (tbody s))%nat.
Proof.
  intros Hnew HK Hc.
  assert (H0 : allocations s0
               = (List.length (rowPool s0) + List.length (tbody s0))%nat
               /\ allocations s0 = List.length (tbody s0)).
  { unfold newLiteTableManager in Hnew.
    destruct c as [container|]; [|discriminate].
    destruct (table container) as [t|]; [|discriminate].
    match type of Hnew with
    | match updateTable _ _ ?s1 with _ => _ end = _ =>
        destruct (updateTable rt now s1) as [[e|] s2] eqn:Hupd;
        [discriminate|]; injection Hnew as <-;
        apply updateTable_surfaces in Hupd;
        assert (Hs1 : surfacesOf s1 = ([], [], 0%nat))
          by (destruct (findDateColumn (headerCells t)
                          (buildCache (bodyRows t))); reflexivity)
    end.
    unfold surfacesOf in Hs1. injection Hs1 as Hp Hb Ha.
    simpl in Hupd. rewrite Hp, Hb, Ha in Hupd. simpl in Hupd.
    destruct Hupd as [U1 U2]. split; lia. }
  destruct H0 as [Hinv Hshown].
  destruct (cycles_invariant K s0 s Hc Hinv) as [H1 H2]; [lia|].
  split; assumption.
Qed.

(** ** The visible slice *)

Lemma sortPhase_shape (s : State) :
  exists cache, sortPhase rt s = setRowsCache cache s.
Proof.
  unfold sortPhase.
  destruct (column (currentSort s)) as [k|].
  - destruct (direction (currentSort s)) as [d|].
    + eexists; reflexivity.
    + exists (rowsCache s). destruct s; reflexivity.
  - exists (rowsCache s). destruct s; reflexivity.
Qed.

Lemma rowAt_nat (s : State) (k : nat) :
  rowAt s (Z.of_nat k) = nth_error (filteredRows s) k.
Proof.
  unfold rowAt.
  destruct (Z.ltb_spec (Z.of_nat k) 0); [lia|].
  now rewrite Nat2Z.id.
Qed.

Lemma skipn_nth_error {A : Type} (l : list A) (k : nat) (x : A) :
  nth_error l k = Some x -> skipn k l = x :: skipn (S k) l.
Proof.
  revert l; induction k as [|k IH]; intros [|y l] H; simpl in *;
    try discriminate.
  - now injection H as ->.
  - now apply IH.
Qed.

Lemma renderRow_shows (s : State) (k : nat) (r : RowData) :
  nth_error (filteredRows s) k = Some r ->
  exists s1,
    renderRow s (Z.of_nat k) = (None, s1) /\
    map dataOriginalIndex (tbody s1)
    = map dataOriginalIndex (tbody s) ++ [originalIndex r] /\
    filteredRows s1 = filteredRows s.
Proof.
  intro H. unfold renderRow. rewrite rowAt_nat, H.
  destruct (rowPool s) as [|tr pool]; eexists; (split; [reflexivity|]);
    simpl; rewrite map_app; split; reflexivity.
Qed.

Lemma renderLoop_shows (turns k : nat) (s : State) :
  (k + turns <= List.length (filteredRows s))%nat ->
  exists s',
    renderLoop turns (Z.of_nat k) s = (None, s') /\
    map dataOriginalIndex (tbody s')
    = map dataOriginalIndex (tbody s)
      ++ map originalIndex (firstn turns (skipn k (filteredRows s))).
Proof.
  revert k s; induction turns as [|n IH]; intros k s Hlen;
    cbn [renderLoop].
  - exists s. split; [reflexivity|]. simpl. now rewrite app_nil_r.
  - destruct (nth_error (filteredRows s) k) as [r|] eqn:Hr.
    2:{ apply nth_error_None in Hr. lia. }
    destruct (renderRow_shows s k r Hr) as (s1 & Hrow & Hbody & Hrows).
    rewrite Hrow.
    destruct (IH (S k) s1) as (s' & Hloop & Hshown).
    { rewrite Hrows. lia. }
    exists s'. split.
    + replace (Z.of_nat k + 1) with (Z.of_nat (S k)) by lia. exact Hloop.
    + rewrite Hshown, Hbody, Hrows, (skipn_nth_error _ _ _ Hr).
      simpl. now rewrite <- app_assoc.
Qed.

(** The update cycle past the filters and the clamp, between two integer
    bounds that lie within the Filtered View: it returns and displays the
    rows of the index range. *)
Lemma updateTable_renders (now : Z) (s : State) (kept : list RowData)
  (a b : Z) :
  tableInfo s <> None ->
  applyFilters rt now (sortPhase rt s) = Normal kept ->
  minIndexOf (clampPage (setFilteredRows kept (sortPhase rt s))) = Num a ->
  maxIndexOf (clampPage (setFilteredRows kept (sortPhase rt s))) = Num b ->
  0 <= a -> b <= Z.of_nat (List.length kept) ->
  exists s',
    updateTable rt now s = (None, s') /\
    filteredRows s' = kept /\
    currentPageIndex s'
    = currentPageIndex (clampPage (setFilteredRows kept (sortPhase rt s))) /\
    map dataOriginalIndex (tbody s') = map originalIndex (slice a b kept).
Proof.
  intros Hinfo Hfilter Hmin Hmax Ha Hb.
  unfold updateTable. rewrite Hfilter, Hmin, Hmax.
  set (s2 := clampPage (setFilteredRows kept (sortPhase rt s))).
  assert (Hrows : filteredRows s2 = kept)
    by (unfold s2, clampPage; destruct (JsNum.gt _ _); reflexivity).
  assert (Hinfo2 : tableInfo s2 = tableInfo s).
  { destruct (sortPhase_shape s) as [cache Hsort].
    unfold s2, clampPage. rewrite Hsort.
    destruct (JsNum.gt _ _); reflexivity. }
  assert (Hshow : exists s3,
             renderRows (Num a) (Num b) (detachRows s2) = (None, s3) /\
             map dataOriginalIndex (tbody s3)
             = map originalIndex (slice a b kept)).
  { unfold renderRows, JsNum.lt.
    destruct (Z.ltb_spec a b) as [Hlt|Hge].
    - destruct (renderLoop_shows (Z.to_nat (b - a)) (Z.to_nat a)
                  (detachRows s2)) as (s3 & Hloop & Hshown).
      { change (filteredRows (detachRows s2)) with (filteredRows s2).
        rewrite Hrows. lia. }
      exists s3. rewrite Z2Nat.id in Hloop by exact Ha.
      split; [exact Hloop|].
      change (filteredRows (detachRows s2)) with (filteredRows s2) in Hshown.
      rewrite Hrows in Hshown. exact Hshown.
    - exists (detachRows s2). split; [reflexivity|].
      unfold slice. replace (Z.to_nat (b - a)) with 0%nat by lia.
      reflexivity. }
  destruct Hshow as (s3 & Hrender & Hshown).
  pose proof (renderRows_controller (Num a) (Num b) (detachRows s2)) as Hctl.
  pose proof (renderRows_tableInfo (Num a) (Num b) (detachRows s2)) as Hti.
  rewrite Hrender in Hctl, Hti. simpl in Hctl, Hti.
  rewrite Hrender.
  unfold publishInfo.
  destruct (tableInfo s3) as [info|] eqn:Hinfo3.
  2:{ exfalso. apply Hinfo. now rewrite <- Hinfo2, <- Hti. }
  eexists. split; [reflexivity|].
  unfold controllerOf in Hctl.
  injection Hctl as _ Hcp _ _ _ _ _ _ Hfr _.
  simpl. rewrite Hfr, Hcp. repeat split; assumption.
Qed.

(** C4.  In an update cycle of a manager whose page size is a positive
    integer [p] and whose current page is an integer [c >= 1], once the
    filters have produced the Filtered View [kept]: the cycle returns; the
    current page is 1 if [c] exceeds [totalPages = ceil(|kept| / p)] and [c]
    otherwise; and the rows displayed are, in order, those of the index range
    [[p * (page - 1), min(p * page, |kept|))] of [kept] for that page. *)
Theorem pagination_clamp_and_slice (now : Z) (s : State) (p c : Z)
  (kept : list RowData) :
  displayLimit s = Num p -> 0 < p ->
  currentPageIndex s = Num c -> 1 <= c ->
  tableInfo s <> None ->
  applyFilters rt now (sortPhase rt s) = Normal kept ->
  let filteredCount := Z.of_nat (List.length kept) in
  let totalPages := - (- filteredCount / p) in
  let page := if totalPages <? c then 1 else c in
  exists s',
    updateTable rt now s = (None, s') /\
    filteredRows s' = kept /\
    currentPageIndex s' = Num page /\
    map dataOriginalIndex (tbody s')
    = map originalIndex
        (slice (p * (page - 1)) (Z.min (p * page) filteredCount) kept).
Proof.
  intros Hlimit Hp Hpage Hc Hinfo Hfilter filteredCount totalPages page.
  destruct (sortPhase_shape s) as [cache Hsort].
  set (s1 := setFilteredRows kept (sortPhase rt s)).
  assert (Hlimit1 : displayLimit s1 = Num p)
    by (unfold s1; rewrite Hsort; exact Hlimit).
  assert (Hpage1 : currentPageIndex s1 = Num c)
    by (unfold s1; rewrite Hsort; exact Hpage).
  (* totalPages = Math.ceil(filteredRows.length / displayLimit) *)
  assert (Htotal : totalPagesOf s1 = Num totalPages).
  { unfold totalPagesOf. rewrite Hlimit1.
    unfold JsNum.ceilDiv, JsNum.ofNat.
    destruct (Z.eqb_spec p 0); [lia | reflexivity]. }
  (* the clamp *)
  assert (Hclamp : clampPage s1 = setCurrentPageIndex (Num page) s1).
  { unfold clampPage. rewrite Htotal, Hpage1.
    unfold JsNum.gt, JsNum.lt, page.
    destruct (totalPages <? c); [reflexivity|].
    rewrite <- Hpage1. destruct s1; reflexivity. }
  assert (Hge : 1 <= page)
    by (unfold page; destruct (totalPages <? c); lia).
  (* the bounds of the slice *)
  assert (Hmin : minIndexOf (clampPage s1) = Num (p * (page - 1))).
  { rewrite Hclamp. unfold minIndexOf, setCurrentPageIndex.
    cbn [displayLimit currentPageIndex]. rewrite Hlimit1. reflexivity. }
  assert (Hmax : maxIndexOf (clampPage s1)
                 = Num (Z.min (p * page) filteredCount)).
  { rewrite Hclamp. unfold maxIndexOf, setCurrentPageIndex.
    cbn [displayLimit currentPageIndex filteredRows]. rewrite Hlimit1.
    change (filteredRows s1) with kept.
    unfold JsNum.ofNat, JsNum.mul, JsNum.min, JsNum.lt.
    fold filteredCount.
    destruct (Z.ltb_spec filteredCount (p * page)); f_equal; lia. }
  destruct (updateTable_renders now s kept _ _ Hinfo Hfilter Hmin Hmax)
    as (s' & Hupd & Hrows & Hcur & Hshown).
  - nia.
  - fold filteredCount. lia.
  - exists s'. split; [exact Hupd|]. split; [exact Hrows|].
    split; [|exact Hshown].
    rewrite Hcur. fold s1. rewrite Hclamp. reflexivity.
Qed.

(** ** Rows with an empty sort key *)

Lemma truthy_false_iff (v : string) : Str.truthy v = false <-> v = "".
Proof. destruct v; simpl; split; intro H; congruence. Qed.

Lemma emptyKey_true_iff (columnIndex : nat) (r : RowData) :
  emptyKey columnIndex r = true <-> cellText r columnIndex = "".
Proof.
  unfold emptyKey. rewrite negb_true_iff. apply truthy_false_iff.
Qed.

Lemma emptyKey_false_iff (columnIndex : nat) (r : RowData) :
  emptyKey columnIndex r = false <-> cellText r columnIndex <> "".
Proof.
  rewrite <- emptyKey_true_iff. destruct (emptyKey columnIndex r); split;
    intro H; congruence.
Qed.

Lemma compareRows_empty_left (ty : ColumnType) (m : Z) (columnIndex : nat)
  (a b : RowData) :
  emptyKey columnIndex a = true -> emptyKey columnIndex b = false ->
  compareRows rt ty m columnIndex a b = Float.ofZ (1 * m).
Proof.
  unfold emptyKey, compareRows. intros Ha Hb. rewrite Ha.
  apply negb_false_iff in Hb. rewrite Hb. reflexivity.
Qed.

Lemma compareRows_empty_right (ty : ColumnType) (m : Z) (columnIndex : nat)
  (a b : RowData) :
  emptyKey columnIndex a = false -> emptyKey columnIndex b = true ->
  compareRows rt ty m columnIndex a b = Float.ofZ (-1 * m).
Proof.
  unfold emptyKey, compareRows. intros Ha Hb. rewrite Hb.
  apply negb_false_iff in Ha. rewrite Ha. reflexivity.
Qed.

Section Separation.

Context {A : Type}.
Variable comparefn : A -> A -> float.
Variable late : A -> bool.

(** An element marked [late] moves behind one that is not, and never the
    other way round. *)
Hypothesis late_behind :
  forall a b, late a = true -> late b = false ->
              Float.positive (comparefn a b) = true.
Hypothesis early_stays :
  forall a b, late a = false -> late b = true ->
              Float.positive (comparefn a b) = false.

Lemma insertSorted_separated (x : A) (l : list A) :
  separated late l -> separated late (insertSorted comparefn x l).
Proof.
  intros (front & back & -> & Hf & Hb).
  destruct (late x) eqn:Hx.
  - exists front, (insertSorted comparefn x back). split; [|split].
    + clear Hb. induction Hf as [|y front Hy Hf IH]; simpl.
      * reflexivity.
      * rewrite (late_behind x y Hx Hy). now rewrite IH.
    + exact Hf.
    + apply (Permutation_Forall
               (Permutation_sym (insertSorted_perm comparefn x back))).
      constructor; assumption.
  - induction Hf as [|y front Hy Hf IH]; simpl.
    + exists [x], back. split; [|split].
      * destruct Hb as [|z back Hz Hb]; simpl; [reflexivity|].
        now rewrite (early_stays x z Hx Hz).
      * now constructor.
      * exact Hb.
    + destruct (Float.positive (comparefn x y)).
      * destruct IH as (front' & back' & Heq & Hf' & Hb').
        exists (y :: front'), back'. split; [|split].
        -- simpl. now rewrite Heq.
        -- now constructor.
        -- exact Hb'.
      * exists (x :: y :: front), back. split; [|split].
        -- reflexivity.
        -- constructor; [exact Hx|]. now constructor.
        -- exact Hb.
Qed.

Lemma arraySort_separated (l : list A) :
  separated late (arraySort comparefn l).
Proof.
  induction l as [|x l IH]; simpl.
  - exists [], []. repeat split; constructor.
  - apply insertSorted_separated, IH.
Qed.

Lemma separated_order (l : list A) (i j : nat) (x y : A) :
  separated late l ->
  nth_error l i = Some x -> late x = true ->
  nth_error l j = Some y -> late y = false ->
  (j < i)%nat.
Proof.
  intros (front & back & -> & Hf & Hb) Hi Hx Hj Hy.
  rewrite Forall_forall in Hf, Hb.
  destruct (Nat.lt_ge_cases i (List.length front)) as [Hlt|Hge].
  - rewrite nth_error_app1 in Hi by exact Hlt.
    apply nth_error_In, Hf in Hi. congruence.
  - destruct (Nat.lt_ge_cases j (List.length front)) as [Hlt'|Hge'].
    + lia.
    + rewrite nth_error_app2 in Hj by exact Hge'.
      apply nth_error_In, Hb in Hj. congruence.
Qed.

End Separation.

Lemma positive_one : Float.positive (Float.ofZ 1) = true.
Proof. reflexivity. Qed.

Lemma positive_minus_one : Float.positive (Float.ofZ (-1)) = false.
Proof. reflexivity. Qed.

(** C5, amended.  After [sortRows] on a column, a row whose sort key is
    empty stands after every row whose sort key is not when the direction is
    ascending, and before every such row when it is descending. *)
Theorem empty_keys_follow_direction (cache : list RowData)
  (columnIndex : nat) (d : Direction) (i j : nat) (x y : RowData) :
  nth_error (sortCache rt columnIndex d cache) i = Some x ->
  nth_error (sortCache rt columnIndex d cache) j = Some y ->
  cellText x columnIndex = "" ->
  cellText y columnIndex <> "" ->
  match d with
  | Asc => (j < i)%nat
  | Desc => (i < j)%nat
  end.
Proof.
  intros Hi Hj Hx Hy.
  apply emptyKey_true_iff in Hx. apply emptyKey_false_iff in Hy.
  unfold sortCache in Hi, Hj.
  set (ty := inferColumnType rt cache columnIndex) in *.
  destruct d.
  - assert (Hsep : separated (emptyKey columnIndex)
                     (arraySort
                        (compareRows rt ty (multiplierOf Asc) columnIndex)
                        cache)).
    { apply arraySort_separated; intros a b Ha Hb.
      - rewrite (compareRows_empty_left ty _ columnIndex a b Ha Hb).
        reflexivity.
      - rewrite (compareRows_empty_right ty _ columnIndex a b Ha Hb).
        reflexivity. }
    exact (separated_order _ _ i j x y Hsep Hi Hx Hj Hy).
  - assert (Hsep : separated (fun r => negb (emptyKey columnIndex r))
                     (arraySort
                        (compareRows rt ty (multiplierOf Desc) columnIndex)
                        cache)).
    { apply arraySort_separated; intros a b Ha Hb.
      - apply negb_true_iff in Ha. apply negb_false_iff in Hb.
        rewrite (compareRows_empty_right ty _ columnIndex a b Ha Hb).
        reflexivity.
      - apply negb_false_iff in Ha. apply negb_true_iff in Hb.
        rewrite (compareRows_empty_left ty _ columnIndex a b Ha Hb).
        reflexivity. }
    apply (separated_order _ _ j i y x Hsep Hj); [|exact Hi|].
    + now rewrite Hy.
    + now rewrite Hx.
Qed.

(** ** Column type inference *)

(** When the first row that has a cell in the column has an empty one, the
    column is sorted as text, whatever the cells below hold. *)
Lemma inferColumnType_blank_first (r : RowData) (cache : list RowData)
  (columnIndex : nat) (c : CellData) :
  cellAt r columnIndex = Some c ->
  textContent c = "" ->
  inferColumnType rt (r :: cache) columnIndex = TypeText.
Proof.
  intros Hc Ht. unfold inferColumnType, sampleValue. cbn [find].
  rewrite Hc. cbn iota. rewrite Hc. cbn [option_map]. rewrite Ht.
  reflexivity.
Qed.

(** ** Filter evaluation *)

Lemma isDateInRange_malformed (now : Z) (dateStr range : string) :
  Str.isDateFormat dateStr = false ->
  isDateInRange rt now dateStr range = Throw (Error dateFormatMessage).
Proof. intro H. unfold isDateInRange. now rewrite H. Qed.

Lemma isDateInRange_wellformed (now : Z) (dateStr range : string) :
  Str.isDateFormat dateStr = true ->
  exists b, isDateInRange rt now dateStr range = Normal b.
Proof.
  intro H. unfold isDateInRange. rewrite H. cbn [negb].
  repeat match goal with
         | |- context [if ?b then _ else _] => destruct b
         end; eexists; reflexivity.
Qed.

Lemma isDateInRange_throws (now : Z) (dateStr range : string) (e : exn) :
  isDateInRange rt now dateStr range = Throw e ->
  e = Error dateFormatMessage /\ Str.isDateFormat dateStr = false.
Proof.
  destruct (Str.isDateFormat dateStr) eqn:H.
  - destruct (isDateInRange_wellformed now dateStr range H) as [b Hb].
    rewrite Hb. discriminate.
  - rewrite (isDateInRange_malformed now dateStr range H).
    intro He. injection He as <-. now split.
Qed.

Lemma dateFiltersPass_throws (now : Z) (r : RowData)
  (entries : ColumnMap string) (e : exn) :
  dateFiltersPass rt now r entries = Throw e -> e = Error dateFormatMessage.
Proof.
  induction entries as [|[colIndex filterVal] rest IH]; simpl.
  - discriminate.
  - destruct (Str.truthy filterVal); simpl; [|exact IH].
    destruct (isDateInRange rt now (cellText r colIndex) filterVal)
      as [[|]|e'] eqn:Hd.
    + exact IH.
    + discriminate.
    + intro H. injection H as <-.
      now apply isDateInRange_throws in Hd.
Qed.

Lemma dateFiltersPass_normal (now : Z) (r : RowData)
  (entries : ColumnMap string) (b : bool) :
  dateFiltersPass rt now r entries = Normal b ->
  b = forallb (bucketOK rt now r) entries.
Proof.
  induction entries as [|[colIndex filterVal] rest IH]; simpl.
  - intro H. now injection H as <-.
  - unfold bucketOK at 1. simpl.
    destruct (Str.truthy filterVal); simpl; [|exact IH].
    destruct (isDateInRange rt now (cellText r colIndex) filterVal)
      as [[|]|e'].
    + exact IH.
    + intro H. now injection H as <-.
    + discriminate.
Qed.

(** An active bucketed-date entry is evaluated when the entries before it
    let the row through; on a cell that is no date it then throws. *)
Lemma dateFiltersPass_reached (now : Z) (r : RowData)
  (before after : ColumnMap string) (colIndex : nat) (filterVal : string) :
  filterVal <> "" ->
  dateFiltersPass rt now r before = Normal true ->
  Str.isDateFormat (cellText r colIndex) = false ->
  dateFiltersPass rt now r (before ++ (colIndex, filterVal) :: after)
  = Throw (Error dateFormatMessage).
Proof.
  intros Hactive Hbefore Hbad.
  induction before as [|[k v] before IH]; simpl in *.
  - destruct (Str.truthy filterVal) eqn:Ht.
    + simpl. now rewrite (isDateInRange_malformed now _ filterVal Hbad).
    + apply truthy_false_iff in Ht. contradiction.
  - destruct (Str.truthy v); simpl in *; [|exact (IH Hbefore)].
    destruct (isDateInRange rt now (cellText r k) v) as [[|]|e].
    + exact (IH Hbefore).
    + discriminate.
    + discriminate.
Qed.

Lemma dateFiltersPass_inactive (now : Z) (r : RowData)
  (entries : ColumnMap string) :
  firstActive entries = None ->
  dateFiltersPass rt now r entries = Normal true.
Proof.
  unfold firstActive.
  induction entries as [|[k v] rest IH]; simpl; [reflexivity|].
  destruct (Str.truthy v); simpl; [discriminate | exact IH].
Qed.

Lemma dateFiltersPass_wellformed (now : Z) (r : RowData)
  (entries : ColumnMap string) :
  (forall colIndex filterVal,
      In (colIndex, filterVal) entries -> filterVal <> "" ->
      Str.isDateFormat (cellText r colIndex) = true) ->
  exists b, dateFiltersPass rt now r entries = Normal b.
Proof.
  induction entries as [|[k v] rest IH]; simpl; intro Hwf.
  - eexists; reflexivity.
  - assert (Hrest : exists b, dateFiltersPass rt now r rest = Normal b)
      by (apply IH; intros; eapply Hwf; [right|]; eassumption).
    destruct (Str.truthy v) eqn:Hv; simpl; [|exact Hrest].
    destruct (isDateInRange_wellformed now (cellText r k) v) as [b Hb].
    { apply (Hwf k v); [now left|]. intros ->. discriminate. }
    rewrite Hb. destruct b; [exact Hrest | eexists; reflexivity].
Qed.

Lemma rangeFiltersPass_forallb (r : RowData) (entries : ColumnMap DateRange) :
  rangeFiltersPass rt r entries = forallb (rangeOK rt r) entries.
Proof.
  induction entries as [|[colIndex range] rest IH]; simpl; [reflexivity|].
  unfold rangeOK at 1, rangeActive. simpl. rewrite IH.
  destruct (bound (from range)) as [f|]; destruct (bound (to range)) as [t|];
    simpl; try reflexivity;
    destruct (Str.isDateFormat (cellText r colIndex)); simpl;
    try reflexivity;
    repeat match goal with
           | |- context [if ?b then _ else _] => destruct b; simpl
           end; reflexivity.
Qed.

Lemma valueFiltersPass_forallb (r : RowData) (entries : ColumnMap string) :
  valueFiltersPass r entries = forallb (categoricalOK r) entries.
Proof.
  induction entries as [|[colIndex filterVal] rest IH]; simpl; [reflexivity|].
  unfold categoricalOK at 1. simpl. rewrite IH.
  destruct (Str.truthy filterVal); simpl; [|reflexivity].
  destruct (String.eqb (cellText r colIndex) filterVal); reflexivity.
Qed.

Lemma rowPasses_normal (now : Z) (s : State) (r : RowData) (b : bool) :
  rowPasses rt now s r = Normal b -> b = passesEvery rt now s r.
Proof.
  unfold rowPasses, passesEvery.
  rewrite rangeFiltersPass_forallb, valueFiltersPass_forallb.
  destruct (dateFiltersPass rt now r (currentDateFilters s)) as [d|e] eqn:Hd;
    [|discriminate].
  apply dateFiltersPass_normal in Hd. rewrite <- Hd.
  destruct d; simpl.
  - destruct (forallb (rangeOK rt r) (currentDateRangeFilters s)); simpl;
      intro H; now injection H as <-.
  - intro H; now injection H as <-.
Qed.

Lemma rowPasses_throws (now : Z) (s : State) (r : RowData) (e : exn) :
  rowPasses rt now s r = Throw e -> e = Error dateFormatMessage.
Proof.
  unfold rowPasses.
  destruct (dateFiltersPass rt now r (currentDateFilters s)) as [d|e'] eqn:Hd.
  - destruct d; [|discriminate].
    destruct (negb (rangeFiltersPass rt r (currentDateRangeFilters s)));
      discriminate.
  - intro H. injection H as <-. eapply dateFiltersPass_throws; eassumption.
Qed.

Lemma rowPasses_returns (now : Z) (s : State) (r : RowData) :
  (exists b, dateFiltersPass rt now r (currentDateFilters s) = Normal b) ->
  rowPasses rt now s r = Normal (passesEvery rt now s r).
Proof.
  intros [d Hd].
  destruct (rowPasses rt now s r) as [b|e] eqn:Hrow.
  - f_equal. eapply rowPasses_normal; eassumption.
  - unfold rowPasses in Hrow. rewrite Hd in Hrow.
    destruct d; [|discriminate].
    destruct (negb (rangeFiltersPass rt r (currentDateRangeFilters s)));
      discriminate.
Qed.

Lemma filterRows_returns (f : RowData -> completion bool)
  (g : RowData -> bool) (l : list RowData) :
  (forall r, In r l -> f r = Normal (g r)) ->
  filterRows f l = Normal (filter g l).
Proof.
  induction l as [|r l IH]; simpl; intro H; [reflexivity|].
  rewrite (H r) by now left.
  rewrite IH by (intros; apply H; now right).
  reflexivity.
Qed.

Lemma filterRows_normal (f : RowData -> completion bool)
  (l kept : list RowData) :
  filterRows f l = Normal kept ->
  forall r, In r l -> exists b, f r = Normal b.
Proof.
  revert kept; induction l as [|a l IH]; simpl; intros kept H r Hin;
    [contradiction|].
  destruct (f a) as [keep|e] eqn:Hfa; [|discriminate].
  destruct (filterRows f l) as [kept'|e] eqn:Hrest; [|discriminate].
  destruct Hin as [<-|Hin]; [eexists; exact Hfa|].
  eapply IH; [reflexivity | exact Hin].
Qed.

Lemma filterRows_throws (f : RowData -> completion bool) (l : list RowData)
  (r : RowData) (e : exn) :
  In r l -> f r = Throw e ->
  (forall r' e', f r' = Throw e' -> e' = e) ->
  filterRows f l = Throw e.
Proof.
  intros Hin Hr Hsame.
  induction l as [|a l IH]; simpl; [contradiction|].
  destruct (f a) as [keep|e'] eqn:Hfa.
  - destruct Hin as [->|Hin]; [congruence|].
    now rewrite (IH Hin).
  - f_equal. eapply Hsame; eassumption.
Qed.

Lemma applyFilters_normal (now : Z) (s : State) (kept : list RowData) :
  applyFilters rt now s = Normal kept ->
  kept = filter (passesEvery rt now s) (rowsCache s).
Proof.
  unfold applyFilters. intro H.
  assert (Hall : forall r, In r (rowsCache s) ->
                           rowPasses rt now s r
                           = Normal (passesEvery rt now s r)).
  { intros r Hin.
    destruct (filterRows_normal _ _ _ H r Hin) as [b Hb].
    rewrite Hb. f_equal. eapply rowPasses_normal; eassumption. }
  rewrite (filterRows_returns _ (passesEvery rt now s) _ Hall) in H.
  now injection H as <-.
Qed.

Lemma applyFilters_wellformed (now : Z) (s : State) :
  (forall r colIndex filterVal,
      In r (rowsCache s) ->
      In (colIndex, filterVal) (currentDateFilters s) -> filterVal <> "" ->
      Str.isDateFormat (cellText r colIndex) = true) ->
  applyFilters rt now s
  = Normal (filter (passesEvery rt now s) (rowsCache s)).
Proof.
  intro Hwf. unfold applyFilters. apply filterRows_returns.
  intros r Hin. apply rowPasses_returns, dateFiltersPass_wellformed.
  intros colIndex filterVal. apply Hwf, Hin.
Qed.

Lemma firstActive_none (entries : ColumnMap string) :
  firstActive entries = None <->
  forall colIndex filterVal, In (colIndex, filterVal) entries -> filterVal = "".
Proof.
  unfold firstActive. split.
  - intros H colIndex filterVal Hin.
    apply truthy_false_iff.
    apply (find_none _ _ H (colIndex, filterVal) Hin).
  - intro H. induction entries as [|[k v] rest IH]; simpl; [reflexivity|].
    rewrite (H k v) by now left. simpl.
    apply IH. intros; eapply H; right; eassumption.
Qed.

Lemma applyFilters_throws (now : Z) (s : State) (r : RowData)
  (before after : ColumnMap string) (colIndex : nat) (filterVal : string) :
  In r (rowsCache s) ->
  Str.isDateFormat (cellText r colIndex) = false ->
  currentDateFilters s = before ++ (colIndex, filterVal) :: after ->
  filterVal <> "" ->
  dateFiltersPass rt now r before = Normal true ->
  applyFilters rt now s = Throw (Error dateFormatMessage).
Proof.
  intros Hin Hbad Hentries Hactive Hbefore. unfold applyFilters.
  apply (filterRows_throws _ _ r); [exact Hin| |].
  - unfold rowPasses. rewrite Hentries.
    now rewrite (dateFiltersPass_reached now r before after colIndex
                   filterVal Hactive Hbefore Hbad).
  - intros r' e'. apply rowPasses_throws.
Qed.

Lemma rangeFiltersPass_malformed (r : RowData)
  (entries : ColumnMap DateRange) (colIndex : nat) (range : DateRange) :
  In (colIndex, range) entries ->
  rangeActive range = true ->
  Str.isDateFormat (cellText r colIndex) = false ->
  rangeFiltersPass rt r entries = false.
Proof.
  intros Hin Hactive Hbad.
  rewrite rangeFiltersPass_forallb.
  apply not_true_is_false. intro Hall.
  rewrite forallb_forall in Hall. specialize (Hall _ Hin).
  unfold rangeOK in Hall. simpl in Hall.
  rewrite Hactive, Hbad in Hall. discriminate.
Qed.

(** C7.  Take a cached row whose cell in a column does not match
    [DD/MM/YYYY].  When an active bucketed-date filter is on that column and
    is evaluated for the row (the bucketed-date filters on the columns before
    it let the row through), it throws the date format error, and the error
    leaves [applyFilters] and the update cycle.  When an active date-range
    filter is on that column, the range loop rejects the row and throws
    nothing: the row is in no Filtered View, and with no bucketed-date filter
    active [applyFilters] returns one. *)
Theorem filter_error_asymmetry (now : Z) (s : State) (r : RowData)
  (colIndex : nat) :
  In r (rowsCache s) ->
  Str.isDateFormat (cellText r colIndex) = false ->
  (forall before after filterVal,
      currentDateFilters s = before ++ (colIndex, filterVal) :: after ->
      filterVal <> "" ->
      dateFiltersPass rt now r before = Normal true ->
      isDateInRange rt now (cellText r colIndex) filterVal
      = Throw (Error dateFormatMessage) /\
      applyFilters rt now s = Throw (Error dateFormatMessage) /\
      fst (updateTable rt now s) = Some (Error dateFormatMessage)) /\
  (forall range,
      In (colIndex, range) (currentDateRangeFilters s) ->
      rangeActive range = true ->
      rangeFiltersPass rt r (currentDateRangeFilters s) = false /\
      (forall kept, applyFilters rt now s = Normal kept -> ~ In r kept) /\
      (firstActive (currentDateFilters s) = None ->
       exists kept, applyFilters rt now s = Normal kept /\ ~ In r kept)).
Proof.
  intros Hin Hbad. split.
  - intros before after filterVal Hentries Hactive Hbefore.
    split; [|split].
    + now apply isDateInRange_malformed.
    + eapply applyFilters_throws; eassumption.
    + unfold updateTable.
      destruct (sortPhase_shape s) as [cache Hsort].
      assert (Hthrow : applyFilters rt now (sortPhase rt s)
                       = Throw (Error dateFormatMessage)).
      { apply (applyFilters_throws now _ r before after colIndex filterVal).
        - apply (Permutation_in r (Permutation_sym (sortPhase_perm rt s))).
          exact Hin.
        - exact Hbad.
        - rewrite Hsort. exact Hentries.
        - exact Hactive.
        - exact Hbefore. }
      rewrite Hthrow. reflexivity.
  - intros range Hrange Hactive.
    pose proof (rangeFiltersPass_malformed r _ colIndex range
                  Hrange Hactive Hbad) as Hfails.
    assert (Hout : passesEvery rt now s r = false).
    { unfold passesEvery. rewrite <- rangeFiltersPass_forallb, Hfails.
      now rewrite andb_false_r. }
    assert (Hnever : forall kept,
               applyFilters rt now s = Normal kept -> ~ In r kept).
    { intros kept Hk Hr. apply applyFilters_normal in Hk. subst kept.
      apply filter_In in Hr. destruct Hr as [_ Hr]. congruence. }
    split; [exact Hfails|]. split; [exact Hnever|].
    intro Hnone. eexists. split.
    + apply applyFilters_wellformed.
      intros r' k v _ Hkv Hv. exfalso. apply Hv.
      eapply firstActive_none; eassumption.
    + intro Hr. apply filter_In in Hr. destruct Hr as [_ Hr]. congruence.
Qed.

Lemma buildCache_trimmed (rows : list SrcRow) (r : RowData) (colIndex : nat)
  (c : CellData) :
  In r (buildCache rows) -> cellAt r colIndex = Some c ->
  exists src, textContent c = Str.trim (getTextContent (Some src)).
Proof.
  unfold buildCache. intros Hin Hc.
  apply in_map_iff in Hin. destruct Hin as ([k row] & <- & _).
  unfold cellAt in Hc. simpl in Hc.
  apply nth_error_In, in_map_iff in Hc.
  destruct Hc as (src & <- & _). exists src. reflexivity.
Qed.

(** C8.  [applyFilters] returns the rows of the Row Cache that pass every
    predicate of the Filter State, in the order of the cache, whenever it
    returns; it returns as soon as no active bucketed-date filter meets a
    cell that is not a date.  An inactive entry (empty categorical value,
    empty bucket, range without bound) passes every row, so that a Filter
    State without active entry yields the whole cache.  An active
    categorical entry passes a row exactly when the text of the cell, which
    the constructor stored trimmed, is the filter value. *)
Theorem filtered_view (now : Z) (s : State) :
  (forall kept,
      applyFilters rt now s = Normal kept ->
      kept = filter (passesEvery rt now s) (rowsCache s)) /\
  ((forall r colIndex filterVal,
       In r (rowsCache s) ->
       In (colIndex, filterVal) (currentDateFilters s) -> filterVal <> "" ->
       Str.isDateFormat (cellText r colIndex) = true) ->
   applyFilters rt now s
   = Normal (filter (passesEvery rt now s) (rowsCache s))) /\
  (forall r colIndex range,
      bucketOK rt now r (colIndex, "") = true /\
      categoricalOK r (colIndex, "") = true /\
      (rangeActive range = false -> rangeOK rt r (colIndex, range) = true)) /\
  ((forall colIndex filterVal,
       In (colIndex, filterVal) (currentDateFilters s) -> filterVal = "") ->
   (forall colIndex range,
       In (colIndex, range) (currentDateRangeFilters s) ->
       rangeActive range = false) ->
   (forall colIndex filterVal,
       In (colIndex, filterVal) (currentValueFilters s) -> filterVal = "") ->
   applyFilters rt now s = Normal (rowsCache s)) /\
  (forall r colIndex filterVal,
      filterVal <> "" ->
      (categoricalOK r (colIndex, filterVal) = true
       <-> cellText r colIndex = filterVal)) /\
  (forall rows r colIndex c,
      In r (buildCache rows) -> cellAt r colIndex = Some c ->
      exists src, textContent c = Str.trim (getTextContent (Some src))).
Proof.
  split; [|split; [|split; [|split; [|split]]]].
  - apply applyFilters_normal.
  - apply applyFilters_wellformed.
  - intros r colIndex range. split; [reflexivity|]. split; [reflexivity|].
    intro H. unfold rangeOK. simpl. now rewrite H.
  - intros Hdates Hranges Hvalues.
    rewrite applyFilters_wellformed.
    2:{ intros r k v _ Hkv Hv. exfalso. eapply Hv, Hdates, Hkv. }
    f_equal.
    rewrite (filter_ext_in _ (fun _ => true)).
    + clear. induction (rowsCache s) as [|a l IH]; simpl; congruence.
    + intros r _. unfold passesEvery.
      rewrite !andb_true_iff. split; [split|]; apply forallb_forall.
      * intros [k v] Hkv. rewrite (Hdates k v Hkv). reflexivity.
      * intros [k range] Hk. unfold rangeOK. simpl.
        now rewrite (Hranges k range Hk).
      * intros [k v] Hkv. rewrite (Hvalues k v Hkv). reflexivity.
  - intros r colIndex filterVal Hv. unfold categoricalOK. simpl.
    destruct (Str.truthy filterVal) eqn:Ht.
    + simpl. apply String.eqb_eq.
    + apply truthy_false_iff in Ht. contradiction.
  - apply buildCache_trimmed.
Qed.

(** ** The sort the constructor sets *)

Lemma isDateFormat_truthy (v : string) :
  Str.isDateFormat v = true -> Str.truthy v = true.
Proof. destruct v; [discriminate | reflexivity]. Qed.

Lemma looksLikeDate_holds (cache : list RowData) (colIndex : nat) :
  existsb (fun r => looksLikeDate r colIndex) cache = true
  <-> holdsDate cache colIndex.
Proof.
  rewrite existsb_exists. unfold holdsDate, looksLikeDate. split.
  - intros (r & Hin & H).
    destruct (cellAt r colIndex) as [c|] eqn:Hc; [|discriminate].
    apply andb_true_iff in H. destruct H as [_ H].
    exists r, c. auto.
  - intros (r & c & Hin & Hc & H).
    exists r. split; [exact Hin|].
    rewrite Hc, H, (isDateFormat_truthy _ H). reflexivity.
Qed.

Lemma find_seq_first (f : nat -> bool) (n a x : nat) :
  find f (seq a n) = Some x ->
  (a <= x < a + n)%nat /\ f x = true /\
  forall k, (a <= k < x)%nat -> f k = false.
Proof.
  revert a; induction n as [|n IH]; intros a; simpl; [discriminate|].
  destruct (f a) eqn:Hfa.
  - intro H. injection H as <-.
    split; [lia|]. split; [exact Hfa|]. intros k Hk. lia.
  - intro H. apply IH in H. destruct H as (Hx & Hfx & Hbefore).
    split; [lia|]. split; [exact Hfx|].
    intros k Hk. destruct (Nat.eq_dec k a) as [->|Hne]; [exact Hfa|].
    apply Hbefore. lia.
Qed.

Lemma applyFilters_no_filter (now : Z) (s : State) :
  currentDateFilters s = [] ->
  currentDateRangeFilters s = [] ->
  currentValueFilters s = [] ->
  applyFilters rt now s = Normal (rowsCache s).
Proof.
  intros Hd Hr Hv. unfold applyFilters.
  rewrite (filterRows_returns _ (fun _ => true)).
  - f_equal. induction (rowsCache s) as [|a l IH]; simpl; congruence.
  - intros r _. unfold rowPasses. rewrite Hd, Hr, Hv. reflexivity.
Qed.

Lemma slice_first_page {A : Type} (l : list A) (p : nat) :
  slice (Z.of_nat p * (1 - 1))
    (Z.min (Z.of_nat p * 1) (Z.of_nat (List.length l))) l
  = firstn p l.
Proof.
  unfold slice.
  replace (Z.of_nat p * (1 - 1)) with 0 by lia.
  rewrite Z.sub_0_r, Z.mul_1_r. simpl.
  destruct (Z.min_spec (Z.of_nat p) (Z.of_nat (List.length l)))
    as [[Hlt ->]|[Hge ->]].
  - now rewrite Nat2Z.id.
  - rewrite Nat2Z.id. rewrite firstn_all.
    symmetry. apply firstn_all2. lia.
Qed.

(** The first cycle of a manager: page 1 of 25 rows of the whole cache, in
    the order its sort step gives. *)
Lemma first_cycle (now : Z) (s1 : State) :
  displayLimit s1 = Num 25 ->
  currentPageIndex s1 = Num 1 ->
  tableInfo s1 <> None ->
  currentDateFilters s1 = [] ->
  currentDateRangeFilters s1 = [] ->
  currentValueFilters s1 = [] ->
  exists s,
    updateTable rt now s1 = (None, s) /\
    currentSort s = currentSort s1 /\
    rowsCache s = rowsCache (sortPhase rt s1) /\
    map dataOriginalIndex (tbody s)
    = map originalIndex (firstn 25 (rowsCache (sortPhase rt s1))).
Proof.
  intros Hlimit Hpage Hinfo Hd Hr Hv.
  destruct (sortPhase_shape s1) as [cache Hsort].
  set (kept := rowsCache (sortPhase rt s1)).
  assert (Hfilter : applyFilters rt now (sortPhase rt s1) = Normal kept).
  { apply applyFilters_no_filter; rewrite Hsort; assumption. }
  set (s2 := clampPage (setFilteredRows kept (sortPhase rt s1))).
  assert (Hshape : s2 = setCurrentPageIndex (Num 1)
                          (setFilteredRows kept (sortPhase rt s1))).
  { unfold s2, clampPage.
    destruct (JsNum.gt _ _); [reflexivity|].
    rewrite Hsort. rewrite <- Hpage. destruct s1; reflexivity. }
  assert (Hmin : minIndexOf s2 = Num (25 * (1 - 1))).
  { rewrite Hshape, Hsort. unfold minIndexOf. simpl. now rewrite Hlimit. }
  assert (Hmax : maxIndexOf s2
                 = Num (Z.min (25 * 1) (Z.of_nat (List.length kept)))).
  { rewrite Hshape, Hsort. unfold maxIndexOf. simpl. rewrite Hlimit.
    unfold JsNum.ofNat, JsNum.mul, JsNum.min, JsNum.lt.
    destruct (Z.ltb_spec (Z.of_nat (List.length kept)) (25 * 1));
      f_equal; lia. }
  destruct (updateTable_renders now s1 kept _ _ Hinfo Hfilter Hmin Hmax)
    as (s & Hupd & _ & _ & Hshown); [lia | lia |].
  exists s. split; [exact Hupd|].
  pose proof (updateTable_currentSort rt now s1) as Hcs.
  pose proof (updateTable_rowsCache rt now s1) as Hrc.
  rewrite Hupd in Hcs, Hrc. simpl in Hcs, Hrc.
  split; [exact Hcs|]. split; [exact Hrc|].
  rewrite Hshown. f_equal. apply (slice_first_page kept 25).
Qed.


End Claims.


(** * Further properties *)

(** ** The summary and the pagination bar *)

Section Pagination.

Variable rt : Runtime.

(** What a returning update cycle is made of. *)
Lemma updateTable_returns (now : Z) (s s' : State) :
  updateTable rt now s = (None, s') ->
  exists kept,
    applyFilters rt now (sortPhase rt s) = Normal kept /\
    let s2 := clampPage (setFilteredRows kept (sortPhase rt s)) in
    controllerOf s' = controllerOf s2 /\
    fst (renderRows (minIndexOf s2) (maxIndexOf s2) (detachRows s2)) = None /\
    tbody s'
    = tbody (snd (renderRows (minIndexOf s2) (maxIndexOf s2) (detachRows s2)))
    /\
    tableInfo s'
    = Some (Showing (JsNum.sub (maxIndexOf s2) (minIndexOf s2))
              (List.length kept) (List.length (rowsCache s2))).
Proof.
  unfold updateTable.
  destruct (applyFilters rt now (sortPhase rt s)) as [kept|e] eqn:Hf;
    [|discriminate].
  set (s2 := clampPage (setFilteredRows kept (sortPhase rt s))).
  pose proof (renderRows_controller (minIndexOf s2) (maxIndexOf s2)
                (detachRows s2)) as Hctl.
  destruct (renderRows (minIndexOf s2) (maxIndexOf s2) (detachRows s2))
    as [[e|] s3] eqn:Hr; [discriminate|].
  simpl in Hctl.
  assert (Hfr : filteredRows s2 = kept)
    by (unfold s2, clampPage; destruct (JsNum.gt _ _); reflexivity).
  unfold publishInfo.
  destruct (tableInfo s3) as [info|]; [|discriminate].
  intro H. injection H as <-.
  exists kept. split; [reflexivity|]. cbv zeta. fold s2. rewrite Hr.
  split; [exact Hctl|]. split; [reflexivity|]. split; [reflexivity|].
  cbn [tableInfo setTableInfo].
  unfold controllerOf in Hctl. injection Hctl as _ _ _ _ _ _ _ Hrc Hfr3 _.
  rewrite Hrc, Hfr3.
  change (filteredRows (detachRows s2)) with (filteredRows s2).
  change (rowsCache (detachRows s2)) with (rowsCache s2).
  now rewrite Hfr.
Qed.

(** A returning cycle of a manager whose page size is a positive integer
    and whose page is an integer from 1 on: the page it leaves, the number
    of rows it displays and the text it writes. *)
Lemma finite_cycle (now : Z) (s s' : State) (p c : Z) :
  updateTable rt now s = (None, s') ->
  displayLimit s = Num p -> 0 < p ->
  currentPageIndex s = Num c -> 1 <= c ->
  let n := Z.of_nat (List.length (filteredRows s')) in
  let total := - (- n / p) in
  let page := if total <? c then 1 else c in
  displayLimit s' = Num p /\
  currentPageIndex s' = Num page /\
  totalPagesOf s' = Num total /\
  Z.of_nat (List.length (tbody s')) = Z.min (p * page) n - p * (page - 1) /\
  tableInfo s'
  = Some (Showing (Num (Z.min (p * page) n - p * (page - 1)))
            (List.length (filteredRows s')) (List.length (rowsCache s'))).
Proof.
  intros Hupd Hlimit Hp Hpage Hc.
  destruct (updateTable_returns now s s' Hupd)
    as (kept & Hf & Hctl & Hret & Hbody & Hinfo).
  cbv zeta in Hctl, Hret, Hbody, Hinfo.
  destruct (sortPhase_shape rt s) as [cache Hsort].
  set (s1 := setFilteredRows kept (sortPhase rt s)) in *.
  assert (Hlimit1 : displayLimit s1 = Num p)
    by (unfold s1; rewrite Hsort; exact Hlimit).
  assert (Hpage1 : currentPageIndex s1 = Num c)
    by (unfold s1; rewrite Hsort; exact Hpage).
  assert (Hrows1 : filteredRows s1 = kept) by reflexivity.
  set (n := Z.of_nat (List.length kept)).
  set (total := - (- n / p)).
  set (page := if total <? c then 1 else c).
  assert (Htotal : totalPagesOf s1 = Num total).
  { unfold totalPagesOf. rewrite Hlimit1, Hrows1.
    unfold JsNum.ceilDiv, JsNum.ofNat.
    destruct (Z.eqb_spec p 0); [lia | reflexivity]. }
  assert (Hclamp : clampPage s1 = setCurrentPageIndex (Num page) s1).
  { unfold clampPage. rewrite Htotal, Hpage1.
    unfold JsNum.gt, JsNum.lt, page.
    destruct (total <? c); [reflexivity|].
    rewrite <- Hpage1. destruct s1; reflexivity. }
  rewrite Hclamp in *.
  assert (Hge : 1 <= page) by (unfold page; destruct (total <? c); lia).
  assert (Hmin : minIndexOf (setCurrentPageIndex (Num page) s1)
                 = Num (p * (page - 1))).
  { unfold minIndexOf, setCurrentPageIndex.
    cbn [displayLimit currentPageIndex]. rewrite Hlimit1. reflexivity. }
  assert (Hmax : maxIndexOf (setCurrentPageIndex (Num page) s1)
                 = Num (Z.min (p * page) n)).
  { unfold maxIndexOf, setCurrentPageIndex.
    cbn [displayLimit currentPageIndex filteredRows]. rewrite Hlimit1.
    change (filteredRows s1) with kept.
    unfold JsNum.ofNat, JsNum.mul, JsNum.min, JsNum.lt. fold n.
    destruct (Z.ltb_spec n (p * page)); f_equal; lia. }
  rewrite Hmin, Hmax in *.
  unfold controllerOf in Hctl.
  injection Hctl as Hdl Hcp _ _ _ _ _ Hrc Hfr _.
  change (filteredRows s' = kept) in Hfr.
  assert (Hdl' : displayLimit s' = Num p) by (rewrite Hdl; exact Hlimit1).
  assert (Htotal' : totalPagesOf s' = Num total).
  { unfold totalPagesOf. rewrite Hfr, Hdl'.
    unfold JsNum.ceilDiv, JsNum.ofNat. fold n.
    destruct (Z.eqb_spec p 0); [lia | reflexivity]. }
  assert (Hcount : Z.of_nat (List.length (tbody s'))
                   = Z.min (p * page) n - p * (page - 1)).
  { rewrite Hbody. unfold renderRows, JsNum.lt.
    assert (Hn : 0 <= n) by (unfold n; lia).
    assert (Ha : 0 <= p * (page - 1)) by nia.
    assert (Hb : Z.min (p * page) n <= n) by lia.
    assert (Hempty : Z.min (p * page) n <= p * (page - 1) ->
                     Z.min (p * page) n = p * (page - 1)).
    { intro Hle. unfold page in *.
      destruct (Z.ltb_spec total c) as [Hover|Hin]; cbv iota in Hle |- *;
        [lia|].
      assert (p * (c - 1) < n).
      { unfold total in Hin.
        pose proof (Z.div_mod (- n) p ltac:(lia)) as Hdm.
        pose proof (Z.mod_pos_bound (- n) p Hp) as Hmod.
        nia. }
      nia. }
    set (a := p * (page - 1)) in *. set (b := Z.min (p * page) n) in *.
    clearbody a b.
    destruct (Z.ltb_spec a b) as [Hlt|Hnl].
    + destruct (renderLoop_shows (Z.to_nat (b - a)) (Z.to_nat a)
                  (detachRows (setCurrentPageIndex (Num page) s1)))
        as (s3 & Hloop & Hshown).
      { change (filteredRows (detachRows (setCurrentPageIndex (Num page) s1)))
          with kept. unfold n in *. lia. }
      rewrite Z2Nat.id in Hloop by lia. rewrite Hloop. cbn [snd].
      apply (f_equal (@List.length nat)) in Hshown.
      rewrite length_app, !length_map in Hshown.
      change (tbody (detachRows (setCurrentPageIndex (Num page) s1)))
        with (@nil Surface) in Hshown.
      change (filteredRows (detachRows (setCurrentPageIndex (Num page) s1)))
        with kept in Hshown.
      rewrite length_firstn, length_skipn in Hshown.
      cbn [List.length] in Hshown. unfold n in *. lia.
    + cbn [snd]. cbn [tbody detachRows setTbody List.length]. lia. }
  assert (Hinfo' : tableInfo s'
                   = Some (Showing (Num (Z.min (p * page) n - p * (page - 1)))
                             (List.length kept) (List.length (rowsCache s')))).
  { rewrite Hinfo, Hrc. reflexivity. }
  rewrite Hfr. repeat split; assumption.
Qed.

(** What a returning cycle leaves of the View State. *)
Lemma cycle_view (now : Z) (s s' : State) :
  updateTable rt now s = (None, s') ->
  rowsCache s' = rowsCache (sortPhase rt s) /\
  filteredRows s' = filter (passesEvery rt now s') (rowsCache s') /\
  currentDateFilters s' = currentDateFilters s /\
  currentDateRangeFilters s' = currentDateRangeFilters s /\
  currentValueFilters s' = currentValueFilters s /\
  currentSort s' = currentSort s /\
  displayLimit s' = displayLimit s.
Proof.
  intro Hupd.
  destruct (updateTable_returns now s s' Hupd)
    as (kept & Hf & Hctl & _ & _ & _).
  cbv zeta in Hctl.
  destruct (sortPhase_shape rt s) as [cache Hsort].
  pose proof (applyFilters_normal rt now _ _ Hf) as Hkept.
  assert (Hc2 : controllerOf
                  (clampPage (setFilteredRows kept (sortPhase rt s)))
                = (displayLimit s,
                   currentPageIndex
                     (clampPage (setFilteredRows kept (sortPhase rt s))),
                   currentDateFilters s, currentValueFilters s,
                   currentDateRangeFilters s, currentSort s, columnCount s,
                   rowsCache (sortPhase rt s), kept, sortButtons s)).
  { unfold clampPage. rewrite Hsort.
    destruct (JsNum.gt _ _); reflexivity. }
  rewrite Hc2 in Hctl. unfold controllerOf in Hctl.
  injection Hctl as Hdl _ Hdf Hvf Hrf Hcs _ Hrc Hfr _.
  split; [exact Hrc|].
  split.
  { rewrite Hfr, Hrc, Hkept. apply filter_ext. intro r.
    unfold passesEvery. rewrite Hdf, Hvf, Hrf, Hsort. reflexivity. }
  repeat split; assumption.
Qed.

(** X1.  The text of [.tableInfo] after a cycle tells what the table shows:
    the number of rows displayed, the size of the Filtered View and the size
    of the Row Cache, in that order and each at most the next one. *)
Theorem summary_counts (now : Z) (s s' : State) (p c : Z) :
  updateTable rt now s = (None, s') ->
  displayLimit s = Num p -> 0 < p ->
  currentPageIndex s = Num c -> 1 <= c ->
  tableInfo s'
  = Some (Showing (JsNum.ofNat (List.length (tbody s')))
            (List.length (filteredRows s')) (List.length (rowsCache s'))) /\
  Z.of_nat (List.length (tbody s')) <= p /\
  (List.length (tbody s') <= List.length (filteredRows s'))%nat /\
  (List.length (filteredRows s') <= List.length (rowsCache s'))%nat /\
  List.length (rowsCache s') = List.length (rowsCache s).
Proof.
  intros Hupd Hlimit Hp Hpage Hc.
  destruct (finite_cycle now s s' p c Hupd Hlimit Hp Hpage Hc)
    as (_ & _ & _ & Hcount & Hinfo).
  destruct (cycle_view now s s' Hupd) as (Hrc & Hfr & _).
  cbv zeta in Hcount, Hinfo.
  set (n := Z.of_nat (List.length (filteredRows s'))) in *.
  set (page := if - (- n / p) <? c then 1 else c) in *.
  assert (Hge : 1 <= page)
    by (unfold page; destruct (- (- n / p) <? c); lia).
  split; [unfold JsNum.ofNat; rewrite Hcount; exact Hinfo|].
  split; [nia|]. split; [unfold n in *; nia|].
  split.
  - rewrite Hfr at 1. apply filter_length_le.
  - rewrite Hrc. apply Permutation_length, sortPhase_perm.
Qed.

(** The pages of the bar, for the current page [c] of [total] pages. *)
Lemma bar_pages (s : State) (c total : Z) :
  currentPageIndex s = Num c -> totalPagesOf s = Num total ->
  1 <= c -> c <= total \/ c = 1 ->
  exists pages,
    enabledPages (updatePagination s) = map Num pages /\
    StronglySorted Z.lt pages /\
    (forall q, In q pages <->
               1 <= q <= total /\ (q = 1 \/ q = total \/ c - 1 <= q <= c + 1))
    /\
    map pageIndex (filter active (updatePagination s))
    = if c <=? total then [Num c] else [].
Proof.
  intros Hcur Htotal Hc Hclamped.
  exists ((if c <=? 2 then [] else [1])
          ++ (if (c - 1 <=? 0) || (total <? c - 1) then [] else [c - 1])
          ++ (if (c <=? 0) || (total <? c) then [] else [c])
          ++ (if (c + 1 <=? 0) || (total <? c + 1) then [] else [c + 1])
          ++ (if total <? c + 2 then [] else [total])).
  unfold enabledPages, updatePagination, numberedButton, createButton.
  rewrite Hcur, Htotal.
  cbn [flat_map JsNum.add JsNum.le JsNum.gt JsNum.lt strictEquals app].
  replace (c + 0) with c by lia. replace (c + -1) with (c - 1) by lia.
  destruct (Z.leb_spec c 2); destruct (Z.ltb_spec total (c + 2));
    destruct (Z.leb_spec (c - 1) 0); destruct (Z.ltb_spec total (c - 1));
    destruct (Z.leb_spec c 0); destruct (Z.ltb_spec total c);
    destruct (Z.leb_spec (c + 1) 0); destruct (Z.ltb_spec total (c + 1));
    try (exfalso; lia);
    destruct (Z.leb_spec c total); try (exfalso; lia);
    cbn [orb app filter map negb disabled active pageIndex];
    rewrite ?Z.eqb_refl;
    replace (c - 1 =? c) with false by lia;
    replace (c + 1 =? c) with false by lia;
    (split; [reflexivity|]);
    (split; [repeat constructor; lia|]);
    (split; [intro q; cbn [In]; lia | reflexivity]).
Qed.

(** X2.  The pagination bar that ends an update cycle leads, through its
    enabled buttons and in increasing order, to exactly the pages that exist
    among the first, the last, the current one and its two neighbours; the
    button marked active is the one of the current page. *)
Theorem pagination_bar (now : Z) (s s' : State) (p c : Z) :
  updateTable rt now s = (None, s') ->
  displayLimit s = Num p -> 0 < p ->
  currentPageIndex s = Num c -> 1 <= c ->
  exists page total pages,
    currentPageIndex s' = Num page /\
    totalPagesOf s' = Num total /\
    enabledPages (updatePagination s') = map Num pages /\
    StronglySorted Z.lt pages /\
    (forall q, In q pages <->
               1 <= q <= total /\
               (q = 1 \/ q = total \/ page - 1 <= q <= page + 1)) /\
    map pageIndex (filter active (updatePagination s'))
    = if page <=? total then [Num page] else [].
Proof.
  intros Hupd Hlimit Hp Hpage Hc.
  destruct (finite_cycle now s s' p c Hupd Hlimit Hp Hpage Hc)
    as (_ & Hcur & Htotal & _ & _).
  cbv zeta in Hcur, Htotal.
  set (total := - (- Z.of_nat (List.length (filteredRows s')) / p)) in *.
  set (page := if total <? c then 1 else c) in *.
  destruct (bar_pages s' page total Hcur Htotal) as (pages & H).
  - unfold page. destruct (total <? c); lia.
  - unfold page. destruct (Z.ltb_spec total c); lia.
  - exists page, total, pages. split; [exact Hcur|]. split; [exact Htotal|].
    exact H.
Qed.

End Pagination.

(** ** The update cycle and its callers *)

Section Cycle.

Variable rt : Runtime.

(** Whatever its outcome, an update cycle leaves the sort buttons and the
    Filter State as it found them. *)
Lemma updateTable_settings (now : Z) (s : State) :
  sortButtons (snd (updateTable rt now s)) = sortButtons s /\
  currentDateFilters (snd (updateTable rt now s)) = currentDateFilters s.
Proof.
  destruct (sortPhase_shape rt s) as [cache Hsort].
  unfold updateTable.
  destruct (applyFilters rt now (sortPhase rt s)) as [kept|e].
  2:{ cbn [snd]. rewrite Hsort. split; reflexivity. }
  set (s2 := clampPage (setFilteredRows kept (sortPhase rt s))).
  assert (H2 : sortButtons s2 = sortButtons s /\
               currentDateFilters s2 = currentDateFilters s).
  { unfold s2, clampPage. rewrite Hsort.
    destruct (JsNum.gt _ _); split; reflexivity. }
  pose proof (renderRows_controller (minIndexOf s2) (maxIndexOf s2)
                (detachRows s2)) as H.
  destruct (renderRows (minIndexOf s2) (maxIndexOf s2) (detachRows s2))
    as [[e|] s3]; cbn [snd] in *.
  - unfold controllerOf in H. injection H as _ _ Hdf _ _ _ _ _ _ Hsb.
    rewrite Hsb, Hdf. exact H2.
  - pose proof (publishInfo_controller (minIndexOf s2) (maxIndexOf s2) s3)
      as Hp.
    unfold controllerOf in H, Hp.
    injection H as _ _ Hdf _ _ _ _ _ _ Hsb.
    injection Hp as _ _ Hdf' _ _ _ _ _ _ Hsb'.
    rewrite Hsb', Hdf', Hsb, Hdf. exact H2.
Qed.

(** ** Sort indicators *)

Lemma markButtons_nth (k : nat) (d : option Direction)
  (buttons : list (option Direction)) (j : nat) :
  (j < List.length buttons)%nat ->
  nth_error (markButtons k d buttons) j
  = Some (if (j =? k)%nat then d else None).
Proof.
  revert k j; induction buttons as [|b bs IH]; intros k j Hj;
    cbn [List.length] in Hj; [lia|].
  destruct k as [|k]; destruct j as [|j]; cbn [markButtons nth_error];
    try reflexivity.
  - rewrite nth_error_map.
    destruct (nth_error bs j) eqn:Hn; [reflexivity|].
    apply nth_error_None in Hn. lia.
  - rewrite IH by lia. reflexivity.
Qed.

Lemma markButtons_length (k : nat) (d : option Direction)
  (buttons : list (option Direction)) :
  List.length (markButtons k d buttons) = List.length buttons.
Proof.
  revert k; induction buttons as [|b bs IH]; intro k;
    [destruct k; reflexivity|].
  destruct k; cbn [markButtons List.length].
  - now rewrite length_map.
  - now rewrite IH.
Qed.

(** [handleSort] on a column whose header has a button: the buttons it
    leaves. *)
Lemma handleSort_marks (now : Z) (columnIndex : nat) (s : State)
  (button : option Direction) :
  buttonOf s columnIndex = Some button ->
  sortButtons (snd (handleSort rt now columnIndex s))
  = markButtons (columnIndex - 1) (nextDirection (currentSort s) columnIndex)
      (sortButtons s) /\
  currentSort (snd (handleSort rt now columnIndex s))
  = {| column := match nextDirection (currentSort s) columnIndex with
                 | Some _ => Some columnIndex
                 | None => None
                 end;
       direction := nextDirection (currentSort s) columnIndex |}.
Proof.
  intro Hb. unfold handleSort. rewrite Hb.
  rewrite (proj1 (updateTable_settings now _)), updateTable_currentSort.
  destruct (nextDirection (currentSort s) columnIndex); split; reflexivity.
Qed.

(** X5.  A click on a header that has a sort button: whatever the update cycle
    does next (it may throw), the Sort State is the next step of the cycle
    asc, desc, none on that column, the number of buttons is unchanged, the
    button of the column shows the new direction and every other button shows
    none. *)
Theorem sort_indicators (now : Z) (columnIndex : nat) (s : State)
  (button : option Direction) :
  buttonOf s columnIndex = Some button ->
  let s' := snd (handleSort rt now columnIndex s) in
  direction (currentSort s') = nextDirection (currentSort s) columnIndex /\
  column (currentSort s')
  = match nextDirection (currentSort s) columnIndex with
    | Some _ => Some columnIndex
    | None => None
    end /\
  List.length (sortButtons s') = List.length (sortButtons s) /\
  forall k,
    (k < List.length (sortButtons s))%nat ->
    nth_error (sortButtons s') k
    = Some (if (S k =? columnIndex)%nat then direction (currentSort s')
            else None).
Proof.
  intros Hb s'.
  assert (Hcol : (0 < columnIndex)%nat)
    by (destruct columnIndex; [discriminate | lia]).
  destruct (handleSort_marks now columnIndex s button Hb)
    as [Hbuttons Hsort].
  fold s' in Hbuttons, Hsort.
  rewrite Hsort, Hbuttons. cbn [column direction].
  split; [reflexivity|]. split; [reflexivity|].
  split; [apply markButtons_length|].
  intros k Hk. rewrite markButtons_nth by exact Hk.
  destruct (Nat.eqb_spec k (columnIndex - 1));
    destruct (Nat.eqb_spec (S k) columnIndex); try reflexivity; lia.
Qed.

(** ** A bucketed-date filter on a column that holds no date *)

Lemma dateFiltersPass_first_active (now : Z) (r : RowData)
  (entries : ColumnMap string) (colIndex : nat) (filterVal : string) :
  firstActive entries = Some (colIndex, filterVal) ->
  Str.isDateFormat (cellText r colIndex) = false ->
  dateFiltersPass rt now r entries = Throw (Error dateFormatMessage).
Proof.
  unfold firstActive. intros Hfirst Hbad.
  induction entries as [|[k v] rest IH]; cbn [find snd] in Hfirst;
    [discriminate|].
  cbn [dateFiltersPass].
  destruct (Str.truthy v) eqn:Hv; cbn [negb].
  - injection Hfirst as -> ->.
    now rewrite (isDateInRange_malformed rt now _ filterVal Hbad).
  - exact (IH Hfirst).
Qed.

Lemma wedged_ext (colIndex : nat) (filterVal : string) (s s' : State) :
  currentDateFilters s' = currentDateFilters s ->
  Permutation (rowsCache s') (rowsCache s) ->
  wedged colIndex filterVal s -> wedged colIndex filterVal s'.
Proof.
  intros Hf Hp (Hfirst & r & Hin & Hbad). split; [now rewrite Hf|].
  exists r. split; [|exact Hbad].
  eapply Permutation_in; [apply Permutation_sym; exact Hp | exact Hin].
Qed.

Lemma wedged_applyFilters (now : Z) (colIndex : nat) (filterVal : string)
  (s : State) :
  wedged colIndex filterVal s ->
  applyFilters rt now s = Throw (Error dateFormatMessage).
Proof.
  intros (Hfirst & r & Hin & Hbad). unfold applyFilters.
  apply (filterRows_throws _ _ r); [exact Hin| |].
  - unfold rowPasses.
    now rewrite (dateFiltersPass_first_active now r _ _ _ Hfirst Hbad).
  - intros r' e'. apply rowPasses_throws.
Qed.

Lemma wedged_updateTable (now : Z) (colIndex : nat) (filterVal : string)
  (s : State) :
  wedged colIndex filterVal s ->
  updateTable rt now s = (Some (Error dateFormatMessage), sortPhase rt s).
Proof.
  intro Hw. unfold updateTable.
  rewrite (wedged_applyFilters now colIndex filterVal); [reflexivity|].
  destruct (sortPhase_shape rt s) as [cache Hsort].
  apply (wedged_ext colIndex filterVal s); [now rewrite Hsort | | exact Hw].
  apply sortPhase_perm.
Qed.

Lemma sortPhase_view (s : State) : viewOf (sortPhase rt s) = viewOf s.
Proof.
  destruct (sortPhase_shape rt s) as [cache ->]. reflexivity.
Qed.

Lemma wedged_dispatch (now : Z) (e : Event) (colIndex : nat)
  (filterVal : string) (s : State) :
  keepsDateFilters e = true ->
  wedged colIndex filterVal s ->
  wedged colIndex filterVal (snd (dispatch rt now e s)) /\
  viewOf (snd (dispatch rt now e s)) = viewOf s.
Proof.
  intros Hkeep Hw.
  assert (Hcycle : forall s1,
             currentDateFilters s1 = currentDateFilters s ->
             Permutation (rowsCache s1) (rowsCache s) ->
             wedged colIndex filterVal (snd (updateTable rt now s1)) /\
             viewOf (snd (updateTable rt now s1)) = viewOf s1).
  { intros s1 Hf Hp.
    assert (Hw1 : wedged colIndex filterVal s1)
      by (apply (wedged_ext colIndex filterVal s); assumption).
    rewrite (wedged_updateTable now colIndex filterVal s1 Hw1). cbn [snd].
    split; [|apply sortPhase_view].
    destruct (sortPhase_shape rt s1) as [cache Hsort].
    apply (wedged_ext colIndex filterVal s1);
      [now rewrite Hsort | apply sortPhase_perm | exact Hw1]. }
  destruct e; try discriminate; cbn [dispatch].
  - (* HeaderClick *)
    unfold handleSort.
    destruct (buttonOf s columnIndex);
      destruct (nextDirection (currentSort s) columnIndex);
      match goal with
      | |- context [updateTable rt now ?s1] =>
          destruct (Hcycle s1) as [H1 H2];
          [reflexivity
          |first [apply Permutation_refl | apply arraySort_perm]
          |split; [exact H1 | rewrite H2; reflexivity]]
      end.
  - match goal with
    | |- context [updateTable rt now ?s1] =>
        destruct (Hcycle s1) as [H1 H2];
        [reflexivity | apply Permutation_refl
        |split; [exact H1 | rewrite H2; reflexivity]]
    end.
  - match goal with
    | |- context [updateTable rt now ?s1] =>
        destruct (Hcycle s1) as [H1 H2];
        [reflexivity | apply Permutation_refl
        |split; [exact H1 | rewrite H2; reflexivity]]
    end.
  - match goal with
    | |- context [updateTable rt now ?s1] =>
        destruct (Hcycle s1) as [H1 H2];
        [reflexivity | apply Permutation_refl
        |split; [exact H1 | rewrite H2; reflexivity]]
    end.
  - match goal with
    | |- context [updateTable rt now ?s1] =>
        destruct (Hcycle s1) as [H1 H2];
        [reflexivity | apply Permutation_refl
        |split; [exact H1 | rewrite H2; reflexivity]]
    end.
  - destruct (Hcycle s) as [H1 H2];
      [reflexivity | apply Permutation_refl|].
    split; [exact H1 | exact H2].
  - cbn [snd]. split; [|reflexivity].
    apply (wedged_ext colIndex filterVal s);
      [reflexivity | apply arraySort_perm | exact Hw].
  - rewrite (wedged_applyFilters now colIndex filterVal s Hw). cbn [snd].
    split; [exact Hw | reflexivity].
Qed.

(** X6.  Once the first active bucketed-date filter is on a column in which
    some cell is no date, the view is frozen: whatever the events that follow
    (sorts, other filters, page and page size changes), as long as none
    changes the bucketed-date filters, the rows displayed, the text of
    [.tableInfo] and the Filtered View stay as they were, and every update
    cycle ends with the date format error. *)
Theorem stale_view_under_failing_filter (colIndex : nat) (filterVal : string)
  (r : RowData) (s : State) (events : list (Z * Event)) :
  firstActive (currentDateFilters s) = Some (colIndex, filterVal) ->
  In r (rowsCache s) ->
  Str.isDateFormat (cellText r colIndex) = false ->
  Forall (fun ne => keepsDateFilters (snd ne) = true) events ->
  let s' := runEvents rt events s in
  tbody s' = tbody s /\
  tableInfo s' = tableInfo s /\
  filteredRows s' = filteredRows s /\
  forall now,
    fst (updateTable rt now s') = Some (Error dateFormatMessage).
Proof.
  intros Hfirst Hin Hbad Hevents s'.
  assert (Hw : wedged colIndex filterVal s)
    by (split; [exact Hfirst | exists r; split; assumption]).
  assert (H : wedged colIndex filterVal s' /\ viewOf s' = viewOf s).
  { unfold s'. clear s' Hfirst Hin Hbad.
    revert s Hw. induction Hevents as [|[now e] events Hkeep _ IH];
      intros s Hw; cbn [runEvents].
    - split; [exact Hw | reflexivity].
    - destruct (wedged_dispatch now e colIndex filterVal s Hkeep Hw)
        as [Hw1 Hv1].
      destruct (IH _ Hw1) as [Hw2 Hv2].
      split; [exact Hw2 | now rewrite Hv2]. }
  destruct H as [Hw' Hview]. unfold viewOf in Hview.
  injection Hview as Hb Hi Hf.
  repeat split; try assumption.
  intro now. now rewrite (wedged_updateTable now colIndex filterVal s' Hw').
Qed.

(** ** The outcome of the constructor *)

(** The cycle of a manager just built, over a container without
    [.tableInfo] element: the rows are rendered, then the write to the
    missing element throws. *)
Lemma first_cycle_without_info (now : Z) (s1 : State) :
  displayLimit s1 = Num 25 ->
  currentPageIndex s1 = Num 1 ->
  tableInfo s1 = None ->
  currentDateFilters s1 = [] ->
  currentDateRangeFilters s1 = [] ->
  currentValueFilters s1 = [] ->
  fst (updateTable rt now s1) = Some TypeError.
Proof.
  intros Hlimit Hpage Hinfo Hd Hr Hv.
  destruct (sortPhase_shape rt s1) as [cache Hsort].
  set (kept := rowsCache (sortPhase rt s1)).
  assert (Hfilter : applyFilters rt now (sortPhase rt s1) = Normal kept).
  { apply applyFilters_no_filter; rewrite Hsort; assumption. }
  unfold updateTable. rewrite Hfilter.
  set (s2 := clampPage (setFilteredRows kept (sortPhase rt s1))).
  assert (Hshape : s2 = setCurrentPageIndex (Num 1)
                          (setFilteredRows kept (sortPhase rt s1))).
  { unfold s2, clampPage.
    destruct (JsNum.gt _ _); [reflexivity|].
    rewrite Hsort. rewrite <- Hpage. destruct s1; reflexivity. }
  assert (Hmin : minIndexOf s2 = Num 0).
  { rewrite Hshape, Hsort. unfold minIndexOf. cbn. now rewrite Hlimit. }
  assert (Hmax : maxIndexOf s2
                 = Num (Z.min 25 (Z.of_nat (List.length kept)))).
  { rewrite Hshape, Hsort. unfold maxIndexOf. cbn. rewrite Hlimit.
    unfold JsNum.ofNat, JsNum.mul, JsNum.min, JsNum.lt.
    destruct (Z.ltb_spec (Z.of_nat (List.length kept)) (25 * 1));
      f_equal; lia. }
  rewrite Hmin, Hmax.
  pose proof (renderRows_tableInfo (Num 0)
                (Num (Z.min 25 (Z.of_nat (List.length kept))))
                (detachRows s2)) as Hti.
  assert (Hret : fst (renderRows (Num 0)
                        (Num (Z.min 25 (Z.of_nat (List.length kept))))
                        (detachRows s2)) = None).
  { unfold renderRows, JsNum.lt.
    destruct (Z.ltb_spec 0 (Z.min 25 (Z.of_nat (List.length kept))));
      [|reflexivity].
    destruct (renderLoop_shows
                (Z.to_nat (Z.min 25 (Z.of_nat (List.length kept)) - 0)) 0
                (detachRows s2)) as (s3 & Hloop & _).
    { change (filteredRows (detachRows s2)) with (filteredRows s2).
      rewrite Hshape. cbn [filteredRows setCurrentPageIndex setFilteredRows].
      lia. }
    change (Z.of_nat 0) with 0 in Hloop. now rewrite Hloop. }
  destruct (renderRows (Num 0) (Num (Z.min 25 (Z.of_nat (List.length kept))))
              (detachRows s2)) as [[e|] s3]; [discriminate|].
  cbn [snd] in Hti. unfold publishInfo. rewrite Hti.
  change (tableInfo (detachRows s2)) with (tableInfo s2).
  rewrite Hshape, Hsort. cbn. now rewrite Hinfo.
Qed.


(** ** Page sizes that are not positive *)

(** X4.  With a page size that is [NaN] (a value of the select that is no
    number), zero or negative, a cycle whose filters return displays no row at
    all, whatever the Filtered View holds. *)
Theorem nonpositive_limit_shows_nothing (now : Z) (s : State) (c : Z)
  (kept : list RowData) :
  displayLimit s = NaN \/ (exists p, displayLimit s = Num p /\ p <= 0) ->
  currentPageIndex s = Num c ->
  tableInfo s <> None ->
  applyFilters rt now (sortPhase rt s) = Normal kept ->
  exists s',
    updateTable rt now s = (None, s') /\
    filteredRows s' = kept /\
    tbody s' = [].
Proof.
  intros Hlimit Hpage Hinfo Hfilter.
  destruct (sortPhase_shape rt s) as [cache Hsort].
  unfold updateTable. rewrite Hfilter.
  set (s1 := setFilteredRows kept (sortPhase rt s)).
  assert (Hinfo1 : forall s2, tableInfo s2 = tableInfo s ->
                              filteredRows s2 = kept ->
                              exists s',
                                publishInfo (minIndexOf (clampPage s1))
                                  (maxIndexOf (clampPage s1))
                                  (detachRows s2) = (None, s') /\
                                filteredRows s' = kept /\ tbody s' = []).
  { intros s2 Hti Hfr. unfold publishInfo.
    change (tableInfo (detachRows s2)) with (tableInfo s2). rewrite Hti.
    destruct (tableInfo s) as [info|]; [|contradiction].
    eexists. split; [reflexivity|]. split; [exact Hfr | reflexivity]. }
  assert (Hl1 : displayLimit s1 = displayLimit s)
    by (unfold s1; rewrite Hsort; reflexivity).
  assert (Hp1 : currentPageIndex s1 = Num c)
    by (unfold s1; rewrite Hsort; exact Hpage).
  assert (Hclamp : exists page,
             clampPage s1 = setCurrentPageIndex (Num page) s1 /\
             (page = 1 \/
              page = c /\ JsNum.gt (Num c) (totalPagesOf s1) = false)).
  { unfold clampPage. rewrite Hp1.
    destruct (JsNum.gt (Num c) (totalPagesOf s1)) eqn:Hgt.
    - exists 1. split; [reflexivity | now left].
    - exists c. split; [|now right].
      rewrite <- Hp1. destruct s1; reflexivity. }
  assert (Hquiet : JsNum.lt (minIndexOf (clampPage s1))
                     (maxIndexOf (clampPage s1)) = false).
  { destruct Hclamp as (page & -> & Hpage').
    unfold minIndexOf, maxIndexOf.
    cbn [displayLimit currentPageIndex filteredRows setCurrentPageIndex].
    rewrite Hl1. change (filteredRows s1) with kept.
    unfold totalPagesOf in Hpage'. rewrite Hl1 in Hpage'.
    change (filteredRows s1) with kept in Hpage'.
    unfold JsNum.ofNat in *.
    set (n := Z.of_nat (List.length kept)) in *.
    assert (Hn : 0 <= n) by (unfold n; lia).
    destruct Hlimit as [Hl|(p & Hl & Hp)]; rewrite Hl in *; [reflexivity|].
    cbn [JsNum.mul JsNum.sub JsNum.add JsNum.neg JsNum.min JsNum.lt].
    destruct (Z.ltb_spec n (p * page)); cbn [JsNum.lt];
      apply Z.ltb_ge.
    - destruct Hpage' as [->|[-> Hin]]; [lia|].
      unfold JsNum.ceilDiv in Hin.
      destruct (Z.eqb_spec p 0) as [->|Hp0]; [lia|].
      cbn [JsNum.gt JsNum.lt] in Hin. apply Z.ltb_ge in Hin.
      assert (Hq : 0 <= - n / p).
      { replace p with (- - p) by lia.
        rewrite Z.div_opp_opp by lia. apply Z.div_pos; lia. }
      nia.
    - destruct Hpage' as [->|[-> Hin]]; [lia|].
      unfold JsNum.ceilDiv in Hin.
      destruct (Z.eqb_spec p 0) as [->|Hp0]; [lia|].
      cbn [JsNum.gt JsNum.lt] in Hin. apply Z.ltb_ge in Hin.
      assert (Hq : 0 <= - n / p).
      { replace p with (- - p) by lia.
        rewrite Z.div_opp_opp by lia. apply Z.div_pos; lia. }
      nia. }
  unfold renderRows. rewrite Hquiet.
  destruct Hclamp as (page & Hclamp & _).
  apply Hinfo1; rewrite Hclamp; unfold s1; rewrite Hsort; reflexivity.
Qed.

End Cycle.

(** ** The sort buttons and the Sort State *)

Lemma addDesc_nth (k : nat) (buttons : list (option Direction)) (j : nat) :
  nth_error (addDesc k buttons) j
  = if (j =? k)%nat
    then option_map (fun _ => Some Desc) (nth_error buttons j)
    else nth_error buttons j.
Proof.
  revert k j; induction buttons as [|b bs IH]; intros k j.
  - destruct k, j; cbn [addDesc nth_error Nat.eqb option_map];
      try reflexivity.
    destruct (j =? k)%nat; reflexivity.
  - destruct k as [|k]; destruct j as [|j]; cbn [addDesc nth_error Nat.eqb];
      try reflexivity.
    apply IH.
Qed.

Lemma addDesc_length (k : nat) (buttons : list (option Direction)) :
  List.length (addDesc k buttons) = List.length buttons.
Proof.
  revert k; induction buttons as [|b bs IH]; intro k;
    [destruct k; reflexivity|].
  destruct k; cbn [addDesc List.length]; [reflexivity|].
  now rewrite IH.
Qed.

Section Indicators.

Variable rt : Runtime.

Lemma updateTable_showsSort (now : Z) (s : State) :
  showsSort s -> showsSort (snd (updateTable rt now s)).
Proof.
  unfold showsSort.
  rewrite (proj1 (updateTable_settings rt now s)), updateTable_currentSort.
  auto.
Qed.

Lemma dispatch_showsSort (now : Z) (e : Event) (s : State) :
  hitsButton (List.length (sortButtons s)) e = true ->
  showsSort s ->
  showsSort (snd (dispatch rt now e s)) /\
  List.length (sortButtons (snd (dispatch rt now e s)))
  = List.length (sortButtons s).
Proof.
  intros Hhit Hs.
  assert (Hcycle : forall s1,
             sortButtons s1 = sortButtons s ->
             currentSort s1 = currentSort s ->
             showsSort (snd (updateTable rt now s1)) /\
             List.length (sortButtons (snd (updateTable rt now s1)))
             = List.length (sortButtons s)).
  { intros s1 Hb Hc. split.
    - apply updateTable_showsSort. unfold showsSort. now rewrite Hb, Hc.
    - now rewrite (proj1 (updateTable_settings rt now s1)), Hb. }
  destruct e; cbn [dispatch]; try (apply Hcycle; reflexivity).
  - (* HeaderClick *)
    cbn [hitsButton] in Hhit. apply andb_true_iff in Hhit.
    destruct Hhit as [H1 H2]. apply Nat.leb_le in H1, H2.
    destruct (buttonOf s columnIndex) as [button|] eqn:Hb.
    2:{ exfalso. destruct columnIndex as [|k]; [lia|].
        cbn [buttonOf] in Hb. apply nth_error_None in Hb. lia. }
    destruct (handleSort_marks rt now columnIndex s button Hb) as [Hm Hc].
    split.
    + unfold showsSort. rewrite Hm, Hc, markButtons_length.
      intros k Hk. rewrite markButtons_nth by exact Hk.
      unfold indicatorOf. cbn [column direction].
      destruct (nextDirection (currentSort s) columnIndex) as [d|].
      * destruct (Nat.eqb_spec k (columnIndex - 1));
          destruct (Nat.eqb_spec columnIndex (S k)); try reflexivity; lia.
      * destruct (Nat.eqb_spec k (columnIndex - 1)); reflexivity.
    + rewrite Hm. apply markButtons_length.
  - cbn [snd]. split; [exact Hs | reflexivity].
  - destruct (applyFilters rt now s); split; first [exact Hs | reflexivity].
Qed.

(** X20.  From the constructor on and through every sequence of events in
    which the clicks on headers are clicks on sort buttons, the buttons
    show the Sort State: the button of the sorted column shows its
    direction (the [desc] of the sort the constructor sets on a column of
    dates included) and every other button shows none. *)
Theorem buttons_show_sort_state (now : Z) (env : bool)
  (tableContainer : option Container) (s0 : State)
  (events : list (Z * Event)) :
  newLiteTableManager rt now env tableContainer = Normal s0 ->
  Forall (fun ne => hitsButton (List.length (sortButtons s0)) (snd ne) = true)
    events ->
  showsSort (runEvents rt events s0) /\
  List.length (sortButtons (runEvents rt events s0))
  = List.length (sortButtons s0).
Proof.
  intros Hnew Hevents.
  assert (H0 : showsSort s0).
  { unfold newLiteTableManager in Hnew.
    destruct tableContainer as [c|]; [|discriminate].
    destruct (table c) as [t|]; [|discriminate].
    match type of Hnew with
    | match updateTable _ _ ?s1 with _ => _ end = _ =>
        pose proof (updateTable_showsSort now s1) as Hu;
        destruct (updateTable rt now s1) as [[e|] s2]; [discriminate|];
        injection Hnew as <-; cbn [snd] in Hu
    end.
    apply Hu. clear Hu.
    set (buttons := if env then [] else repeat None (headerCells t - 1)).
    assert (Hnone : forall k, (k < List.length buttons)%nat ->
                              nth_error buttons k = Some None).
    { intros k Hk. unfold buttons in *. destruct env.
      - cbn in Hk. lia.
      - rewrite repeat_length in Hk.
        rewrite nth_error_repeat by exact Hk. reflexivity. }
    destruct (findDateColumn (headerCells t) (buildCache (bodyRows t)))
      as [col|] eqn:Hfind; unfold showsSort, indicatorOf;
      cbn [sortButtons currentSort setSortButtons setCurrentSort column
           direction].
    - apply find_seq_first in Hfind. destruct Hfind as (Hrange & _).
      fold buttons. rewrite addDesc_length. intros k Hk.
      rewrite addDesc_nth, (Hnone k Hk). cbn [option_map].
      destruct (Nat.eqb_spec k (col - 1));
        destruct (Nat.eqb_spec col (S k)); try reflexivity; lia.
    - fold buttons. exact Hnone. }
  clear Hnew. revert s0 H0 Hevents.
  induction events as [|[now' e] events IH]; intros s0 H0 Hevents;
    cbn [runEvents].
  - split; [exact H0 | reflexivity].
  - apply Forall_cons_iff in Hevents. destruct Hevents as [He Hevents].
    cbn [snd] in He.
    destruct (dispatch_showsSort now' e s0 He H0) as [H1 Hlen].
    destruct (IH (snd (dispatch rt now' e s0)) H1) as [H2 Hlen2].
    + rewrite Hlen. exact Hevents.
    + split; [exact H2 | now rewrite Hlen2].
Qed.

End Indicators.

(** ** Filter State *)

Lemma setKey_spec {V : Type} (k : nat) (v : V) (o : ColumnMap V) :
  keysAscend o ->
  keysAscend (setKey k v o) /\
  forall k' v',
    In (k', v') (setKey k v o) <->
    (k' = k /\ v' = v) \/ (k' <> k /\ In (k', v') o).
Proof.
  unfold keysAscend.
  induction o as [|[j w] o IH]; cbn [setKey map fst]; intro Hs.
  - split; [repeat constructor|].
    intros k' v'. cbn [In]. split.
    + intros [H|[]]. injection H as <- <-. now left.
    + intros [[-> ->]|[_ []]]. now left.
  - apply StronglySorted_inv in Hs. destruct Hs as [Hs Hall].
    rewrite Forall_forall in Hall.
    assert (Hkeys : forall k' v', In (k', v') o -> (j < k')%nat).
    { intros k' v' Hin. apply Hall. apply in_map_iff.
      exists (k', v'). now split. }
    destruct (Nat.ltb_spec k j) as [Hlt|Hge].
    + split.
      * cbn [map fst]. constructor; [constructor; [exact Hs|]|].
        -- apply Forall_forall. exact Hall.
        -- constructor; [exact Hlt|].
           apply Forall_forall. intros x Hx. specialize (Hall x Hx). lia.
      * intros k' v'. cbn [In]. split.
        -- intros [H|[H|H]].
           ++ injection H as <- <-. now left.
           ++ injection H as <- <-. right. split; [lia | now left].
           ++ right. specialize (Hkeys k' v' H). split; [lia | now right].
        -- intros [[-> ->]|[Hne [H|H]]]; auto.
    + destruct (Nat.eqb_spec k j) as [->|Hne].
      * split.
        -- cbn [map fst]. constructor; [exact Hs|].
           apply Forall_forall. exact Hall.
        -- intros k' v'. cbn [In]. split.
           ++ intros [H|H]; [injection H as <- <-; now left|].
              right. specialize (Hkeys k' v' H). split; [lia | now right].
           ++ intros [[-> ->]|[Hne [H|H]]]; auto.
              injection H as <- <-. contradiction.
      * destruct (IH Hs) as [IHs IHin].
        split.
        -- cbn [map fst]. constructor; [exact IHs|].
           apply Forall_forall. intros x Hx.
           apply in_map_iff in Hx. destruct Hx as ([k' v'] & <- & Hin).
           apply IHin in Hin. cbn [fst].
           destruct Hin as [[-> _]|[_ Hin]]; [lia|].
           exact (Hkeys k' v' Hin).
        -- intros k' v'. cbn [In]. rewrite IHin. split.
           ++ intros [H|[H|[H1 H2]]].
              ** injection H as <- <-. right. split; [lia | now left].
              ** now left.
              ** right. split; [exact H1 | now right].
           ++ intros [H|[H1 [H|H]]]; auto.
Qed.

Section FilterState.

Variable rt : Runtime.

(** Whatever its outcome, an update cycle leaves the Filter State as it
    found it. *)
Lemma updateTable_filters (now : Z) (s : State) :
  currentDateFilters (snd (updateTable rt now s)) = currentDateFilters s /\
  currentValueFilters (snd (updateTable rt now s)) = currentValueFilters s /\
  currentDateRangeFilters (snd (updateTable rt now s))
  = currentDateRangeFilters s.
Proof.
  destruct (sortPhase_shape rt s) as [cache Hsort].
  unfold updateTable.
  destruct (applyFilters rt now (sortPhase rt s)) as [kept|e].
  2:{ cbn [snd]. rewrite Hsort. repeat split; reflexivity. }
  set (s2 := clampPage (setFilteredRows kept (sortPhase rt s))).
  assert (H2 : currentDateFilters s2 = currentDateFilters s /\
               currentValueFilters s2 = currentValueFilters s /\
               currentDateRangeFilters s2 = currentDateRangeFilters s).
  { unfold s2, clampPage. rewrite Hsort.
    destruct (JsNum.gt _ _); repeat split; reflexivity. }
  pose proof (renderRows_controller (minIndexOf s2) (maxIndexOf s2)
                (detachRows s2)) as H.
  destruct (renderRows (minIndexOf s2) (maxIndexOf s2) (detachRows s2))
    as [[e|] s3]; cbn [snd] in *.
  - unfold controllerOf in H. injection H as _ _ Hdf Hvf Hrf _ _ _ _ _.
    rewrite Hdf, Hvf, Hrf. exact H2.
  - pose proof (publishInfo_controller (minIndexOf s2) (maxIndexOf s2) s3)
      as Hp.
    unfold controllerOf in H, Hp.
    injection H as _ _ Hdf Hvf Hrf _ _ _ _ _.
    injection Hp as _ _ Hdf' Hvf' Hrf' _ _ _ _ _.
    rewrite Hdf', Hvf', Hrf', Hdf, Hvf, Hrf. exact H2.
Qed.

Lemma updateTable_ascend (now : Z) (s : State) :
  filtersAscend s -> filtersAscend (snd (updateTable rt now s)).
Proof.
  unfold filtersAscend.
  destruct (updateTable_filters now s) as (-> & -> & ->). tauto.
Qed.

Lemma dispatch_ascend (now : Z) (e : Event) (s : State) :
  filtersAscend s -> filtersAscend (snd (dispatch rt now e s)).
Proof.
  intros (Hd & Hv & Hr).
  destruct e; cbn [dispatch]; try (apply updateTable_ascend);
    try (unfold filtersAscend; cbn; repeat split;
         first [assumption | apply setKey_spec; assumption]).
  - unfold handleSort.
    destruct (buttonOf s columnIndex);
      destruct (nextDirection (currentSort s) columnIndex);
      apply updateTable_ascend; repeat split; assumption.
  - destruct (applyFilters rt now s); repeat split; assumption.
Qed.

Lemma reachable_ascend (s0 s : State) :
  filtersAscend s0 -> Reachable rt s0 s -> filtersAscend s.
Proof.
  intros H0 Hr. induction Hr as [|s now e _ IH]; [exact H0|].
  apply dispatch_ascend, IH.
Qed.

Lemma constructed_ascend (now : Z) (env : bool) (tc : option Container)
  (s0 : State) :
  newLiteTableManager rt now env tc = Normal s0 -> filtersAscend s0.
Proof.
  unfold newLiteTableManager.
  destruct tc as [c|]; [|discriminate].
  destruct (table c) as [t|]; [|discriminate].
  match goal with
  | |- match updateTable _ _ ?s1 with _ => _ end = _ -> _ =>
      pose proof (updateTable_ascend now s1) as Hu;
      destruct (updateTable rt now s1) as [[e|] s2]; [discriminate|];
      intro H; injection H as <-; cbn [snd] in Hu
  end.
  apply Hu.
  destruct (findDateColumn (headerCells t) (buildCache (bodyRows t)));
    repeat split; constructor.
Qed.

(** X8.  Setting the value filter of a column back to the empty value of
    [All], when no other filter is active: whatever the selections made
    before, the Filtered View is the whole Row Cache again. *)
Theorem reset_restores_all_rows (now now' : Z) (env : bool)
  (tc : option Container) (s0 s : State) (colIndex : nat) :
  newLiteTableManager rt now env tc = Normal s0 ->
  Reachable rt s0 s ->
  (forall k v, In (k, v) (currentValueFilters s) -> k <> colIndex -> v = "") ->
  (forall k v, In (k, v) (currentDateFilters s) -> v = "") ->
  (forall k range,
      In (k, range) (currentDateRangeFilters s) -> rangeActive range = false) ->
  let s' := snd (dispatch rt now' (ValueFilterChange colIndex "") s) in
  currentValueFilters s' = setKey colIndex "" (currentValueFilters s) /\
  filteredRows s' = rowsCache s' /\
  Permutation (rowsCache s') (rowsCache s).
Proof.
  intros Hnew Hreach Hvalues Hdates Hranges s'.
  pose proof (reachable_ascend s0 s (constructed_ascend _ _ _ _ Hnew) Hreach)
    as (_ & Hasc & _).
  destruct (setKey_spec colIndex "" (currentValueFilters s) Hasc)
    as [_ Hin].
  set (s1 := setCurrentValueFilters
               (setKey colIndex "" (currentValueFilters s)) s).
  assert (Hs' : s' = snd (updateTable rt now' s1)) by reflexivity.
  destruct (updateTable_filters now' s1) as (_ & Hvf & _).
  split; [rewrite Hs', Hvf; reflexivity|].
  split; [|rewrite Hs'; apply (updateTable_perm rt now' s1)].
  destruct (sortPhase_shape rt s1) as [cache Hsort].
  assert (Hfilter : applyFilters rt now' (sortPhase rt s1)
                    = Normal (rowsCache (sortPhase rt s1))).
  { rewrite applyFilters_wellformed.
    2:{ intros r k v _ Hkv Hv. exfalso. apply Hv.
        rewrite Hsort in Hkv. exact (Hdates k v Hkv). }
    f_equal. rewrite (filter_ext_in _ (fun _ => true)).
    - clear. induction (rowsCache (sortPhase rt s1)) as [|a l IH];
        cbn [filter]; congruence.
    - intros r _. unfold passesEvery. rewrite Hsort.
      cbn [currentDateFilters currentDateRangeFilters currentValueFilters
           setRowsCache s1 setCurrentValueFilters].
      rewrite !andb_true_iff. split; [split|]; apply forallb_forall.
      + intros [k v] Hkv. rewrite (Hdates k v Hkv). reflexivity.
      + intros [k range] Hk. unfold rangeOK. cbn [snd].
        now rewrite (Hranges k range Hk).
      + intros [k v] Hkv. apply Hin in Hkv.
        destruct Hkv as [[_ ->]|[Hne Hkv]]; [reflexivity|].
        rewrite (Hvalues k v Hkv Hne). reflexivity. }
  rewrite Hs'. rewrite updateTable_rowsCache.
  unfold updateTable. rewrite Hfilter.
  set (kept := rowsCache (sortPhase rt s1)).
  set (s2 := clampPage (setFilteredRows kept (sortPhase rt s1))).
  assert (Hfr : filteredRows s2 = kept)
    by (unfold s2, clampPage; destruct (JsNum.gt _ _); reflexivity).
  pose proof (renderRows_controller (minIndexOf s2) (maxIndexOf s2)
                (detachRows s2)) as H.
  destruct (renderRows (minIndexOf s2) (maxIndexOf s2) (detachRows s2))
    as [[e|] s3]; cbn [snd] in *.
  - unfold controllerOf in H. injection H as _ _ _ _ _ _ _ _ Hf _.
    rewrite Hf. exact Hfr.
  - pose proof (publishInfo_controller (minIndexOf s2) (maxIndexOf s2) s3)
      as Hp.
    unfold controllerOf in H, Hp.
    injection H as _ _ _ _ _ _ _ _ Hf _.
    injection Hp as _ _ _ _ _ _ _ _ Hf' _.
    rewrite Hf', Hf. exact Hfr.
Qed.

End FilterState.

(** ** Clicks on the pagination bar *)

Section PageClicks.

Variable rt : Runtime.

Lemma filter_perm_length {A : Type} (f : A -> bool) (l l' : list A) :
  Permutation l l' -> List.length (filter f l) = List.length (filter f l').
Proof.
  induction 1 as [|x l l' _ IH|x y l|l l' l'' _ IH1 _ IH2]; cbn [filter].
  - reflexivity.
  - destruct (f x); cbn [List.length]; congruence.
  - destruct (f x), (f y); reflexivity.
  - congruence.
Qed.

(** A cycle of a manager whose page size is a positive integer and whose
    page is an integer from 1 on returns as soon as its filters do and the
    container has its [.tableInfo] element. *)
Lemma cycle_returns (now : Z) (s : State) (p c : Z) (kept : list RowData) :
  displayLimit s = Num p -> 0 < p ->
  currentPageIndex s = Num c -> 1 <= c ->
  tableInfo s <> None ->
  applyFilters rt now (sortPhase rt s) = Normal kept ->
  exists s', updateTable rt now s = (None, s').
Proof.
  intros Hlimit Hp Hpage Hc Hinfo Hfilter.
  destruct (sortPhase_shape rt s) as [cache Hsort].
  set (s1 := setFilteredRows kept (sortPhase rt s)).
  assert (Hlimit1 : displayLimit s1 = Num p)
    by (unfold s1; rewrite Hsort; exact Hlimit).
  assert (Hpage1 : currentPageIndex s1 = Num c)
    by (unfold s1; rewrite Hsort; exact Hpage).
  assert (Hclamp : exists page,
             1 <= page /\ clampPage s1 = setCurrentPageIndex (Num page) s1).
  { unfold clampPage. rewrite Hpage1.
    destruct (JsNum.gt (Num c) (totalPagesOf s1)).
    - exists 1. split; [lia | reflexivity].
    - exists c. split; [exact Hc|].
      rewrite <- Hpage1. destruct s1; reflexivity. }
  destruct Hclamp as (page & Hge & Hclamp).
  set (n := Z.of_nat (List.length kept)).
  assert (Hmin : minIndexOf (clampPage s1) = Num (p * (page - 1))).
  { rewrite Hclamp. unfold minIndexOf, setCurrentPageIndex.
    cbn [displayLimit currentPageIndex]. rewrite Hlimit1. reflexivity. }
  assert (Hmax : maxIndexOf (clampPage s1) = Num (Z.min (p * page) n)).
  { rewrite Hclamp. unfold maxIndexOf, setCurrentPageIndex.
    cbn [displayLimit currentPageIndex filteredRows]. rewrite Hlimit1.
    change (filteredRows s1) with kept.
    unfold JsNum.ofNat, JsNum.mul, JsNum.min, JsNum.lt. fold n.
    destruct (Z.ltb_spec n (p * page)); f_equal; lia. }
  destruct (updateTable_renders rt now s kept _ _ Hinfo Hfilter Hmin Hmax)
    as (s' & Hupd & _).
  - nia.
  - fold n. lia.
  - exists s'. exact Hupd.
Qed.

(** X3.  A click on an enabled button of the pagination bar, at the date of
    the cycle that built the bar: the cycle it starts returns, the page of the
    button becomes the current page (it is never clamped away), the Filtered
    View has the size it had, and the page is not empty. *)
Theorem page_button_shows_its_page (now : Z) (s s' : State) (p c q : Z) :
  updateTable rt now s = (None, s') ->
  displayLimit s = Num p -> 0 < p ->
  currentPageIndex s = Num c -> 1 <= c ->
  In (Num q) (enabledPages (updatePagination s')) ->
  exists s'',
    dispatch rt now (PageClick (Num q)) s' = (None, s'') /\
    currentPageIndex s'' = Num q /\
    List.length (filteredRows s'') = List.length (filteredRows s') /\
    (0 < List.length (tbody s''))%nat.
Proof.
  intros Hupd Hlimit Hp Hpage Hc Hq.
  destruct (finite_cycle rt now s s' p c Hupd Hlimit Hp Hpage Hc)
    as (Hl' & Hcur' & Htotal' & _ & Hinfo').
  cbv zeta in Hcur', Htotal', Hinfo'.
  destruct (cycle_view rt now s s' Hupd) as (_ & Hview & _).
  set (n := Z.of_nat (List.length (filteredRows s'))) in *.
  set (total := - (- n / p)) in *.
  set (page := if total <? c then 1 else c) in *.
  (* the page of the button exists *)
  destruct (bar_pages s' page total Hcur' Htotal')
    as (pages & Hbar & _ & Hin & _).
  { unfold page. destruct (total <? c); lia. }
  { unfold page. destruct (Z.ltb_spec total c); lia. }
  rewrite Hbar in Hq. apply in_map_iff in Hq.
  destruct Hq as (q' & Heq & Hq). injection Heq as ->.
  apply Hin in Hq. destruct Hq as [Hrange _].
  (* the cycle of the click *)
  set (s1 := setCurrentPageIndex (Num q) s').
  destruct (sortPhase_shape rt s1) as [cache Hsort].
  assert (Hperm : Permutation (rowsCache (sortPhase rt s1)) (rowsCache s'))
    by apply (sortPhase_perm rt s1).
  assert (Hfilter : applyFilters rt now (sortPhase rt s1)
                    = Normal (filter (passesEvery rt now s')
                                (rowsCache (sortPhase rt s1)))).
  { unfold applyFilters. apply filterRows_returns.
    intros r Hr.
    assert (Hr' : In r (rowsCache s'))
      by (eapply Permutation_in; eassumption).
    assert (Hpass : rowPasses rt now (sortPhase rt s1) r
                    = rowPasses rt now s' r)
      by (rewrite Hsort; reflexivity).
    rewrite Hpass. apply rowPasses_returns.
    destruct (updateTable_returns rt now s s' Hupd)
      as (kept & Hf & Hctl & _).
    cbv zeta in Hctl.
    destruct (cycle_view rt now s s' Hupd) as (Hrc & _ & Hdf & _).
    unfold applyFilters in Hf.
    rewrite <- Hrc in Hf.
    destruct (filterRows_normal _ _ _ Hf r Hr') as [b Hb].
    unfold rowPasses in Hb.
    destruct (sortPhase_shape rt s) as [cache0 Hsort0].
    rewrite Hsort0 in Hb. cbn [currentDateFilters setRowsCache] in Hb.
    rewrite Hdf.
    destruct (dateFiltersPass rt now r (currentDateFilters s)) as [d|e];
      [eexists; reflexivity | discriminate]. }
  assert (Hinfo1 : tableInfo s1 <> None)
    by (unfold s1; cbn [tableInfo setCurrentPageIndex]; rewrite Hinfo';
        discriminate).
  assert (Hq1 : 1 <= q) by lia.
  destruct (cycle_returns now s1 p q _ Hl' Hp eq_refl Hq1 Hinfo1 Hfilter)
    as [s'' Hupd''].
  exists s''. split; [exact Hupd''|].
  destruct (finite_cycle rt now s1 s'' p q Hupd'' Hl' Hp eq_refl Hq1)
    as (_ & Hcur'' & _ & Hcount'' & _).
  cbv zeta in Hcur'', Hcount''.
  assert (Hsame : List.length (filteredRows s'')
                  = List.length (filteredRows s')).
  { destruct (updateTable_returns rt now s1 s'' Hupd'')
      as (kept & Hf & Hctl & _).
    cbv zeta in Hctl. rewrite Hfilter in Hf. injection Hf as <-.
    assert (Hfr : filteredRows s''
                  = filter (passesEvery rt now s')
                      (rowsCache (sortPhase rt s1))).
    { unfold controllerOf in Hctl.
      injection Hctl as _ _ _ _ _ _ _ _ Hf _. rewrite Hf.
      unfold clampPage. destruct (JsNum.gt _ _); reflexivity. }
    rewrite Hfr, Hview. apply filter_perm_length, Hperm. }
  rewrite Hsame in *. fold n in Hcur'', Hcount''.
  fold total in Hcur'', Hcount''.
  replace (total <? q) with false in * by lia.
  split; [exact Hcur''|]. split; [reflexivity|].
  assert (Hnonempty : p * (q - 1) < n).
  { unfold total in Hrange.
    pose proof (Z.div_mod (- n) p ltac:(lia)) as Hdm.
    pose proof (Z.mod_pos_bound (- n) p Hp) as Hmod.
    nia. }
  assert (0 < Z.min (p * q) n - p * (q - 1)) by nia.
  lia.
Qed.

End PageClicks.

(** ** Sorting and the Filtered View *)

Lemma filter_perm {A : Type} (f : A -> bool) (l l' : list A) :
  Permutation l l' -> Permutation (filter f l) (filter f l').
Proof.
  induction 1 as [|x l l' _ IH|x y l|l l' l'' _ IH1 _ IH2]; cbn [filter].
  - apply perm_nil.
  - destruct (f x); [apply perm_skip|]; exact IH.
  - destruct (f x), (f y); try apply Permutation_refl. apply perm_swap.
  - eapply perm_trans; eassumption.
Qed.

Section SortAndFilter.

Variable rt : Runtime.

Lemma passesEvery_ext (now : Z) (s s' : State) (r : RowData) :
  currentDateFilters s' = currentDateFilters s ->
  currentDateRangeFilters s' = currentDateRangeFilters s ->
  currentValueFilters s' = currentValueFilters s ->
  passesEvery rt now s' r = passesEvery rt now s r.
Proof. unfold passesEvery. now intros -> -> ->. Qed.

(** X21.  A click on a header, at the date of the cycle that built the
    view and when the cycle it starts returns: the Filtered View holds the
    same rows as before, in the order of the cache as the click leaves it;
    a sort changes the order of the rows, never which rows pass the
    filters. *)
Theorem sort_keeps_filtered_rows (now : Z) (s0 s s' : State)
  (columnIndex : nat) :
  updateTable rt now s0 = (None, s) ->
  handleSort rt now columnIndex s = (None, s') ->
  Permutation (filteredRows s') (filteredRows s) /\
  filteredRows s' = filter (passesEvery rt now s) (rowsCache s') /\
  Permutation (rowsCache s') (rowsCache s).
Proof.
  intros Hbuilt Hclick.
  destruct (cycle_view rt now s0 s Hbuilt) as (_ & Hview & _).
  assert (Hcycle : exists s1,
             updateTable rt now s1 = (None, s') /\
             currentDateFilters s1 = currentDateFilters s /\
             currentDateRangeFilters s1 = currentDateRangeFilters s /\
             currentValueFilters s1 = currentValueFilters s /\
             Permutation (rowsCache s1) (rowsCache s)).
  { unfold handleSort in Hclick.
    destruct (buttonOf s columnIndex);
      destruct (nextDirection (currentSort s) columnIndex);
      eexists; (split; [exact Hclick|]); repeat split;
      first [apply Permutation_refl | apply arraySort_perm]. }
  destruct Hcycle as (s1 & Hupd & Hdf & Hrf & Hvf & Hperm1).
  destruct (cycle_view rt now s1 s' Hupd)
    as (Hrc & Hview' & Hdf' & Hrf' & Hvf' & _).
  assert (Hperm : Permutation (rowsCache s') (rowsCache s)).
  { rewrite Hrc. eapply perm_trans; [apply sortPhase_perm | exact Hperm1]. }
  assert (Hsame : filteredRows s'
                  = filter (passesEvery rt now s) (rowsCache s')).
  { rewrite Hview' at 1. apply filter_ext. intro r.
    apply passesEvery_ext; congruence. }
  split; [|split; [exact Hsame | exact Hperm]].
  rewrite Hsame, Hview. apply filter_perm, Hperm.
Qed.

End SortAndFilter.

(** ** The page size select *)

Lemma digitValue_digit (c : ascii) :
  Str.isDigit c = true ->
  digitValue 10 c = Some (Z.of_nat (nat_of_ascii c) - 48).
Proof.
  unfold Str.isDigit, digitValue. intro H.
  apply andb_true_iff in H. destruct H as [H1 H2].
  apply Nat.leb_le in H1, H2.
  replace ((48 <=? Z.of_nat (nat_of_ascii c))
           && (Z.of_nat (nat_of_ascii c) <=? 57)) with true by lia.
  replace (Z.of_nat (nat_of_ascii c) - 48 <? 10) with true by lia.
  reflexivity.
Qed.

Lemma readDigits_digits (s : string) (acc : option Z) :
  forallb Str.isDigit (list_ascii_of_string s) = true ->
  s <> "" ->
  readDigits 10 acc s
  = Some (fold_left (fun a c => 10 * a + (Z.of_nat (nat_of_ascii c) - 48))
            (list_ascii_of_string s)
            (match acc with Some a => a | None => 0 end)).
Proof.
  revert acc; induction s as [|c s IH]; intros acc H Hne; [contradiction|].
  cbn [list_ascii_of_string forallb] in H.
  apply andb_true_iff in H. destruct H as [Hc Hs].
  cbn [readDigits list_ascii_of_string fold_left].
  rewrite (digitValue_digit c Hc).
  destruct s as [|c' s'].
  - cbn [readDigits list_ascii_of_string fold_left].
    destruct acc; f_equal; lia.
  - rewrite IH by (try exact Hs; discriminate).
    destruct acc; f_equal; f_equal; lia.
Qed.

(** [parseInt] reads a run of decimal digits as the number it denotes. *)
Lemma parseInt_digits (s : string) :
  allDigits s = true -> parseInt s = Num (digitsValue s).
Proof.
  unfold allDigits. intro H. apply andb_true_iff in H. destruct H as [Hne Hd].
  destruct s as [|c s]; [discriminate|].
  assert (Hc : Str.isDigit c = true).
  { cbn [list_ascii_of_string forallb] in Hd.
    now apply andb_true_iff in Hd. }
  assert (Hsp : Str.isSpace c = false).
  { unfold Str.isDigit in Hc. unfold Str.isSpace.
    apply andb_true_iff in Hc. destruct Hc as [H1 H2].
    apply Nat.leb_le in H1, H2.
    destruct (Nat.leb_spec 9 (nat_of_ascii c));
      destruct (Nat.leb_spec (nat_of_ascii c) 13);
      destruct (Nat.eqb_spec (nat_of_ascii c) 32); cbn; lia. }
  unfold parseInt. cbn [Str.trimStart]. rewrite Hsp.
  assert (Hsign : match String c s with
                  | String "-" r => (true, r)
                  | String "+" r => (false, r)
                  | _ => (false, String c s)
                  end = (false, String c s)).
  { clear - Hc.
    destruct c as [[] [] [] [] [] [] [] []]; try discriminate Hc;
      reflexivity. }
  rewrite Hsign. cbn [fst snd].
  assert (Hprefix : match String c s with
                    | String "0" (String "x" r) => (16, r)
                    | String "0" (String "X" r) => (16, r)
                    | r => (10, r)
                    end = (10, String c s)).
  { destruct s as [|c' s'].
    - clear. destruct c as [[] [] [] [] [] [] [] []]; reflexivity.
    - assert (Hc' : Str.isDigit c' = true).
      { cbn [list_ascii_of_string forallb] in Hd.
        apply andb_true_iff in Hd. destruct Hd as [_ Hd].
        now apply andb_true_iff in Hd. }
      clear - Hc Hc'.
      destruct c as [[] [] [] [] [] [] [] []]; try discriminate Hc;
        try reflexivity;
        destruct c' as [[] [] [] [] [] [] [] []]; try discriminate Hc';
        reflexivity. }
  rewrite Hprefix. cbn [fst snd].
  rewrite readDigits_digits by (try exact Hd; discriminate).
  reflexivity.
Qed.

Section PageSize.

Variable rt : Runtime.


End PageSize.

(** ** Order and stability of the sort *)

Section SortOrder.

Context {A : Type}.
Variable comparefn : A -> A -> float.
Variable P : A -> Prop.
Variable before : A -> A -> Prop.

Hypothesis before_trans :
  forall x y z, P x -> P y -> P z -> before x y -> before y z -> before x z.
Hypothesis stays_before :
  forall x y, P x -> P y ->
              Float.positive (comparefn x y) = false -> before x y.
Hypothesis moves_behind :
  forall x y, P x -> P y ->
              Float.positive (comparefn x y) = true -> before y x.

Lemma insertSorted_sorted (x : A) (l : list A) :
  P x -> Forall P l -> StronglySorted before l ->
  StronglySorted before (insertSorted comparefn x l).
Proof.
  intros Hx Hl Hs. induction l as [|y l IH]; cbn [insertSorted].
  - constructor; constructor.
  - apply Forall_cons_iff in Hl. destruct Hl as [Hy Hl].
    apply StronglySorted_inv in Hs. destruct Hs as [Hs Hall].
    destruct (Float.positive (comparefn x y)) eqn:Hpos.
    + constructor; [apply IH; assumption|].
      apply Forall_forall. intros z Hz.
      apply (Permutation_in _ (insertSorted_perm comparefn x l)) in Hz.
      destruct Hz as [<-|Hz].
      * apply moves_behind; assumption.
      * rewrite Forall_forall in Hall. apply Hall, Hz.
    + constructor; [constructor; assumption|].
      assert (Hxy : before x y) by (apply stays_before; assumption).
      constructor; [exact Hxy|].
      rewrite Forall_forall in Hall, Hl |- *. intros z Hz.
      apply (before_trans x y z); auto.
Qed.

Lemma arraySort_sorted (l : list A) :
  Forall P l -> StronglySorted before (arraySort comparefn l).
Proof.
  induction l as [|x l IH]; intro Hl; cbn [arraySort]; [constructor|].
  apply Forall_cons_iff in Hl. destruct Hl as [Hx Hl].
  apply insertSorted_sorted; [exact Hx | | apply IH, Hl].
  rewrite Forall_forall in Hl |- *. intros z Hz.
  apply Hl. apply (Permutation_in _ (arraySort_perm comparefn l)), Hz.
Qed.

End SortOrder.

Section Stability.

Context {A : Type}.
Variable comparefn : A -> A -> float.
Variable same : A -> bool.

Hypothesis ties :
  forall x y, same x = true -> same y = true ->
              Float.positive (comparefn x y) = false.

Lemma insertSorted_stable (x : A) (l : list A) :
  filter same (insertSorted comparefn x l) = filter same (x :: l).
Proof.
  induction l as [|y l IH]; cbn [insertSorted]; [reflexivity|].
  destruct (Float.positive (comparefn x y)) eqn:Hpos; [|reflexivity].
  cbn [filter] in *. rewrite IH.
  destruct (same x) eqn:Hx; destruct (same y) eqn:Hy; try reflexivity.
  rewrite (ties x y Hx Hy) in Hpos. discriminate.
Qed.

Lemma arraySort_stable (l : list A) :
  filter same (arraySort comparefn l) = filter same l.
Proof.
  induction l as [|x l IH]; cbn [arraySort]; [reflexivity|].
  rewrite insertSorted_stable. cbn [filter]. now rewrite IH.
Qed.

End Stability.

Lemma sorted_nth {A : Type} (before : A -> A -> Prop) (l : list A)
  (i j : nat) (a b : A) :
  StronglySorted before l -> (i < j)%nat ->
  nth_error l i = Some a -> nth_error l j = Some b -> before a b.
Proof.
  intro Hs. revert i j. induction Hs as [|x l Hs IH Hall]; intros i j Hij Hi Hj.
  - destruct i; discriminate.
  - destruct j as [|j]; [lia|]. cbn [nth_error] in Hj.
    destruct i as [|i]; cbn [nth_error] in Hi.
    + injection Hi as <-. rewrite Forall_forall in Hall.
      apply Hall. eapply nth_error_In; eassumption.
    + apply (IH i j); [lia | assumption | assumption].
Qed.

Lemma positive_scale (q : Q) (d : Direction) :
  Float.positive (Float.scale (FFin q) (multiplierOf d))
  = match d with
    | Asc => negb (Qle_bool q 0)
    | Desc => negb (Qle_bool 0 q)
    end.
Proof.
  destruct d; cbn [Float.scale multiplierOf Float.positive]; f_equal.
  - apply eq_true_iff_eq. rewrite !Qle_bool_iff.
    change (inject_Z 1) with 1%Q. now rewrite Qmult_1_r.
  - apply eq_true_iff_eq. rewrite !Qle_bool_iff.
    change (inject_Z (-1)) with (- (1))%Q.
    split; intro H.
    + setoid_replace q with (- (q * - (1)))%Q by ring.
      setoid_replace 0%Q with (- 0)%Q by ring.
      now apply Qopp_le_compat.
    + setoid_replace (q * - (1))%Q with (- q)%Q by ring.
      setoid_replace 0%Q with (- 0)%Q by ring.
      now apply Qopp_le_compat.
Qed.

Section SortKeys.

Variable rt : Runtime.

Lemma keyBefore_trans (d : Direction) (key : RowData -> option Q)
  (a b c : RowData) :
  keyBefore d key a b -> keyBefore d key b c -> keyBefore d key a c.
Proof.
  unfold keyBefore, inOrder.
  destruct (key a), (key b), (key c), d; try tauto; try congruence;
    intros; eapply Qle_trans; eassumption.
Qed.

Lemma positive_ofZ (z : Z) (d : Direction) :
  Float.positive (Float.scale (Float.ofZ z) (multiplierOf d))
  = match d with Asc => 0 <? z | Desc => z <? 0 end.
Proof.
  unfold Float.ofZ. rewrite positive_scale.
  destruct d; apply eq_true_iff_eq;
    rewrite negb_true_iff, <- not_true_iff_false, Qle_bool_iff, Z.ltb_lt;
    change 0%Q with (inject_Z 0); rewrite <- Zle_Qle; lia.
Qed.

Lemma sortedBy_of_keyBefore (d : Direction) (key : RowData -> option Q)
  (l : list RowData) :
  StronglySorted (keyBefore d key) l -> sortedBy d key l.
Proof.
  intros Hs i j a b x y Hij Hi Hj Ha Hb.
  pose proof (sorted_nth _ l i j a b Hs Hij Hi Hj) as H.
  unfold keyBefore in H. now rewrite Ha, Hb in H.
Qed.

Lemma sortCache_sorted (ty : ColumnType) (d : Direction) (columnIndex : nat)
  (key : RowData -> option Q) (cache : list RowData) :
  (forall r, In r cache ->
             (key r = None <-> emptyKey columnIndex r = true)) ->
  (forall a b x y,
      In a cache -> In b cache -> key a = Some x -> key b = Some y ->
      Float.positive (compareRows rt ty (multiplierOf d) columnIndex a b)
      = match d with
        | Asc => negb (Qle_bool x y)
        | Desc => negb (Qle_bool y x)
        end) ->
  sortedBy d key
    (arraySort (compareRows rt ty (multiplierOf d) columnIndex) cache).
Proof.
  intros Hnone Hsome. apply sortedBy_of_keyBefore.
  apply (arraySort_sorted _
           (fun r => In r cache /\
                     forall r', In r' cache ->
                                (key r' = None
                                 <-> emptyKey columnIndex r' = true))).
  - intros x y z _ _ _. apply keyBefore_trans.
  - intros a b [Ha Hk] [Hb _] Hpos.
    assert (Hk' : forall r, In r [a; b] ->
                            (key r = None <-> emptyKey columnIndex r = true)).
    { intros r [<-|[<-|[]]]; apply Hk; assumption. }
    clear Hk.
    unfold keyBefore.
    destruct (key a) as [x|] eqn:Hka; destruct (key b) as [y|] eqn:Hkb.
    + rewrite (Hsome a b x y Ha Hb Hka Hkb) in Hpos. unfold inOrder.
      destruct d; rewrite negb_false_iff, Qle_bool_iff in Hpos; exact Hpos.
    + assert (Hea : emptyKey columnIndex a = false).
      { destruct (emptyKey columnIndex a) eqn:E; [|reflexivity].
        apply (Hk' a) in E; [congruence | now left]. }
      apply (Hk' b) in Hkb; [|right; now left].
      rewrite (compareRows_empty_right rt ty _ columnIndex a b Hea Hkb)
        in Hpos.
      destruct d; [reflexivity | discriminate].
    + assert (Heb : emptyKey columnIndex b = false).
      { destruct (emptyKey columnIndex b) eqn:E; [|reflexivity].
        apply (Hk' b) in E; [congruence | right; now left]. }
      apply (Hk' a) in Hka; [|now left].
      rewrite (compareRows_empty_left rt ty _ columnIndex a b Hka Heb)
        in Hpos.
      destruct d; [discriminate | reflexivity].
    + exact I.
  - intros a b [Ha Hk] [Hb _] Hpos.
    assert (Hk' : forall r, In r [a; b] ->
                            (key r = None <-> emptyKey columnIndex r = true)).
    { intros r [<-|[<-|[]]]; apply Hk; assumption. }
    clear Hk.
    unfold keyBefore.
    destruct (key a) as [x|] eqn:Hka; destruct (key b) as [y|] eqn:Hkb.
    + rewrite (Hsome a b x y Ha Hb Hka Hkb) in Hpos. unfold inOrder.
      destruct d;
        rewrite negb_true_iff, <- not_true_iff_false, Qle_bool_iff in Hpos;
        apply Qlt_le_weak, Qnot_le_lt, Hpos.
    + assert (Hea : emptyKey columnIndex a = false).
      { destruct (emptyKey columnIndex a) eqn:E; [|reflexivity].
        apply (Hk' a) in E; [congruence | now left]. }
      apply (Hk' b) in Hkb; [|right; now left].
      rewrite (compareRows_empty_right rt ty _ columnIndex a b Hea Hkb)
        in Hpos.
      destruct d; [discriminate | reflexivity].
    + assert (Heb : emptyKey columnIndex b = false).
      { destruct (emptyKey columnIndex b) eqn:E; [|reflexivity].
        apply (Hk' b) in E; [congruence | right; now left]. }
      apply (Hk' a) in Hka; [|now left].
      rewrite (compareRows_empty_left rt ty _ columnIndex a b Hka Heb)
        in Hpos.
      destruct d; [reflexivity | discriminate].
    + exact I.
  - rewrite Forall_forall. intros r Hr. split; [exact Hr | exact Hnone].
Qed.

(** X9.  [sortRows] on a column it takes for a column of dates, in which every
    cell that is not empty parses to a valid date: the rows that hold a date
    end in chronological order when the direction is ascending, in reverse
    chronological order when it is descending. *)
Theorem date_sort_is_chronological (cache : list RowData)
  (columnIndex : nat) (d : Direction) :
  inferColumnType rt cache columnIndex = TypeDate ->
  (forall r, In r cache -> emptyKey columnIndex r = false ->
             parseDate rt (cellText r columnIndex) <> None) ->
  sortedBy d (dateKey rt columnIndex) (sortCache rt columnIndex d cache).
Proof.
  intros Hty Hvalid. unfold sortCache. rewrite Hty.
  apply sortCache_sorted.
  - intros r Hr. unfold dateKey.
    destruct (emptyKey columnIndex r) eqn:He; [tauto|].
    specialize (Hvalid r Hr He).
    destruct (parseDate rt (cellText r columnIndex));
      [split; discriminate | contradiction].
  - intros a b x y _ _. unfold dateKey, compareRows, emptyKey.
    destruct (Str.truthy (cellText a columnIndex)); [|discriminate].
    destruct (Str.truthy (cellText b columnIndex)); [|discriminate].
    cbn [negb andb].
    destruct (parseDate rt (cellText a columnIndex)) as [m|]; [|discriminate].
    destruct (parseDate rt (cellText b columnIndex)) as [n|]; [|discriminate].
    cbn [option_map JsDate.diff]. intros Hx Hy.
    injection Hx as <-. injection Hy as <-.
    rewrite positive_ofZ. unfold JsDate.msPerDay.
    destruct d; apply eq_true_iff_eq;
      rewrite negb_true_iff, <- not_true_iff_false, Qle_bool_iff,
        <- Zle_Qle, Z.ltb_lt; lia.
Qed.

(** X10.  [sortRows] on a column it takes for a column of numbers, in which
    [parseFloat] reads a finite number in every cell that is not empty: the
    rows that hold a number end in increasing order of the numbers when the
    direction is ascending, in decreasing order when it is descending. *)
Theorem number_sort_is_numeric (cache : list RowData)
  (columnIndex : nat) (d : Direction) :
  inferColumnType rt cache columnIndex = TypeNumber ->
  (forall r, In r cache -> emptyKey columnIndex r = false ->
             Float.isFinite
               (parseFloat rt (Str.replaceComma (cellText r columnIndex)))
             = true) ->
  sortedBy d (numberKey rt columnIndex) (sortCache rt columnIndex d cache).
Proof.
  intros Hty Hvalid. unfold sortCache. rewrite Hty.
  apply sortCache_sorted.
  - intros r Hr. unfold numberKey.
    destruct (emptyKey columnIndex r) eqn:He; [tauto|].
    specialize (Hvalid r Hr He).
    destruct (parseFloat rt (Str.replaceComma (cellText r columnIndex)));
      try discriminate.
    split; discriminate.
  - intros a b x y _ _. unfold numberKey, compareRows, emptyKey.
    destruct (Str.truthy (cellText a columnIndex)); [|discriminate].
    destruct (Str.truthy (cellText b columnIndex)); [|discriminate].
    cbn [negb andb].
    destruct (parseFloat rt (Str.replaceComma (cellText a columnIndex)))
      as [| |p]; try discriminate.
    destruct (parseFloat rt (Str.replaceComma (cellText b columnIndex)))
      as [| |q]; try discriminate.
    intros Hx Hy. injection Hx as <-. injection Hy as <-.
    cbn [Float.sub]. rewrite positive_scale.
    destruct d; f_equal; apply eq_true_iff_eq; rewrite !Qle_bool_iff;
      split; intro H; lra.
Qed.

Lemma positive_scale_reflexive (f : float) (d : Direction) :
  Float.positive f = false -> Float.negative f = false ->
  Float.positive (Float.scale f (multiplierOf d)) = false.
Proof.
  destruct f as [|sign|q]; [reflexivity| |].
  - destruct d, sign; cbn; congruence.
  - rewrite positive_scale. cbn [Float.positive Float.negative].
    destruct d; tauto.
Qed.


End SortKeys.

(** ** What the body shows *)

Lemma patchCells_shows (trCells : list SurfaceCell) (data : list CellData) :
  List.length trCells = List.length data ->
  List.length (patchCells trCells data) = List.length data /\
  map cellInnerHTML (patchCells trCells data) = map innerHTML data.
Proof.
  revert data; induction trCells as [|c cs IH]; intros [|d ds] Hlen;
    cbn [List.length] in Hlen; try discriminate.
  - split; reflexivity.
  - cbn [patchCells List.length map].
    destruct (IH ds) as [Hl Hm]; [lia|].
    rewrite Hl, Hm. split; reflexivity.
Qed.

Lemma buildCache_rectangular (rows : list SrcRow) (width : nat) :
  Forall (fun row => List.length row = width) rows ->
  rectangular (buildCache rows) width.
Proof.
  intros Hrows r Hr. unfold buildCache in Hr.
  apply in_map_iff in Hr. destruct Hr as ([k row] & <- & Hin).
  apply in_combine_r in Hin. rewrite Forall_forall in Hrows.
  specialize (Hrows row Hin).
  unfold buildRow, cloneSource, showsRow.
  cbn [fst snd cells element surfaceCells dataOriginalIndex originalIndex].
  rewrite !length_map, !map_map. repeat split; try exact Hrows.
Qed.

Section Rendering.

Variable rt : Runtime.
Variable known : list RowData.
Variable width : nat.
Hypothesis known_rectangular : rectangular known width.

Lemma rendered_ext (s s' : State) :
  incl (rowsCache s') (rowsCache s) ->
  incl (filteredRows s') (filteredRows s) ->
  rowPool s' = rowPool s -> tbody s' = tbody s ->
  rendered known width s -> rendered known width s'.
Proof.
  intros Hc Hf Hp Hb (H1 & H2 & H3 & H4). unfold rendered.
  rewrite Hp, Hb. repeat split; try assumption.
  - intros r Hr. apply H1, Hc, Hr.
  - intros r Hr. apply H2, Hf, Hr.
Qed.

Lemma renderRow_rendered (s : State) (i : Z) :
  rendered known width s -> rendered known width (snd (renderRow s i)).
Proof.
  intros (H1 & H2 & H3 & H4). unfold renderRow, rowAt.
  destruct (rowPool s) as [|tr pool] eqn:Hpool.
  - destruct (if i <? 0 then None else nth_error (filteredRows s) (Z.to_nat i))
      as [r|] eqn:Hr; cbn [snd].
    2:{ unfold rendered. rewrite Hpool. repeat split; assumption. }
    assert (Hin : In r known).
    { destruct (i <? 0); [discriminate|].
      apply H2. eapply nth_error_In; eassumption. }
    destruct (known_rectangular r Hin) as (Hlen & Hel & Hshow).
    unfold rendered.
    cbn [rowsCache filteredRows rowPool tbody appendChild setTbody
         setAllocations].
    rewrite Hpool in *. cbn [app] in *.
    repeat split; try assumption.
    + apply Forall_app. split; [exact H3|].
      constructor; [exact Hel | constructor].
    + apply Forall_app. split; [exact H4|].
      constructor; [|constructor].
      exists r. split; [exact Hin|].
      split; [reflexivity | exact (proj2 Hshow)].
  - cbn [app] in H3. apply Forall_cons_iff in H3. destruct H3 as [Htr H3].
    destruct (if i <? 0 then None else nth_error (filteredRows s) (Z.to_nat i))
      as [r|] eqn:Hr; cbn [snd].
    2:{ unfold rendered. cbn [rowsCache filteredRows rowPool tbody setRowPool].
        repeat split; assumption. }
    assert (Hin : In r known).
    { destruct (i <? 0); [discriminate|].
      apply H2. eapply nth_error_In; eassumption. }
    destruct (known_rectangular r Hin) as (Hlen & Hel & Hshow).
    destruct (patchCells_shows (surfaceCells tr) (cells r)) as [Hpl Hpm];
      [congruence|].
    unfold rendered.
    cbn [rowsCache filteredRows rowPool tbody appendChild setTbody
         setRowPool].
    apply Forall_app in H3. destruct H3 as [H3p H3b].
    repeat split; try assumption.
    + apply Forall_app. split; [exact H3p|].
      apply Forall_app. split; [exact H3b|].
      constructor; [|constructor].
      cbn [tagged surfaceCells]. congruence.
    + apply Forall_app. split; [exact H4|].
      constructor; [|constructor].
      exists r. split; [exact Hin|].
      split; [reflexivity | exact Hpm].
Qed.

Lemma renderLoop_rendered (turns : nat) (i : Z) (s : State) :
  rendered known width s -> rendered known width (snd (renderLoop turns i s)).
Proof.
  revert i s; induction turns as [|n IH]; intros i s H; cbn [renderLoop].
  - exact H.
  - pose proof (renderRow_rendered s i H) as H1.
    destruct (renderRow s i) as [[e|] s1]; cbn [snd] in *.
    + exact H1.
    + apply IH, H1.
Qed.

Lemma renderRows_rendered (a b : jsnum) (s : State) :
  rendered known width s -> rendered known width (snd (renderRows a b s)).
Proof.
  intro H. unfold renderRows.
  destruct (JsNum.lt a b); [|exact H].
  destruct a; destruct b;
    first [apply renderLoop_rendered | apply renderRow_rendered]; exact H.
Qed.

Lemma detachRows_rendered (s : State) :
  rendered known width s -> rendered known width (detachRows s).
Proof.
  intros (H1 & H2 & H3 & H4). unfold rendered, detachRows.
  cbn [rowsCache filteredRows rowPool tbody setTbody setRowPool].
  repeat split; try assumption; [|constructor].
  rewrite app_nil_r. apply Forall_app in H3. destruct H3 as [H3p H3b].
  apply Forall_app. split; [|exact H3p].
  apply Forall_rev, H3b.
Qed.

Lemma updateTable_rendered (now : Z) (s : State) :
  rendered known width s ->
  rendered known width (snd (updateTable rt now s)).
Proof.
  intro H.
  assert (Hsort : rendered known width (sortPhase rt s)).
  { destruct (sortPhase_shape rt s) as [cache Hs].
    pose proof (sortPhase_perm rt s) as Hp.
    apply (rendered_ext s);
      [intros r Hr; eapply Permutation_in; eassumption
      |rewrite Hs; apply incl_refl
      |rewrite Hs; reflexivity
      |rewrite Hs; reflexivity
      |exact H]. }
  unfold updateTable.
  destruct (applyFilters rt now (sortPhase rt s)) as [kept|e] eqn:Hf;
    [|exact Hsort].
  apply applyFilters_normal in Hf.
  set (s2 := clampPage (setFilteredRows kept (sortPhase rt s))).
  assert (H2 : rendered known width s2).
  { destruct Hsort as (H1 & _ & H3 & H4).
    unfold s2, clampPage.
    destruct (JsNum.gt _ _); unfold rendered;
      cbn [rowsCache filteredRows rowPool tbody setCurrentPageIndex
           setFilteredRows];
      repeat split; try assumption;
      intros r Hr; rewrite Hf in Hr; apply filter_In in Hr; apply H1, Hr. }
  pose proof (renderRows_rendered (minIndexOf s2) (maxIndexOf s2)
                (detachRows s2) (detachRows_rendered s2 H2)) as H3.
  destruct (renderRows (minIndexOf s2) (maxIndexOf s2) (detachRows s2))
    as [[e|] s3]; cbn [snd] in *; [exact H3|].
  unfold publishInfo. destruct (tableInfo s3); exact H3.
Qed.

Lemma dispatch_rendered (now : Z) (e : Event) (s : State) :
  rendered known width s ->
  rendered known width (snd (dispatch rt now e s)).
Proof.
  intro H.
  assert (Hrestore : rendered known width (restoreOriginalOrder s)).
  { apply (rendered_ext s);
      [|apply incl_refl | reflexivity | reflexivity | exact H].
    intros r Hr. eapply Permutation_in; [|exact Hr].
    apply arraySort_perm. }
  destruct e; cbn [dispatch].
  - unfold handleSort.
    destruct (buttonOf s columnIndex);
      destruct (nextDirection (currentSort s) columnIndex);
      apply updateTable_rendered;
      first [exact H | exact Hrestore].
  - apply updateTable_rendered, H.
  - apply updateTable_rendered, H.
  - apply updateTable_rendered, H.
  - apply updateTable_rendered, H.
  - apply updateTable_rendered, H.
  - apply updateTable_rendered, H.
  - cbn [snd].
    apply (rendered_ext s);
      [|apply incl_refl | reflexivity | reflexivity | exact H].
    intros r Hr. eapply Permutation_in; [|exact Hr]. apply arraySort_perm.
  - destruct (applyFilters rt now s) as [kept|e] eqn:Hf; [|exact H].
    apply applyFilters_normal in Hf. cbn [snd].
    destruct H as (H1 & H2 & H3 & H4). unfold rendered.
    cbn [rowsCache filteredRows rowPool tbody setFilteredRows].
    repeat split; try assumption.
    intros r Hr. rewrite Hf in Hr. apply filter_In in Hr. apply H1, Hr.
Qed.

Lemma reachable_rendered (s0 s : State) :
  rendered known width s0 -> Reachable rt s0 s -> rendered known width s.
Proof.
  intros H0 Hr. induction Hr as [|s now e _ IH]; [exact H0|].
  apply dispatch_rendered, IH.
Qed.

End Rendering.

Section Displayed.

Variable rt : Runtime.


End Displayed.

(** ** The attributes of a recycled cell *)

Lemma getAttribute_set (name other value : string) (a : attrs) :
  Attr.getAttribute name (Attr.setAttribute other value a)
  = if String.eqb other name then Some value else Attr.getAttribute name a.
Proof.
  induction a as [|[n v] a IH]; cbn [Attr.setAttribute Attr.getAttribute].
  - destruct (String.eqb other name); reflexivity.
  - destruct (String.eqb_spec n other) as [->|Hne];
      cbn [Attr.getAttribute].
    + destruct (String.eqb other name); reflexivity.
    + destruct (String.eqb_spec n name) as [->|Hn].
      * destruct (String.eqb_spec other name); [congruence | reflexivity].
      * exact IH.
Qed.

Lemma getAttribute_remove (name other : string) (a : attrs) :
  Attr.getAttribute name (Attr.removeAttribute other a)
  = if String.eqb other name then None else Attr.getAttribute name a.
Proof.
  unfold Attr.removeAttribute.
  induction a as [|[n v] a IH]; cbn [filter Attr.getAttribute fst].
  - destruct (String.eqb other name); reflexivity.
  - destruct (String.eqb_spec n other) as [->|Hne]; cbn [negb].
    + rewrite IH. destruct (String.eqb other name); reflexivity.
    + cbn [Attr.getAttribute]. rewrite IH.
      destruct (String.eqb_spec n name) as [->|Hn]; [|reflexivity].
      destruct (String.eqb_spec other name); [congruence | reflexivity].
Qed.

Lemma getAttribute_In (name value : string) (a : attrs) :
  NoDup (map fst a) -> In (name, value) a ->
  Attr.getAttribute name a = Some value.
Proof.
  induction a as [|[n v] a IH]; cbn [map fst Attr.getAttribute];
    intros Hnd Hin; [contradiction|].
  apply NoDup_cons_iff in Hnd. destruct Hnd as [Hfresh Hnd].
  destruct Hin as [Heq|Hin].
  - injection Heq as -> ->. now rewrite String.eqb_refl.
  - destruct (String.eqb_spec n name) as [->|Hne]; [|now apply IH].
    exfalso. apply Hfresh. apply in_map_iff. exists (name, value). now split.
Qed.

Lemma getAttribute_app (name : string) (a b : attrs) :
  Attr.getAttribute name (a ++ b)
  = match Attr.getAttribute name a with
    | Some value => Some value
    | None => Attr.getAttribute name b
    end.
Proof.
  induction a as [|[n v] a IH]; cbn [app Attr.getAttribute]; [reflexivity|].
  destruct (String.eqb n name); [reflexivity | exact IH].
Qed.

(** The loop of lines 476-480 over the attributes of a snapshot. *)
Lemma getAttribute_copied (name : string) (snapshot acc : attrs) :
  Attr.getAttribute name
    (fold_left
       (fun acc nv =>
          if negb (String.eqb (fst nv) "innerHTML")
          then Attr.setAttribute (fst nv) (snd nv) acc
          else acc)
       snapshot acc)
  = if String.eqb name "innerHTML" then Attr.getAttribute name acc
    else match Attr.getAttribute name (rev snapshot) with
         | Some value => Some value
         | None => Attr.getAttribute name acc
         end.
Proof.
  revert acc; induction snapshot as [|[n v] snapshot IH]; intro acc;
    cbn [fold_left fst snd rev].
  - destruct (String.eqb name "innerHTML"); reflexivity.
  - rewrite IH. destruct (String.eqb_spec name "innerHTML") as [->|Hname].
    + destruct (String.eqb_spec n "innerHTML") as [->|Hn]; cbn [negb];
        [reflexivity|].
      rewrite getAttribute_set.
      destruct (String.eqb_spec n "innerHTML"); [contradiction|reflexivity].
    + rewrite getAttribute_app. cbn [Attr.getAttribute].
      destruct (Attr.getAttribute name (rev snapshot)); [reflexivity|].
      destruct (String.eqb_spec n "innerHTML") as [->|Hn]; cbn [negb].
      * destruct (String.eqb_spec "innerHTML" name); [congruence|reflexivity].
      * rewrite getAttribute_set.
        destruct (String.eqb n name); reflexivity.
Qed.

Lemma getAttribute_rev (name : string) (a : attrs) :
  NoDup (map fst a) ->
  Attr.getAttribute name (rev a) = Attr.getAttribute name a.
Proof.
  intro Hnd.
  destruct (Attr.getAttribute name a) as [value|] eqn:Hget.
  - apply getAttribute_In.
    + rewrite map_rev. apply NoDup_rev, Hnd.
    + apply in_rev. rewrite rev_involutive.
      clear Hnd. induction a as [|[n v] a IH]; [discriminate|].
      cbn [Attr.getAttribute] in Hget.
      destruct (String.eqb_spec n name) as [->|Hne].
      * injection Hget as ->. now left.
      * right. apply IH, Hget.
  - clear Hnd.
    assert (Hnone : forall l, (forall v, ~ In (name, v) l) ->
                              Attr.getAttribute name l = None).
    { induction l as [|[n v] l IH]; intro H; [reflexivity|].
      cbn [Attr.getAttribute].
      destruct (String.eqb_spec n name) as [->|Hne].
      - exfalso. apply (H v). now left.
      - apply IH. intros v' Hv'. apply (H v'). now right. }
    apply Hnone. intros v Hv. apply in_rev in Hv.
    induction a as [|[n v'] a IH]; [contradiction|].
    cbn [Attr.getAttribute] in Hget.
    destruct (String.eqb_spec n name) as [->|Hne]; [discriminate|].
    destruct Hv as [Heq|Hv]; [congruence | now apply IH].
Qed.

(** X13.  The patch of a cell of a recycled row (lines 468-480), for a
    snapshot whose attribute names are distinct, as those of an element are:
    the cell takes the markup of the snapshot and every attribute of the
    snapshot; its [title] is the one of the snapshot, and is removed when the
    snapshot has none; but every other attribute the snapshot does not have
    stays on the cell as the row displayed before left it. *)
Theorem recycled_cell_attributes (cell : SurfaceCell) (data : CellData)
  (name : string) :
  NoDup (map fst (attributes data)) ->
  name <> "innerHTML" ->
  let patched := patchCell cell data in
  cellInnerHTML patched = innerHTML data /\
  (forall value,
      Attr.getAttribute name (attributes data) = Some value ->
      Attr.getAttribute name (cellAttributes patched) = Some value) /\
  (Attr.getAttribute name (attributes data) = None ->
   Attr.getAttribute name (cellAttributes patched)
   = if String.eqb name "title"
     then (if Str.truthy (title data) then Some (title data) else None)
     else Attr.getAttribute name (cellAttributes cell)).
Proof.
  intros Hnd Hname patched. unfold patched, patchCell.
  cbn [cellInnerHTML cellAttributes].
  split; [reflexivity|].
  rewrite getAttribute_copied.
  destruct (String.eqb_spec name "innerHTML"); [contradiction|].
  rewrite (getAttribute_rev name _ Hnd).
  split.
  - intros value ->. reflexivity.
  - intros ->.
    destruct (Str.truthy (title data)).
    + rewrite getAttribute_set.
      destruct (String.eqb_spec "title" name) as [<-|Hne]; [reflexivity|].
      destruct (String.eqb_spec name "title"); [congruence | reflexivity].
    + rewrite getAttribute_remove.
      destruct (String.eqb_spec "title" name) as [<-|Hne]; [reflexivity|].
      destruct (String.eqb_spec name "title"); [congruence | reflexivity].
Qed.

(** ** The options of a value filter *)

Lemma lessThan_irrefl (a : string) : lessThan a a = false.
Proof.
  induction a as [|x a IH]; [reflexivity|]. cbn [lessThan].
  rewrite Nat.ltb_irrefl, Nat.eqb_refl. exact IH.
Qed.

Lemma lessThan_trans (a b c : string) :
  lessThan a b = true -> lessThan b c = true -> lessThan a c = true.
Proof.
  revert b c; induction a as [|x a IH]; intros [|y b] [|z c];
    cbn [lessThan]; try discriminate; try reflexivity.
  destruct (Nat.ltb_spec (nat_of_ascii x) (nat_of_ascii y));
    destruct (Nat.ltb_spec (nat_of_ascii y) (nat_of_ascii z));
    destruct (Nat.ltb_spec (nat_of_ascii x) (nat_of_ascii z));
    try reflexivity; try lia;
    destruct (Nat.eqb_spec (nat_of_ascii x) (nat_of_ascii y));
    destruct (Nat.eqb_spec (nat_of_ascii y) (nat_of_ascii z));
    destruct (Nat.eqb_spec (nat_of_ascii x) (nat_of_ascii z));
    try discriminate; try lia.
  apply IH.
Qed.

Lemma lessThan_asym (a b : string) :
  lessThan a b = true -> lessThan b a = false.
Proof.
  intro H. destruct (lessThan b a) eqn:Hba; [|reflexivity].
  pose proof (lessThan_trans a b a H Hba) as Haa.
  rewrite lessThan_irrefl in Haa. discriminate.
Qed.

Lemma lessThan_total (a b : string) :
  lessThan a b = false -> lessThan b a = false -> a = b.
Proof.
  revert b; induction a as [|x a IH]; intros [|y b]; cbn [lessThan];
    try discriminate; [reflexivity|].
  destruct (Nat.ltb_spec (nat_of_ascii x) (nat_of_ascii y)); [discriminate|].
  destruct (Nat.ltb_spec (nat_of_ascii y) (nat_of_ascii x)); [discriminate|].
  destruct (Nat.eqb_spec (nat_of_ascii x) (nat_of_ascii y)) as [E|E]; [|lia].
  destruct (Nat.eqb_spec (nat_of_ascii y) (nat_of_ascii x)); [|lia].
  intros Hab Hba. f_equal; [|now apply IH].
  rewrite <- (ascii_nat_embedding x), <- (ascii_nat_embedding y).
  now rewrite E.
Qed.

Lemma lessThan_trans_le (a b c : string) :
  lessThan b a = false -> lessThan c b = false -> lessThan c a = false.
Proof.
  intros Hab Hbc. destruct (lessThan c a) eqn:Hca; [|reflexivity].
  destruct (lessThan a b) eqn:H1.
  - rewrite (lessThan_trans c a b Hca H1) in Hbc. discriminate.
  - pose proof (lessThan_total a b H1 Hab) as ->. congruence.
Qed.

Lemma setAdd_In (v w : string) (set : list string) :
  In w (setAdd v set) <-> w = v \/ In w set.
Proof.
  unfold setAdd. destruct (existsb (String.eqb v) set) eqn:He.
  - apply existsb_exists in He. destruct He as (u & Hu & Heq).
    apply String.eqb_eq in Heq. subst u.
    split; [now right | intros [->|H]; assumption].
  - rewrite in_app_iff. cbn [In]. split; intros [H|H]; auto.
    + destruct H as [H|[]]; auto.
Qed.

Lemma setAdd_NoDup (v : string) (set : list string) :
  NoDup set -> NoDup (setAdd v set).
Proof.
  intro Hnd. unfold setAdd.
  destruct (existsb (String.eqb v) set) eqn:He; [exact Hnd|].
  apply NoDup_app; [exact Hnd | constructor; [intros [] | constructor] |].
  intros w Hw [Heq|[]]. subst w.
  assert (Ht : existsb (String.eqb v) set = true).
  { apply existsb_exists. exists v. split; [exact Hw|].
    apply String.eqb_refl. }
  congruence.
Qed.

Lemma uniqueVals_spec (allRows : list SrcRow) (colIndex : nat) :
  NoDup (uniqueVals allRows colIndex) /\
  forall v, In v (uniqueVals allRows colIndex) <->
            v <> "" /\
            exists row cell,
              In row allRows /\ nth_error row colIndex = Some cell /\
              Str.trim (getTextContent (Some cell)) = v.
Proof.
  unfold uniqueVals.
  set (step := fun (set : list string) (row : SrcRow) =>
                 match nth_error row colIndex with
                 | Some cell =>
                     let cellVal := Str.trim (getTextContent (Some cell)) in
                     if Str.truthy cellVal then setAdd cellVal set else set
                 | None => set
                 end).
  assert (H : forall rows set,
             NoDup set ->
             NoDup (fold_left step rows set) /\
             forall v, In v (fold_left step rows set) <->
                       In v set \/
                       (v <> "" /\
                        exists row cell,
                          In row rows /\ nth_error row colIndex = Some cell /\
                          Str.trim (getTextContent (Some cell)) = v)).
  { induction rows as [|row rows IH]; intros set Hnd; cbn [fold_left].
    - split; [exact Hnd|]. intro v. split; [now left|].
      intros [H|(_ & row & cell & [] & _)]. exact H.
    - assert (Hstep : NoDup (step set row) /\
                      forall v, In v (step set row) <->
                                In v set \/
                                (v <> "" /\
                                 exists cell,
                                   nth_error row colIndex = Some cell /\
                                   Str.trim (getTextContent (Some cell)) = v)).
      { unfold step. destruct (nth_error row colIndex) as [cell|].
        - cbv zeta.
          destruct (Str.truthy (Str.trim (getTextContent (Some cell))))
            eqn:Ht.
          + split; [now apply setAdd_NoDup|].
            intro v. rewrite setAdd_In. split.
            * intros [->|Hv]; [right|now left].
              split; [intros E; rewrite E in Ht; discriminate|].
              exists cell. now split.
            * intros [Hv|(_ & cell' & Hc & <-)]; [now right|].
              injection Hc as <-. now left.
          + split; [exact Hnd|]. intro v. split; [now left|].
            intros [Hv|(Hne & cell' & Hc & <-)]; [exact Hv|].
            injection Hc as <-. apply truthy_false_iff in Ht. contradiction.
        - split; [exact Hnd|]. intro v. split; [now left|].
          intros [Hv|(_ & cell' & Hc & _)]; [exact Hv | discriminate]. }
      destruct Hstep as [Hnd1 Hin1].
      destruct (IH (step set row) Hnd1) as [Hnd2 Hin2].
      split; [exact Hnd2|].
      intro v. rewrite Hin2, Hin1. split.
      + intros [[Hv|(Hne & cell & Hc & Ht)]|(Hne & r & cell & Hr & Hc & Ht)].
        * now left.
        * right. split; [exact Hne|]. exists row, cell. split; [now left|].
          now split.
        * right. split; [exact Hne|]. exists r, cell. split; [now right|].
          now split.
      + intros [Hv|(Hne & r & cell & [<-|Hr] & Hc & Ht)].
        * left. now left.
        * left. right. split; [exact Hne|]. exists cell. now split.
        * right. split; [exact Hne|]. exists r, cell. now split. }
  destruct (H allRows [] (NoDup_nil _)) as [Hnd Hin].
  split; [exact Hnd|].
  intro v. destruct (Hin v) as [Hfwd Hbwd]. split.
  - intro Hv. destruct (Hfwd Hv) as [[]|Hex]. exact Hex.
  - intro Hex. apply Hbwd. now right.
Qed.

Lemma in_combine_seq {A : Type} (l : list A) (x : A) (start : nat) :
  In x l -> exists k, In (k, x) (combine (seq start (List.length l)) l).
Proof.
  revert start; induction l as [|y l IH]; intros start Hin; [contradiction|].
  cbn [List.length seq combine].
  destruct Hin as [->|Hin].
  - exists start. now left.
  - destruct (IH (S start) Hin) as [k Hk]. exists k. now right.
Qed.

Lemma buildCache_cellText (rows : list SrcRow) (colIndex : nat) (v : string) :
  v <> "" ->
  ((exists row cell,
       In row rows /\ nth_error row colIndex = Some cell /\
       Str.trim (getTextContent (Some cell)) = v)
   <-> exists r, In r (buildCache rows) /\ cellText r colIndex = v).
Proof.
  intro Hv. unfold buildCache. split.
  - intros (row & cell & Hrow & Hcell & Ht).
    destruct (in_combine_seq rows row 0 Hrow) as [k Hk].
    exists (buildRow (k, row)). split.
    + apply in_map_iff. exists (k, row). split; [reflexivity | exact Hk].
    + unfold cellText, cellAt, buildRow. cbn [cells snd].
      rewrite nth_error_map, Hcell. exact Ht.
  - intros (r & Hr & Ht).
    apply in_map_iff in Hr. destruct Hr as ([k row] & <- & Hin).
    apply in_combine_r in Hin.
    unfold cellText, cellAt, buildRow in Ht. cbn [cells snd] in Ht.
    rewrite nth_error_map in Ht.
    destruct (nth_error row colIndex) as [cell|] eqn:Hcell.
    + exists row, cell. repeat split; assumption.
    + cbn in Ht. congruence.
Qed.

Lemma defaultCompare_positive (a b : string) :
  Float.positive (defaultCompare a b) = negb (lessThan a b) && lessThan b a.
Proof.
  unfold defaultCompare.
  destruct (lessThan a b); [reflexivity|].
  destruct (lessThan b a); reflexivity.
Qed.

(** X14.  The select of a value filter offers the empty value first, then, in
    increasing order of their code units and without repetition, exactly the
    texts that are not empty among the texts the Row Cache holds in the
    column: a value that can be selected is the text of some row, and the text
    of every row can be selected. *)
Theorem value_options_are_cache_texts (allRows : list SrcRow)
  (colIndex : nat) :
  exists values,
    valueOptions allRows colIndex = "" :: values /\
    StronglySorted (fun a b => lessThan a b = true) values /\
    forall v,
      In v values <->
      v <> "" /\
      exists r, In r (buildCache allRows) /\ cellText r colIndex = v.
Proof.
  exists (arraySort defaultCompare (uniqueVals allRows colIndex)).
  split; [reflexivity|].
  destruct (uniqueVals_spec allRows colIndex) as [Hnd Hin].
  pose proof (arraySort_perm defaultCompare (uniqueVals allRows colIndex))
    as Hperm.
  assert (Hsorted : StronglySorted (fun a b => lessThan b a = false)
                      (arraySort defaultCompare
                         (uniqueVals allRows colIndex))).
  { apply (arraySort_sorted _ (fun _ => True)).
    - intros x y z _ _ _. apply lessThan_trans_le.
    - intros x y _ _. rewrite defaultCompare_positive.
      destruct (lessThan x y) eqn:Hxy; cbn [negb andb]; [|tauto].
      intros _. now apply lessThan_asym.
    - intros x y _ _. rewrite defaultCompare_positive.
      destruct (lessThan x y) eqn:Hxy; cbn [negb andb];
        [discriminate | tauto].
    - apply Forall_forall. intros; exact I. }
  assert (Hnd' : NoDup (arraySort defaultCompare
                          (uniqueVals allRows colIndex))).
  { eapply Permutation_NoDup; [apply Permutation_sym; exact Hperm|].
    exact Hnd. }
  split.
  - revert Hsorted Hnd'.
    generalize (arraySort defaultCompare (uniqueVals allRows colIndex)).
    induction l as [|a l IH]; intros Hs Hn; [constructor|].
    apply StronglySorted_inv in Hs. destruct Hs as [Hs Hall].
    apply NoDup_cons_iff in Hn. destruct Hn as [Hfresh Hn].
    constructor; [apply IH; assumption|].
    rewrite Forall_forall in Hall |- *. intros b Hb.
    destruct (lessThan a b) eqn:Hab; [reflexivity|].
    exfalso. apply Hfresh.
    rewrite (lessThan_total a b Hab (Hall b Hb)). exact Hb.
  - intro v. split.
    + intro Hv. apply (Permutation_in _ Hperm) in Hv.
      apply Hin in Hv. destruct Hv as [Hne Hex].
      split; [exact Hne|]. now apply buildCache_cellText.
    + intros [Hne Hex].
      apply (Permutation_in _ (Permutation_sym Hperm)).
      apply Hin. split; [exact Hne|]. now apply buildCache_cellText.
Qed.

(** ** The type of a column, for its filter and for its sort *)

Section Inference.

Variable rt : Runtime.

Lemma sampleValue_built (rows : list SrcRow) (colIndex k : nat) :
  sampleValue (map buildRow (combine (seq k (List.length rows)) rows))
    colIndex
  = match find (fun row => match nth_error row colIndex with
                           | Some _ => true
                           | None => false
                           end) rows with
    | Some row =>
        option_map (fun cell => Str.trim (getTextContent (Some cell)))
          (nth_error row colIndex)
    | None => None
    end.
Proof.
  unfold sampleValue.
  revert k; induction rows as [|row rows IH]; intro k;
    cbn [List.length seq combine map find]; [reflexivity|].
  assert (Hcell : cellAt (buildRow (k, row)) colIndex
                  = option_map snapshotCell (nth_error row colIndex)).
  { unfold cellAt, buildRow. cbn [cells snd]. apply nth_error_map. }
  destruct (nth_error row colIndex) as [cell|] eqn:E; rewrite Hcell;
    cbn [option_map].
  - rewrite Hcell, E. reflexivity.
  - apply IH.
Qed.

(** X18.  When the first row that has a cell in the column has a text in it
    (not empty once trimmed), the type [initGlobalFiltersButtons] infers for
    the filter control of the column and the type [sortRows] infers on the
    cache as built are the same. *)
Theorem filter_and_sort_types_agree (allRows : list SrcRow)
  (colIndex : nat) (sample : string) :
  sampleValue (buildCache allRows) colIndex = Some sample ->
  sample <> "" ->
  filterDataType rt allRows colIndex
  = inferColumnType rt (buildCache allRows) colIndex.
Proof.
  intros Hsample Hne.
  unfold inferColumnType. rewrite Hsample.
  assert (Ht : Str.truthy sample = true)
    by (destruct sample; [contradiction | reflexivity]).
  rewrite Ht.
  unfold buildCache in Hsample. rewrite sampleValue_built in Hsample.
  unfold filterDataType.
  induction allRows as [|row rows IH]; cbn [find] in *; [discriminate|].
  destruct (nth_error row colIndex) as [cell|] eqn:Hcell;
    cbv beta iota in Hsample |- *.
  - rewrite ?Hcell in Hsample. cbn [option_map] in Hsample.
    assert (Hs : Str.trim (getTextContent (Some cell)) = sample)
      by congruence.
    rewrite Hs, Ht. cbv beta iota zeta. rewrite Hcell, Hs. reflexivity.
  - apply IH, Hsample.
Qed.

End Inference.

(** ** The calendar *)

(** The civil date of a day number is a date of the calendar, and
    [daysFromCivil] gives the day number back. *)
Lemma civil_roundtrip (n : Z) :
  1 <= snd (fst (JsDate.civilFromDays n)) <= 12 /\
  1 <= snd (JsDate.civilFromDays n) /\
  JsDate.daysFromCivil (fst (fst (JsDate.civilFromDays n)))
    (snd (fst (JsDate.civilFromDays n))) (snd (JsDate.civilFromDays n)) = n.
Proof.
  unfold JsDate.civilFromDays, JsDate.daysFromCivil. cbv zeta.
  set (z := n + 719468).
  set (era := z / 146097).
  set (doe := z - era * 146097).
  assert (Hdoe : 0 <= doe < 146097) by (unfold doe, era; lia).
  assert (Hz : n = era * 146097 + doe - 719468) by (unfold doe, z; lia).
  clearbody doe era. clear z.
  set (yoe := (doe - doe / 1460 + doe / 36524 - doe / 146096) / 365).
  assert (Hyoe : 0 <= yoe < 400) by (unfold yoe; lia).
  set (doy := doe - (365 * yoe + yoe / 4 - yoe / 100)).
  assert (Hdoy : 0 <= doy <= 365) by (unfold doy, yoe; lia).
  assert (Hdoe2 : doe = 365 * yoe + yoe / 4 - yoe / 100 + doy)
    by (unfold doy; lia).
  clearbody doy. clearbody yoe.
  set (mp := (5 * doy + 2) / 153).
  assert (Hmp : 0 <= mp <= 11) by (unfold mp; lia).
  assert (Hd : 0 <= doy - (153 * mp + 2) / 5 <= 30) by (unfold mp; lia).
  set (dd := doy - (153 * mp + 2) / 5) in *.
  cbn [fst snd].
  destruct (Z.ltb_spec mp 10) as [Hlt|Hge].
  - assert (Hm : (mp + 3 <=? 2) = false) by lia. rewrite Hm.
    assert (Hm2 : (2 <? mp + 3) = true) by lia. rewrite Hm2.
    split; [lia|]. split; [lia|].
    replace (mp + 3 - 3) with mp by lia.
    assert (He : (yoe + era * 400) / 400 = era) by lia.
    rewrite He. unfold dd. lia.
  - assert (Hm : (mp - 9 <=? 2) = true) by lia. rewrite Hm.
    assert (Hm2 : (2 <? mp - 9) = false) by lia. rewrite Hm2.
    split; [lia|]. split; [lia|].
    replace (mp - 9 + 9) with mp by lia.
    replace (yoe + era * 400 + 1 - 1) with (yoe + era * 400) by lia.
    assert (He : (yoe + era * 400) / 400 = era) by lia.
    rewrite He. unfold dd. lia.
Qed.

(** A day lies before the first day of the month that follows its own. *)
Lemma civil_upper (n : Z) :
  n < JsDate.daysFromCivil
        (if snd (fst (JsDate.civilFromDays n)) =? 12
         then fst (fst (JsDate.civilFromDays n)) + 1
         else fst (fst (JsDate.civilFromDays n)))
        (if snd (fst (JsDate.civilFromDays n)) =? 12 then 1
         else snd (fst (JsDate.civilFromDays n)) + 1) 1.
Proof.
  unfold JsDate.civilFromDays, JsDate.daysFromCivil. cbv zeta.
  set (z := n + 719468).
  set (era := z / 146097).
  set (doe := z - era * 146097).
  assert (Hdoe : 0 <= doe < 146097) by (unfold doe, era; lia).
  assert (Hz : n = era * 146097 + doe - 719468) by (unfold doe, z; lia).
  clearbody doe era. clear z.
  set (yoe := (doe - doe / 1460 + doe / 36524 - doe / 146096) / 365).
  assert (Hyoe : 0 <= yoe < 400) by (unfold yoe; lia).
  set (doy := doe - (365 * yoe + yoe / 4 - yoe / 100)).
  assert (Hdoy : 0 <= doy <= 365) by (unfold doy, yoe; lia).
  assert (Hleap : doe < 365 * (yoe + 1) + (yoe + 1) / 4 - (yoe + 1) / 100
                  \/ (yoe = 399 /\ doy <= 365))
    by (unfold doy, yoe in *; lia).
  assert (Hdoe2 : doe = 365 * yoe + yoe / 4 - yoe / 100 + doy)
    by (unfold doy; lia).
  clearbody doy. clearbody yoe.
  set (mp := (5 * doy + 2) / 153).
  assert (Hmp : 0 <= mp <= 11) by (unfold mp; lia).
  assert (Hd : 0 <= doy - (153 * mp + 2) / 5 <= 30) by (unfold mp; lia).
  assert (Hnext : mp < 11 -> doy < (153 * (mp + 1) + 2) / 5)
    by (unfold mp; lia).
  clearbody mp.
  cbn [fst snd].
  assert (Hk : mp < 9 \/ mp = 9 \/ mp = 10 \/ mp = 11) by lia.
  destruct Hk as [Hk | [-> | [-> | ->] ] ]; split_ifs; lia.
Qed.

Lemma monthStart_step (c : Z) :
  monthStart c + 28 <= monthStart (c + 1) <= monthStart c + 31.
Proof.
  unfold monthStart, JsDate.daysFromCivil. cbv zeta.
  assert (Hk : c mod 12 = 0 \/ c mod 12 = 1 \/ c mod 12 = 2 \/ c mod 12 = 3 \/
               c mod 12 = 4 \/ c mod 12 = 5 \/ c mod 12 = 6 \/ c mod 12 = 7 \/
               c mod 12 = 8 \/ c mod 12 = 9 \/ c mod 12 = 10 \/ c mod 12 = 11)
    by lia.
  assert (Hs : (c mod 12 < 11 /\ (c + 1) mod 12 = c mod 12 + 1 /\
                (c + 1) / 12 = c / 12)
               \/ (c mod 12 = 11 /\ (c + 1) mod 12 = 0 /\
                   (c + 1) / 12 = c / 12 + 1)) by lia.
  set (y := c / 12) in *. set (k := c mod 12) in *.
  clearbody y k.
  destruct Hs as [(Hlt & -> & ->)|(Heq & -> & ->)].
  - repeat (destruct Hk as [->|Hk]; [split_ifs; lia|]).
    lia.
  - rewrite Heq. split_ifs; lia.
Qed.

Lemma monthStart_lt (c c' : Z) : c < c' -> monthStart c < monthStart c'.
Proof.
  intro H. replace c' with (c + 1 + Z.of_nat (Z.to_nat (c' - c - 1))) by lia.
  induction (Z.to_nat (c' - c - 1)) as [|k IH].
  - rewrite Z.add_0_r. pose proof (monthStart_step c). lia.
  - pose proof (monthStart_step (c + 1 + Z.of_nat k)).
    replace (c + 1 + Z.of_nat (S k)) with (c + 1 + Z.of_nat k + 1) by lia.
    lia.
Qed.

Lemma monthOf_fields (n : Z) :
  monthOf n / 12 = JsDate.getFullYear n /\
  monthOf n mod 12 = JsDate.getMonth n /\
  0 <= JsDate.getMonth n <= 11.
Proof.
  unfold monthOf, JsDate.getFullYear, JsDate.getMonth.
  pose proof (civil_roundtrip n) as (Hm & _ & _). lia.
Qed.

(** The day [n] is day [getDate n] of the month [monthOf n]. *)
Lemma monthOf_start (n : Z) :
  n = monthStart (monthOf n) + JsDate.getDate n - 1 /\ 1 <= JsDate.getDate n.
Proof.
  destruct (monthOf_fields n) as (Hy & Hm & _).
  unfold monthStart. rewrite Hy, Hm.
  pose proof (civil_roundtrip n) as (_ & Hd & Hn).
  unfold JsDate.getFullYear, JsDate.getMonth, JsDate.getDate.
  split; [|exact Hd].
  rewrite <- Hn at 1.
  replace (snd (fst (JsDate.civilFromDays n)) - 1 + 1)
    with (snd (fst (JsDate.civilFromDays n))) by lia.
  unfold JsDate.daysFromCivil. lia.
Qed.

Lemma monthOf_end (n : Z) : n < monthStart (monthOf n + 1).
Proof.
  pose proof (civil_upper n) as Hu.
  pose proof (civil_roundtrip n) as (Hm & _ & _).
  unfold monthStart, monthOf, JsDate.getFullYear, JsDate.getMonth.
  set (y := fst (fst (JsDate.civilFromDays n))) in *.
  set (m := snd (fst (JsDate.civilFromDays n))) in *.
  destruct (Z.eqb_spec m 12) as [E|E].
  - replace ((12 * y + (m - 1) + 1) / 12) with (y + 1) by lia.
    replace ((12 * y + (m - 1) + 1) mod 12 + 1) with 1 by lia.
    exact Hu.
  - replace ((12 * y + (m - 1) + 1) / 12) with y by lia.
    replace ((12 * y + (m - 1) + 1) mod 12 + 1) with (m + 1) by lia.
    exact Hu.
Qed.

(** A day is on or after the first day of a month exactly when its month
    is that month or a later one. *)
Lemma monthStart_le (c n : Z) : monthStart c <= n <-> c <= monthOf n.
Proof.
  pose proof (monthOf_start n) as (Hs & Hd).
  pose proof (monthOf_end n) as He.
  split; intro H.
  - destruct (Z.le_gt_cases c (monthOf n)) as [Hle|Hgt]; [exact Hle|].
    destruct (Z.eq_dec c (monthOf n + 1)) as [->|Hne]; [lia|].
    pose proof (monthStart_lt (monthOf n + 1) c). lia.
  - destruct (Z.eq_dec c (monthOf n)) as [->|Hne]; [lia|].
    pose proof (monthStart_lt c (monthOf n)). lia.
Qed.

Lemma monthStart_gt (c n : Z) : n < monthStart c <-> monthOf n < c.
Proof. pose proof (monthStart_le c n). lia. Qed.

(** The day of a calendar date is a day of its month. *)
Lemma monthOf_unique (c n : Z) :
  monthStart c <= n < monthStart (c + 1) -> monthOf n = c.
Proof.
  intros [H1 H2]. apply monthStart_le in H1. apply monthStart_gt in H2. lia.
Qed.

Lemma monthStart_length (c : Z) :
  monthStart (c + 1) - monthStart c = daysInMonth (c / 12) (c mod 12 + 1).
Proof.
  unfold daysInMonth, isLeapYear, monthStart, JsDate.daysFromCivil. cbv zeta.
  assert (Hk : c mod 12 = 0 \/ c mod 12 = 1 \/ c mod 12 = 2 \/ c mod 12 = 3 \/
               c mod 12 = 4 \/ c mod 12 = 5 \/ c mod 12 = 6 \/ c mod 12 = 7 \/
               c mod 12 = 8 \/ c mod 12 = 9 \/ c mod 12 = 10 \/ c mod 12 = 11)
    by lia.
  assert (Hs : (c mod 12 < 11 /\ (c + 1) mod 12 = c mod 12 + 1 /\
                (c + 1) / 12 = c / 12)
               \/ (c mod 12 = 11 /\ (c + 1) mod 12 = 0 /\
                   (c + 1) / 12 = c / 12 + 1)) by lia.
  set (y := c / 12) in *. set (k := c mod 12) in *.
  clearbody y k.
  destruct Hs as [(Hlt & -> & ->)|(Heq & -> & ->)].
  - repeat (destruct Hk as [->|Hk]; [split_ifs; lia|]).
    lia.
  - rewrite Heq. split_ifs; lia.
Qed.

Lemma make_monthStart (year monthIndex day : Z) :
  ~ (0 <= year <= 99) ->
  JsDate.make year monthIndex day
  = if (- JsDate.maxDay <=? monthStart (12 * year + monthIndex) + day - 1)
       && (monthStart (12 * year + monthIndex) + day - 1 <=? JsDate.maxDay)
    then Some (monthStart (12 * year + monthIndex) + day - 1)
    else None.
Proof.
  intro Hy. unfold JsDate.make, monthStart.
  replace ((0 <=? year) && (year <=? 99)) with false by lia.
  replace ((12 * year + monthIndex) / 12) with (year + monthIndex / 12) by lia.
  replace ((12 * year + monthIndex) mod 12) with (monthIndex mod 12) by lia.
  reflexivity.
Qed.

Lemma make_today (now : Z) :
  ~ (0 <= JsDate.getFullYear now <= 99) ->
  - JsDate.maxDay <= now <= JsDate.maxDay ->
  JsDate.make (JsDate.getFullYear now) (JsDate.getMonth now)
    (JsDate.getDate now) = Some now.
Proof.
  intros Hy Hr. rewrite make_monthStart by exact Hy.
  fold (monthOf now).
  pose proof (monthOf_start now) as (Hs & _).
  rewrite <- Hs.
  replace ((- JsDate.maxDay <=? now) && (now <=? JsDate.maxDay)) with true
    by lia.
  reflexivity.
Qed.

Lemma year_length (y : Z) :
  monthStart (12 * y + 12) - monthStart (12 * y) <= 366.
Proof.
  unfold monthStart.
  replace ((12 * y + 12) / 12) with (y + 1) by lia.
  replace ((12 * y + 12) mod 12) with 0 by lia.
  replace ((12 * y) / 12) with y by lia.
  replace ((12 * y) mod 12) with 0 by lia.
  unfold JsDate.daysFromCivil. cbv zeta.
  split_ifs; lia.
Qed.

Lemma setDate_day (t k : Z) :
  - JsDate.maxDay <= t - JsDate.getDate t + k <= JsDate.maxDay ->
  JsDate.setDate t k = Some (t - JsDate.getDate t + k).
Proof.
  intro H. unfold JsDate.setDate.
  replace (t - JsDate.getDate t + 1 + k - 1)
    with (t - JsDate.getDate t + k) by lia.
  replace ((- JsDate.maxDay <=? t - JsDate.getDate t + k)
           && (t - JsDate.getDate t + k <=? JsDate.maxDay)) with true by lia.
  reflexivity.
Qed.

Section Buckets.

Variable rt : Runtime.

(** X15.  For a date string that matches [DD/MM/YYYY], the bucket [today]
    holds exactly today, and the bucket [week] exactly the seven days that
    start with the Sunday on or before today (today included); a string that
    parses to no valid date is in neither.  The year of today is not one of
    0..99, which [new Date(year, month, day)] reads as 1900 + year, and today
    is no first or last week of the time range. *)
Theorem week_bucket (now : Z) (dateStr : string) :
  Str.isDateFormat dateStr = true ->
  ~ (0 <= JsDate.getFullYear now <= 99) ->
  - JsDate.maxDay + 6 <= now <= JsDate.maxDay - 6 ->
  let sunday := now - JsDate.getDay now in
  JsDate.getDay sunday = 0 /\
  sunday <= now <= sunday + 6 /\
  isDateInRange rt now dateStr "today"
  = Normal (match parseDate rt dateStr with
            | Some d => d =? now
            | None => false
            end) /\
  isDateInRange rt now dateStr "week"
  = Normal (match parseDate rt dateStr with
            | Some d => (sunday <=? d) && (d <=? sunday + 6)
            | None => false
            end).
Proof.
  intros Hfmt Hy Hr sunday.
  assert (Hday : 0 <= JsDate.getDay now <= 6)
    by (unfold JsDate.getDay; lia).
  split; [unfold sunday, JsDate.getDay; lia|].
  split; [unfold sunday; lia|].
  unfold isDateInRange. rewrite Hfmt. cbn [negb].
  rewrite make_today by (try exact Hy; lia).
  split.
  - replace (String.eqb "today" "today") with true by reflexivity.
    destruct (parseDate rt dateStr) as [d|]; reflexivity.
  - replace (String.eqb "week" "today") with false by reflexivity.
    replace (String.eqb "week" "week") with true by reflexivity.
    cbn [bindDate].
    rewrite (setDate_day now) by (unfold sunday in *; lia).
    cbn [bindDate].
    rewrite setDate_day by (unfold sunday in *; lia).
    replace (now - JsDate.getDate now
             + (JsDate.getDate now - JsDate.getDay now))
      with sunday by (unfold sunday; lia).
    replace (sunday - JsDate.getDate sunday + (JsDate.getDate sunday + 6))
      with (sunday + 6) by lia.
    destruct (parseDate rt dateStr) as [d|]; reflexivity.
Qed.

(** X16.  For a date string that matches [DD/MM/YYYY] and under the same
    conditions on today, the bucket [month] holds exactly the dates of the
    month and year of today, the bucket [quarter] the dates of its year whose
    month is in the same quarter (months 0-2, 3-5, 6-8, 9-11), the bucket
    [year] the dates of its year. *)
Theorem calendar_buckets (now : Z) (dateStr : string) :
  Str.isDateFormat dateStr = true ->
  ~ (0 <= JsDate.getFullYear now <= 99) ->
  - JsDate.maxDay + 366 <= now <= JsDate.maxDay - 366 ->
  isDateInRange rt now dateStr "month"
  = Normal (match parseDate rt dateStr with
            | Some d =>
                (JsDate.getFullYear d =? JsDate.getFullYear now)
                && (JsDate.getMonth d =? JsDate.getMonth now)
            | None => false
            end) /\
  isDateInRange rt now dateStr "quarter"
  = Normal (match parseDate rt dateStr with
            | Some d =>
                (JsDate.getFullYear d =? JsDate.getFullYear now)
                && (JsDate.getMonth d / 3 =? JsDate.getMonth now / 3)
            | None => false
            end) /\
  isDateInRange rt now dateStr "year"
  = Normal (match parseDate rt dateStr with
            | Some d => JsDate.getFullYear d =? JsDate.getFullYear now
            | None => false
            end).
Proof.
  intros Hfmt Hy Hr.
  unfold isDateInRange. rewrite Hfmt. cbn [negb].
  rewrite make_today by (try exact Hy; lia).
  cbn [bindDate].
  pose proof (monthOf_fields now) as (Hfy & Hfm & Hm).
  assert (Hc : monthOf now = 12 * JsDate.getFullYear now + JsDate.getMonth now)
    by reflexivity.
  set (y := JsDate.getFullYear now) in *.
  set (m := JsDate.getMonth now) in *.
  (* the months of the year of today are days of the time range *)
  assert (Hnear : forall c, 12 * y <= c <= 12 * y + 12 ->
                            now - 365 <= monthStart c <= now + 366).
  { intros c Hcr.
    pose proof (year_length y) as Hlen.
    assert (H0 : monthStart (12 * y) <= now)
      by (apply monthStart_le; lia).
    assert (H1 : now < monthStart (12 * y + 12))
      by (apply monthStart_gt; lia).
    assert (monthStart (12 * y) <= monthStart c).
    { destruct (Z.eq_dec c (12 * y)) as [->|Hne]; [lia|].
      pose proof (monthStart_lt (12 * y) c). lia. }
    assert (monthStart c <= monthStart (12 * y + 12)).
    { destruct (Z.eq_dec c (12 * y + 12)) as [->|Hne]; [lia|].
      pose proof (monthStart_lt c (12 * y + 12)). lia. }
    lia. }
  assert (Hrange : forall c k, 12 * y <= c <= 12 * y + 12 -> -1 <= k <= 0 ->
             JsDate.make y (c - 12 * y) (k + 1) = Some (monthStart c + k)).
  { intros c k Hcr Hk. rewrite make_monthStart by exact Hy.
    replace (12 * y + (c - 12 * y)) with c by lia.
    replace (monthStart c + (k + 1) - 1) with (monthStart c + k) by lia.
    pose proof (Hnear c Hcr).
    replace ((- JsDate.maxDay <=? monthStart c + k)
             && (monthStart c + k <=? JsDate.maxDay)) with true by lia.
    reflexivity. }
  assert (Hin : forall d c1 c2,
             JsDate.ge (Some d) (Some (monthStart c1 + 0))
             && JsDate.le (Some d) (Some (monthStart c2 + -1))
             = (c1 <=? monthOf d) && (monthOf d <? c2)).
  { intros d c1 c2. unfold JsDate.ge, JsDate.le.
    pose proof (monthStart_le c1 d). pose proof (monthStart_gt c2 d).
    apply eq_true_iff_eq.
    rewrite !andb_true_iff, !Z.leb_le, Z.ltb_lt. lia. }
  destruct (parseDate rt dateStr) as [d|].
  2:{ repeat split; reflexivity. }
  pose proof (monthOf_fields d) as (Hdy & Hdm & Hdr).
  assert (Hcd : monthOf d = 12 * JsDate.getFullYear d + JsDate.getMonth d)
    by reflexivity.
  split; [|split].
  - replace (String.eqb "month" "today") with false by reflexivity.
    replace (String.eqb "month" "week") with false by reflexivity.
    replace (String.eqb "month" "month") with true by reflexivity.
    replace (JsDate.make y m 1) with (Some (monthStart (12 * y + m) + 0))
      by (rewrite <- Hrange by lia; f_equal; lia).
    replace (JsDate.make y (m + 1) 0)
      with (Some (monthStart (12 * y + m + 1) + -1))
      by (rewrite <- Hrange by lia; f_equal; lia).
    rewrite Hin. f_equal. apply eq_true_iff_eq.
    rewrite !andb_true_iff, !Z.leb_le, Z.ltb_lt, !Z.eqb_eq. lia.
  - replace (String.eqb "quarter" "today") with false by reflexivity.
    replace (String.eqb "quarter" "week") with false by reflexivity.
    replace (String.eqb "quarter" "month") with false by reflexivity.
    replace (String.eqb "quarter" "quarter") with true by reflexivity.
    replace (JsDate.make y (m / 3 * 3) 1)
      with (Some (monthStart (12 * y + m / 3 * 3) + 0))
      by (rewrite <- Hrange by lia; f_equal; lia).
    replace (JsDate.make y ((m / 3 + 1) * 3) 0)
      with (Some (monthStart (12 * y + (m / 3 + 1) * 3) + -1))
      by (rewrite <- Hrange by lia; f_equal; lia).
    rewrite Hin. f_equal. apply eq_true_iff_eq.
    rewrite !andb_true_iff, !Z.leb_le, Z.ltb_lt, !Z.eqb_eq. lia.
  - replace (String.eqb "year" "today") with false by reflexivity.
    replace (String.eqb "year" "week") with false by reflexivity.
    replace (String.eqb "year" "month") with false by reflexivity.
    replace (String.eqb "year" "quarter") with false by reflexivity.
    replace (String.eqb "year" "year") with true by reflexivity.
    replace (JsDate.make y 0 1) with (Some (monthStart (12 * y) + 0))
      by (rewrite <- Hrange by lia; f_equal; lia).
    replace (JsDate.make y 11 31) with (Some (monthStart (12 * y + 12) + -1)).
    2:{ rewrite make_monthStart by exact Hy.
        pose proof (monthStart_length (12 * y + 11)) as Hdec.
        replace ((12 * y + 11) / 12) with y in Hdec by lia.
        replace ((12 * y + 11) mod 12 + 1) with 12 in Hdec by lia.
        change (daysInMonth y 12) with 31 in Hdec.
        replace (12 * y + 11 + 1) with (12 * y + 12) in Hdec by lia.
        replace (monthStart (12 * y + 11) + 31 - 1)
          with (monthStart (12 * y + 12) + -1) by lia.
        pose proof (Hnear (12 * y + 12) ltac:(lia)).
        replace ((- JsDate.maxDay <=? monthStart (12 * y + 12) + -1)
                 && (monthStart (12 * y + 12) + -1 <=? JsDate.maxDay))
          with true by lia.
        reflexivity. }
    rewrite Hin. f_equal. apply eq_true_iff_eq.
    rewrite !andb_true_iff, !Z.leb_le, Z.ltb_lt, !Z.eqb_eq. lia.
Qed.

End Buckets.

Lemma isDigit_value (c : ascii) :
  Str.isDigit c = true ->
  0 <= Z.of_nat (nat_of_ascii c) - 48 <= 9 /\ Ascii.eqb c "/" = false.
Proof.
  unfold Str.isDigit. intro H. apply andb_true_iff in H.
  destruct H as [H1 H2]. apply Nat.leb_le in H1, H2.
  split; [lia|].
  destruct (Ascii.eqb_spec c "/") as [->|]; [|reflexivity].
  cbn in H1. lia.
Qed.

Lemma truncate_Z (z : Z) : Float.truncate (inject_Z z) = z.
Proof.
  unfold Float.truncate.
  destruct (Qle_bool 0 (inject_Z z)); [apply Qfloor_Z | apply Qceiling_Z].
Qed.

Lemma truncate_pred (z : Z) : Float.truncate (inject_Z z - inject_Z 1) = z - 1.
Proof.
  assert (H : (inject_Z z - inject_Z 1 == inject_Z (z - 1))%Q).
  { unfold Qeq, Qminus, Qplus, Qopp, inject_Z. cbn. lia. }
  unfold Float.truncate.
  assert (Hb : Qle_bool 0 (inject_Z z - inject_Z 1)
               = Qle_bool 0 (inject_Z (z - 1))).
  { apply eq_true_iff_eq. rewrite !Qle_bool_iff. now rewrite H. }
  rewrite Hb.
  destruct (Qle_bool 0 (inject_Z (z - 1))).
  - rewrite (Qfloor_comp _ _ H). apply Qfloor_Z.
  - rewrite (Qceiling_comp _ _ H). apply Qceiling_Z.
Qed.

(** The pieces of a string that matches [DD/MM/YYYY]. *)
Lemma isDateFormat_pieces (dateStr : string) :
  Str.isDateFormat dateStr = true ->
  exists dd mm yyyy,
    Str.splitSlash dateStr = [dd; mm; yyyy] /\
    allDigits dd = true /\ allDigits mm = true /\ allDigits yyyy = true /\
    dd = substring 0 2 dateStr /\ mm = substring 3 2 dateStr /\
    yyyy = substring 6 4 dateStr /\
    0 <= digitsValue dd <= 99 /\ 0 <= digitsValue mm <= 99 /\
    0 <= digitsValue yyyy <= 9999.
Proof.
  unfold Str.isDateFormat.
  destruct dateStr
    as [|d1 [|d2 [|s1 [|m1 [|m2 [|s2 [|y1 [|y2 [|y3 [|y4 [|x r]]]]]]]]]]];
    cbn [list_ascii_of_string]; try discriminate.
  intro H. do 9 (apply andb_true_iff in H; destruct H as [H ?]).
  repeat match goal with
         | H : Ascii.eqb _ _ = true |- _ => apply Ascii.eqb_eq in H; subst
         end.
  repeat match goal with
         | H : Str.isDigit ?c = true |- _ =>
             let V := fresh "V" in let E := fresh "E" in
             pose proof (isDigit_value c H) as [V E]; revert H
         end.
  intros.
  exists (String d1 (String d2 "")), (String m1 (String m2 "")),
    (String y1 (String y2 (String y3 (String y4 "")))).
  split.
  { cbn [Str.splitSlash].
    repeat match goal with
           | H : Ascii.eqb _ "/" = false |- _ => rewrite H; clear H
           end.
    replace (Ascii.eqb "/" "/") with true by reflexivity.
    reflexivity. }
  unfold allDigits, digitsValue.
  cbn [Str.truthy list_ascii_of_string forallb fold_left andb substring].
  repeat match goal with
         | H : Str.isDigit _ = true |- _ => rewrite H; clear H
         end.
  cbn [andb]. repeat split; try reflexivity; lia.
Qed.

Lemma monthStart_bounds (c : Z) :
  0 <= c <= 12 * 11000 -> - 720000 <= monthStart c <= 3300000.
Proof.
  intro H. unfold monthStart, JsDate.daysFromCivil. cbv zeta.
  assert (0 <= c mod 12 < 12) by lia.
  assert (0 <= c / 12 <= 11000) by lia.
  set (y := c / 12) in *. set (k := c mod 12) in *. clearbody y k.
  split_ifs; lia.
Qed.

Section ParseDate.

Variable rt : Runtime.
Hypothesis reads : readsDigits rt.

(** X17.  [parseDate] never rejects a string that matches [DD/MM/YYYY],
    whatever its digits: the date is day [DD] counted from the first day of
    month [MM] counted from January of the year, a year below 100 being read
    as 1900 plus the year.  It is the date written when that is a date of the
    calendar; a day past the end of the month rolls over into the month that
    follows. *)
Theorem parseDate_rolls_over (dateStr : string) :
  Str.isDateFormat dateStr = true ->
  let dd := digitsValue (substring 0 2 dateStr) in
  let mm := digitsValue (substring 3 2 dateStr) in
  let yyyy := digitsValue (substring 6 4 dateStr) in
  let year := if yyyy <=? 99 then 1900 + yyyy else yyyy in
  exists n,
    parseDate rt dateStr = Some n /\
    n = monthStart (12 * year + (mm - 1)) + dd - 1 /\
    (1 <= mm <= 12 -> 1 <= dd <= daysInMonth year mm ->
     JsDate.getFullYear n = year /\ JsDate.getMonth n = mm - 1 /\
     JsDate.getDate n = dd) /\
    (1 <= mm <= 12 -> daysInMonth year mm < dd <= 31 ->
     monthOf n = 12 * year + mm /\
     JsDate.getDate n = dd - daysInMonth year mm).
Proof.
  intros Hfmt dd mm yyyy year.
  destruct (isDateFormat_pieces dateStr Hfmt)
    as (sd & sm & sy & Hsplit & Hd & Hm & Hy & -> & -> & -> & Vd & Vm & Vy).
  fold dd in Vd. fold mm in Vm. fold yyyy in Vy.
  assert (Hyear : 100 <= year <= 9999)
    by (unfold year; destruct (Z.leb_spec yyyy 99); lia).
  set (n := monthStart (12 * year + (mm - 1)) + dd - 1).
  pose proof (monthStart_bounds (12 * year + (mm - 1)) ltac:(lia)) as Hb.
  assert (Hparse : parseDate rt dateStr = Some n).
  { unfold parseDate. rewrite Hsplit. cbn [map nth].
    rewrite (reads _ Hd), (reads _ Hm), (reads _ Hy).
    fold dd. fold mm. fold yyyy.
    unfold Float.ofZ, Float.sub, JsDate.ofNumbers.
    rewrite !truncate_Z, truncate_pred.
    unfold JsDate.make.
    replace (if (0 <=? yyyy) && (yyyy <=? 99) then 1900 + yyyy else yyyy)
      with year
      by (unfold year; destruct (Z.leb_spec yyyy 99);
          destruct (Z.leb_spec 0 yyyy); cbn [andb]; lia).
    replace (JsDate.daysFromCivil (year + (mm - 1) / 12)
               ((mm - 1) mod 12 + 1) 1)
      with (monthStart (12 * year + (mm - 1))).
    2:{ unfold monthStart.
        replace ((12 * year + (mm - 1)) / 12) with (year + (mm - 1) / 12)
          by lia.
        replace ((12 * year + (mm - 1)) mod 12) with ((mm - 1) mod 12) by lia.
        reflexivity. }
    fold n. unfold JsDate.maxDay.
    replace ((- (100000000) <=? n) && (n <=? 100000000)) with true
      by (unfold n; lia).
    reflexivity. }
  exists n. split; [exact Hparse|]. split; [reflexivity|].
  pose proof (monthStart_length (12 * year + (mm - 1))) as Hlen.
  split.
  - intros Hmm Hdd.
    replace ((12 * year + (mm - 1)) / 12) with year in Hlen by lia.
    replace ((12 * year + (mm - 1)) mod 12 + 1) with mm in Hlen by lia.
    assert (Hmonth : monthOf n = 12 * year + (mm - 1))
      by (apply monthOf_unique; unfold n; lia).
    pose proof (monthOf_fields n) as (Hfy & Hfm & _).
    pose proof (monthOf_start n) as (Hs & _).
    rewrite Hmonth in *. unfold n in Hs at 1.
    repeat split; lia.
  - intros Hmm Hdd.
    replace ((12 * year + (mm - 1)) / 12) with year in Hlen by lia.
    replace ((12 * year + (mm - 1)) mod 12 + 1) with mm in Hlen by lia.
    pose proof (monthStart_step (12 * year + (mm - 1) + 1)) as Hnext.
    assert (Hdim : 28 <= daysInMonth year mm).
    { pose proof (monthStart_step (12 * year + (mm - 1))). lia. }
    assert (Hmonth : monthOf n = 12 * year + (mm - 1) + 1)
      by (apply monthOf_unique; unfold n; lia).
    pose proof (monthOf_start n) as (Hs & _).
    rewrite Hmonth in *. unfold n in Hs at 1.
    split; lia.
Qed.

End ParseDate.

(** The reference runtime reads digits. *)
Lemma readRun_digits (s : string) (acc : Z) (count : nat) :
  forallb Str.isDigit (list_ascii_of_string s) = true ->
  Ref.readRun acc count s
  = (fold_left (fun a c => 10 * a + (Z.of_nat (nat_of_ascii c) - 48))
       (list_ascii_of_string s) acc,
     (count + String.length s)%nat, "").
Proof.
  revert acc count; induction s as [|c s IH]; intros acc count H;
    cbn [list_ascii_of_string forallb fold_left Ref.readRun String.length]
      in *.
  - now rewrite Nat.add_0_r.
  - apply andb_true_iff in H. destruct H as [Hc Hs]. rewrite Hc.
    rewrite IH by exact Hs.
    replace (acc * 10) with (10 * acc) by lia.
    now rewrite Nat.add_succ_r.
Qed.

Lemma trimEnd_digits (s : string) :
  forallb Str.isDigit (list_ascii_of_string s) = true ->
  Str.trimEnd s = s.
Proof.
  induction s as [|c s IH]; cbn [list_ascii_of_string forallb Str.trimEnd
                                  Str.allSpace]; [reflexivity|].
  intro H. apply andb_true_iff in H. destruct H as [Hc Hs].
  assert (Hsp : Str.isSpace c = false).
  { unfold Str.isDigit in Hc. unfold Str.isSpace.
    apply andb_true_iff in Hc. destruct Hc as [H1 H2].
    apply Nat.leb_le in H1, H2.
    destruct (Nat.leb_spec 9 (nat_of_ascii c));
      destruct (Nat.leb_spec (nat_of_ascii c) 13);
      destruct (Nat.eqb_spec (nat_of_ascii c) 32); cbn; lia. }
  rewrite Hsp. cbn [andb]. now rewrite IH.
Qed.

Lemma ref_reads_digits : readsDigits Ref.runtime.
Proof.
  intros s H. unfold allDigits in H. apply andb_true_iff in H.
  destruct H as [Hne Hd].
  cbn [toNumber Ref.runtime]. unfold Ref.toNumber, Str.trim.
  destruct s as [|c s]; [discriminate|].
  assert (Hc : Str.isDigit c = true).
  { cbn [list_ascii_of_string forallb] in Hd.
    now apply andb_true_iff in Hd. }
  assert (Hsp : Str.isSpace c = false).
  { unfold Str.isDigit in Hc. unfold Str.isSpace.
    apply andb_true_iff in Hc. destruct Hc as [H1 H2].
    apply Nat.leb_le in H1, H2.
    destruct (Nat.leb_spec 9 (nat_of_ascii c));
      destruct (Nat.leb_spec (nat_of_ascii c) 13);
      destruct (Nat.eqb_spec (nat_of_ascii c) 32); cbn; lia. }
  cbn [Str.trimStart]. rewrite Hsp.
  rewrite (trimEnd_digits _ Hd).
  assert (Hsigned : Ref.readSigned (String c s) = Ref.readDecimal (String c s)).
  { clear - Hc.
    destruct c as [[] [] [] [] [] [] [] []]; try discriminate Hc;
      reflexivity. }
  rewrite Hsigned. unfold Ref.readDecimal.
  rewrite (readRun_digits _ 0 0 Hd). cbn [Nat.add String.length Nat.eqb].
  reflexivity.
Qed.


(** * Concrete runs *)

(** C1 on the table of the tests, after a click on the header of column 3
    and a direct descending sort on column 1. *)
Lemma cache_integrity_witness :
  table Demo.container = Some Demo.statusTable /\
  newLiteTableManager Ref.runtime Demo.today true (Some Demo.container)
  = Normal Demo.initial /\
  Reachable Ref.runtime Demo.initial Demo.sorted /\
  Permutation (rowsCache Demo.sorted) (buildCache Demo.rows) /\
  Permutation (map originalIndex (rowsCache Demo.sorted)) (seq 0 5).
Proof.
  assert (Ht : table Demo.container = Some Demo.statusTable) by reflexivity.
  assert (Hnew : newLiteTableManager Ref.runtime Demo.today true
                   (Some Demo.container) = Normal Demo.initial)
    by (vm_compute; reflexivity).
  assert (Hreach : Reachable Ref.runtime Demo.initial Demo.sorted)
    by (unfold Demo.sorted; do 2 apply reach_step; apply reach_init).
  split; [exact Ht|]. split; [exact Hnew|]. split; [exact Hreach|].
  exact (cache_integrity Ref.runtime Demo.today true Demo.container
           Demo.statusTable Demo.initial Demo.sorted Ht Hnew Hreach).
Defined.

(** C2 on the table of the tests: three clicks on the header of column 1,
    the manager being sorted on column 2. *)
Lemma sort_cycle_witness :
  table Demo.container = Some Demo.statusTable /\
  newLiteTableManager Ref.runtime Demo.today true (Some Demo.container)
  = Normal Demo.initial /\
  Reachable Ref.runtime Demo.initial Demo.initial /\
  column (currentSort Demo.initial) <> Some 1%nat /\
  rowsCache
    (snd (handleSort Ref.runtime Demo.today 1
            (snd (handleSort Ref.runtime Demo.today 1
                    (snd (handleSort Ref.runtime Demo.today 1
                            Demo.initial))))))
  = buildCache Demo.rows.
Proof.
  assert (Ht : table Demo.container = Some Demo.statusTable) by reflexivity.
  assert (Hnew : newLiteTableManager Ref.runtime Demo.today true
                   (Some Demo.container) = Normal Demo.initial)
    by (vm_compute; reflexivity).
  assert (Hreach : Reachable Ref.runtime Demo.initial Demo.initial)
    by apply reach_init.
  assert (Hcol : column (currentSort Demo.initial) <> Some 1%nat)
    by (simpl; discriminate).
  split; [exact Ht|]. split; [exact Hnew|]. split; [exact Hreach|].
  split; [exact Hcol|].
  exact (proj1 (proj2 (proj2 (proj2
           (sort_cycle_restores_order Ref.runtime Demo.today Demo.today
              Demo.today Demo.today true Demo.container Demo.statusTable
              Demo.initial Demo.initial 1 Ht Hnew Hreach Hcol))))).
Defined.

(** C3 on the table of the tests: the cycle of the constructor shows five
    rows, and a cycle with a page size of 2 follows. *)
Lemma pool_bound_witness :
  newLiteTableManager Ref.runtime Demo.today true (Some Demo.container)
  = Normal Demo.initial /\
  (List.length (tbody Demo.initial) <= 5)%nat /\
  Cycles Ref.runtime 5 Demo.initial Demo.paged /\
  (allocations Demo.paged <= 5)%nat /\
  allocations Demo.paged
  = (List.length (rowPool Demo.paged) + List.length (tbody Demo.paged))%nat.
Proof.
  assert (Hnew : newLiteTableManager Ref.runtime Demo.today true
                   (Some Demo.container) = Normal Demo.initial)
    by (vm_compute; reflexivity).
  assert (Hshown : (List.length (tbody Demo.initial) <= 5)%nat)
    by (simpl; lia).
  assert (Hcycles : Cycles Ref.runtime 5 Demo.initial Demo.paged).
  { apply (cycles_render Ref.runtime 5 Demo.initial Demo.initial
             Demo.narrowed Demo.paged Demo.today).
    - apply cycles_start.
    - reflexivity.
    - vm_compute; reflexivity.
    - vm_compute. lia. }
  split; [exact Hnew|]. split; [exact Hshown|]. split; [exact Hcycles|].
  exact (pool_bound Ref.runtime 5 Demo.today true (Some Demo.container)
           Demo.initial Demo.paged Hnew Hshown Hcycles).
Defined.

(** C4 on the table of the tests: page 3 of pages of 2 rows is the last
    page, of one row. *)
Lemma pagination_witness :
  displayLimit Demo.thirdPage = Num 2 /\ 0 < 2 /\
  currentPageIndex Demo.thirdPage = Num 3 /\ 1 <= 3 /\
  tableInfo Demo.thirdPage <> None /\
  applyFilters Ref.runtime Demo.today (sortPhase Ref.runtime Demo.thirdPage)
  = Normal (rowsCache Demo.initial) /\
  exists s',
    updateTable Ref.runtime Demo.today Demo.thirdPage = (None, s') /\
    filteredRows s' = rowsCache Demo.initial /\
    currentPageIndex s' = Num 3 /\
    map dataOriginalIndex (tbody s')
    = map originalIndex (slice 4 5 (rowsCache Demo.initial)).
Proof.
  assert (Hlimit : displayLimit Demo.thirdPage = Num 2) by reflexivity.
  assert (Hpage : currentPageIndex Demo.thirdPage = Num 3) by reflexivity.
  assert (Hinfo : tableInfo Demo.thirdPage <> None) by (simpl; discriminate).
  assert (Hfilter : applyFilters Ref.runtime Demo.today
                      (sortPhase Ref.runtime Demo.thirdPage)
                    = Normal (rowsCache Demo.initial))
    by (vm_compute; reflexivity).
  assert (Hp : 0 < 2) by lia. assert (Hc : 1 <= 3) by lia.
  split; [exact Hlimit|]. split; [exact Hp|]. split; [exact Hpage|].
  split; [exact Hc|]. split; [exact Hinfo|]. split; [exact Hfilter|].
  exact (pagination_clamp_and_slice Ref.runtime Demo.today Demo.thirdPage
           2 3 (rowsCache Demo.initial) Hlimit Hp Hpage Hc Hinfo Hfilter).
Defined.

(** C5, amended, on a column with a date and an empty cell, ascending. *)
Lemma empty_keys_witness :
  nth_error (sortCache Ref.runtime 0 Asc Demo.gapCache) 1
  = Some Demo.gapEmpty /\
  nth_error (sortCache Ref.runtime 0 Asc Demo.gapCache) 0
  = Some Demo.gapDate /\
  cellText Demo.gapEmpty 0 = "" /\
  cellText Demo.gapDate 0 <> "" /\
  (0 < 1)%nat.
Proof.
  assert (Hi : nth_error (sortCache Ref.runtime 0 Asc Demo.gapCache) 1
               = Some Demo.gapEmpty) by reflexivity.
  assert (Hj : nth_error (sortCache Ref.runtime 0 Asc Demo.gapCache) 0
               = Some Demo.gapDate) by reflexivity.
  assert (Hx : cellText Demo.gapEmpty 0 = "") by reflexivity.
  assert (Hy : cellText Demo.gapDate 0 <> "") by (simpl; discriminate).
  split; [exact Hi|]. split; [exact Hj|]. split; [exact Hx|].
  split; [exact Hy|].
  exact (empty_keys_follow_direction Ref.runtime Demo.gapCache 0 Asc 1 0
           Demo.gapEmpty Demo.gapDate Hi Hj Hx Hy).
Defined.

(** C5 as stated fails in descending direction: on the same column,
    [sortRows(0, 'desc')] puts the row with the empty key first, before the
    row with a date.  (The comparator returns on its empty-key branches,
    and the sample is a date: no field of the runtime is consulted.) *)
Lemma empty_key_first_when_descending :
  map (fun r => cellText r 0) (sortCache Ref.runtime 0 Desc Demo.gapCache)
  = [""; "01/02/2025"] /\
  nth_error (sortCache Ref.runtime 0 Desc Demo.gapCache) 0
  = Some Demo.gapEmpty /\
  nth_error (sortCache Ref.runtime 0 Desc Demo.gapCache) 1
  = Some Demo.gapDate /\
  cellText Demo.gapEmpty 0 = "" /\
  cellText Demo.gapDate 0 <> "" /\
  ~ (1 < 0)%nat.
Proof.
  repeat split; try reflexivity.
  - simpl. discriminate.
  - lia.
Qed.

(** C6 on a column of dates under an empty first cell: the sample is the
    empty text of the first row, and the column is sorted as text, for every
    runtime. *)
Theorem blank_first_cell_sorts_as_text (rt : Runtime) :
  sampleValue Demo.blankFirstCache 0 = Some "" /\
  inferColumnType rt Demo.blankFirstCache 0 = TypeText /\
  map (fun r => cellText r 0) Demo.blankFirstCache
  = [""; "02/01/2025"; "01/02/2025"].
Proof. repeat split. Qed.

(** C9 on the table of the tests: with the display limit set to [all] the
    update cycle counts zero pages, computes [NaN] as the lower index and
    displays no row of the five it filtered. *)
Theorem unbounded_limit_shows_nothing :
  displayLimit Demo.unbounded = PInf /\
  List.length (filteredRows Demo.unbounded) = 5%nat /\
  totalPagesOf Demo.unbounded = Num 0 /\
  currentPageIndex Demo.unbounded = Num 1 /\
  minIndexOf Demo.unbounded = NaN /\
  maxIndexOf Demo.unbounded = Num 5 /\
  tbody Demo.unbounded = [] /\
  tableInfo Demo.unbounded = Some (Showing NaN 5 5).
Proof. vm_compute. repeat split. Qed.

(** C7 on the table of the tests, for its first row and the column of the
    status, whose text is no date: under a bucketed-date filter the update
    cycle throws, under a date-range filter the row is left out. *)
Lemma filter_error_witness :
  (In Demo.firstRow (rowsCache Demo.bucketOnStatus) /\
   Str.isDateFormat (cellText Demo.firstRow 1) = false /\
   currentDateFilters Demo.bucketOnStatus = [] ++ (1%nat, "week") :: [] /\
   "week" <> "" /\
   dateFiltersPass Ref.runtime Demo.today Demo.firstRow [] = Normal true /\
   fst (updateTable Ref.runtime Demo.today Demo.bucketOnStatus)
   = Some (Error dateFormatMessage)) /\
  (In Demo.firstRow (rowsCache Demo.rangeOnStatus) /\
   In (1%nat, {| from := Some "2025-04-01"; to := None |})
     (currentDateRangeFilters Demo.rangeOnStatus) /\
   firstActive (currentDateFilters Demo.rangeOnStatus) = None /\
   exists kept,
     applyFilters Ref.runtime Demo.today Demo.rangeOnStatus = Normal kept /\
     ~ In Demo.firstRow kept).
Proof.
  assert (Hin : In Demo.firstRow (rowsCache Demo.initial))
    by (simpl; repeat (first [left; reflexivity | right])).
  assert (Hbad : Str.isDateFormat (cellText Demo.firstRow 1) = false)
    by reflexivity.
  assert (Hentries : currentDateFilters Demo.bucketOnStatus
                     = [] ++ (1%nat, "week") :: []) by reflexivity.
  assert (Hactive : "week" <> "") by discriminate.
  assert (Hbefore : dateFiltersPass Ref.runtime Demo.today Demo.firstRow []
                    = Normal true) by reflexivity.
  assert (Hrange : In (1%nat, {| from := Some "2025-04-01"; to := None |})
                     (currentDateRangeFilters Demo.rangeOnStatus))
    by (left; reflexivity).
  assert (Hnone : firstActive (currentDateFilters Demo.rangeOnStatus) = None)
    by reflexivity.
  split.
  - split; [exact Hin|]. split; [exact Hbad|]. split; [exact Hentries|].
    split; [exact Hactive|]. split; [exact Hbefore|].
    exact (proj2 (proj2
             (proj1 (filter_error_asymmetry Ref.runtime Demo.today
                       Demo.bucketOnStatus Demo.firstRow 1 Hin Hbad)
                [] [] "week" Hentries Hactive Hbefore))).
  - split; [exact Hin|]. split; [exact Hrange|]. split; [exact Hnone|].
    exact (proj2 (proj2
             (proj2 (filter_error_asymmetry Ref.runtime Demo.today
                       Demo.rangeOnStatus Demo.firstRow 1 Hin Hbad)
                _ Hrange eq_refl)) Hnone).
Defined.

(** C8 on the table of the tests, under the categorical filter
    [Status = Active]: the Filtered View is the filter of the cache. *)
Lemma filtered_view_witness :
  applyFilters Ref.runtime Demo.today Demo.activeOnly
  = Normal
      (filter (passesEvery Ref.runtime Demo.today Demo.activeOnly)
         (rowsCache Demo.activeOnly)) /\
  map (fun r => cellText r 0)
    (filter (passesEvery Ref.runtime Demo.today Demo.activeOnly)
       (rowsCache Demo.activeOnly))
  = ["1"; "4"].
Proof.
  split.
  - apply (proj1 (proj2 (filtered_view Ref.runtime Demo.today
                           Demo.activeOnly))).
    intros r colIndex filterVal _ Hin. destruct Hin.
  - reflexivity.
Defined.



(** ** The tests of the repository, run on the model *)

(** [tests/date-utils]: [parseDate('15/04/2025')]. *)
Example parseDate_fields :
  option_map
    (fun d => (JsDate.getFullYear d, JsDate.getMonth d, JsDate.getDate d))
    (parseDate Ref.runtime "15/04/2025")
  = Some (2025, 3, 15).
Proof. reflexivity. Qed.

(** [isDateInRange] throws on a malformed date, and accepts any date under
    a range it does not know. *)
Example isDateInRange_invalid_format :
  isDateInRange Ref.runtime Demo.today "2025-04-15" "today"
  = Throw (Error dateFormatMessage) /\
  isDateInRange Ref.runtime Demo.today "15-04-2025" "today"
  = Throw (Error dateFormatMessage) /\
  isDateInRange Ref.runtime Demo.today "02/11/2025" "invalid-range"
  = Normal true.
Proof. repeat split. Qed.

(** The week of Sunday 2 November 2025: both ends pass, the days around it
    fail. *)
Example isDateInRange_week_bounds :
  map (fun d => isDateInRange Ref.runtime Demo.today d "week")
    ["01/11/2025"; "02/11/2025"; "08/11/2025"; "09/11/2025"]
  = [Normal false; Normal true; Normal true; Normal false].
Proof. reflexivity. Qed.

Example isDateInRange_month_quarter_year :
  map (fun d => isDateInRange Ref.runtime Demo.today d "month")
    ["31/10/2025"; "01/11/2025"; "30/11/2025"; "01/12/2025"]
  = [Normal false; Normal true; Normal true; Normal false] /\
  map (fun d => isDateInRange Ref.runtime Demo.today d "quarter")
    ["30/09/2025"; "01/10/2025"; "31/12/2025"; "01/01/2026"]
  = [Normal false; Normal true; Normal true; Normal false] /\
  map (fun d => isDateInRange Ref.runtime Demo.today d "year")
    ["31/12/2024"; "01/01/2025"; "31/12/2025"; "01/01/2026"]
  = [Normal false; Normal true; Normal true; Normal false].
Proof. repeat split. Qed.

(** [tests/sorting-filtering]: the sorts by date and by amount. *)
Example sort_by_date :
  map (fun r => cellText r 2)
    (rowsCache (sortRows Ref.runtime 2 Asc Demo.initial))
  = ["10/02/2025"; "20/03/2025"; "15/04/2025"; "30/04/2025"; "05/05/2025"] /\
  map (fun r => cellText r 2)
    (rowsCache (sortRows Ref.runtime 2 Desc
                  (sortRows Ref.runtime 2 Asc Demo.initial)))
  = ["05/05/2025"; "30/04/2025"; "15/04/2025"; "20/03/2025"; "10/02/2025"].
Proof. split; reflexivity. Qed.

Example sort_by_amount :
  map (fun r => cellText r 3)
    (rowsCache (sortRows Ref.runtime 3 Asc Demo.initial))
  = ["75,5"; "100"; "125"; "250"; "300"].
Proof. reflexivity. Qed.

(** [tests/sorting-filtering]: the filters by value, by range, combined,
    and reset. *)
Example filter_by_value :
  option_map (map (fun r => cellText r 1))
    (match applyFilters Ref.runtime Demo.today Demo.activeOnly with
     | Normal kept => Some kept
     | Throw _ => None
     end)
  = Some ["Active"; "Active"].
Proof. reflexivity. Qed.

Example filter_by_range :
  option_map (map (fun r => cellText r 2))
    (match applyFilters Ref.runtime Demo.today
             (setCurrentDateRangeFilters
                [(2%nat, {| from := Some "2025-04-01";
                            to := Some "2025-04-30" |})] Demo.initial) with
     | Normal kept => Some kept
     | Throw _ => None
     end)
  = Some ["30/04/2025"; "15/04/2025"].
Proof. reflexivity. Qed.

Example filter_combined :
  option_map (map (fun r => (cellText r 1, cellText r 2)))
    (match applyFilters Ref.runtime Demo.today
             (setCurrentDateRangeFilters
                [(2%nat, {| from := Some "2025-04-01";
                            to := Some "2025-05-31" |})] Demo.activeOnly) with
     | Normal kept => Some kept
     | Throw _ => None
     end)
  = Some [("Active", "15/04/2025")].
Proof. reflexivity. Qed.

Example filter_reset :
  option_map (@List.length RowData)
    (match applyFilters Ref.runtime Demo.today
             (setCurrentValueFilters
                (setKey 1 "" (currentValueFilters Demo.activeOnly))
                Demo.activeOnly) with
     | Normal kept => Some kept
     | Throw _ => None
     end)
  = Some 5%nat.
Proof. reflexivity. Qed.

(** The string helpers on a few texts. *)
Example string_helpers :
  Str.trim "  a b  " = "a b" /\
  Str.stripTags "<b>01/01/2025</b> x < y" = "01/01/2025 x < y" /\
  Str.stripTags "a<b<c>d>e" = "ad>e" /\
  Str.replaceComma "1,2,3" = "1.2,3" /\
  Str.splitSlash "1/2//3" = ["1"; "2"; ""; "3"] /\
  Str.isDateFormat "15/04/2025" = true /\
  Str.isDateFormat "5/04/2025" = false /\
  parseInt "25" = Num 25 /\ parseInt " -0x1f" = Num (-31) /\
  parseInt "x" = NaN.
Proof. repeat split. Qed.

(** ** Runs of the further properties *)

(** X1 on page 3 of the table of the tests, by pages of 2 rows: one row
    is displayed, out of 5. *)
Lemma summary_counts_witness :
  updateTable Ref.runtime Demo.today Demo.thirdPage = (None, Sample.lastPage)
  /\ displayLimit Demo.thirdPage = Num 2 /\ 0 < 2 /\
  currentPageIndex Demo.thirdPage = Num 3 /\ 1 <= 3 /\
  tableInfo Sample.lastPage
  = Some (Showing (JsNum.ofNat (List.length (tbody Sample.lastPage)))
            (List.length (filteredRows Sample.lastPage))
            (List.length (rowsCache Sample.lastPage))) /\
  Z.of_nat (List.length (tbody Sample.lastPage)) <= 2 /\
  (List.length (tbody Sample.lastPage)
   <= List.length (filteredRows Sample.lastPage))%nat /\
  (List.length (filteredRows Sample.lastPage)
   <= List.length (rowsCache Sample.lastPage))%nat /\
  List.length (rowsCache Sample.lastPage)
  = List.length (rowsCache Demo.thirdPage).
Proof.
  assert (Hupd : updateTable Ref.runtime Demo.today Demo.thirdPage
                 = (None, Sample.lastPage)) by (vm_compute; reflexivity).
  assert (Hlimit : displayLimit Demo.thirdPage = Num 2) by reflexivity.
  assert (Hpage : currentPageIndex Demo.thirdPage = Num 3) by reflexivity.
  assert (Hp : 0 < 2) by lia. assert (Hc : 1 <= 3) by lia.
  split; [exact Hupd|]. split; [exact Hlimit|]. split; [exact Hp|].
  split; [exact Hpage|]. split; [exact Hc|].
  exact (summary_counts Ref.runtime Demo.today Demo.thirdPage Sample.lastPage
           2 3 Hupd Hlimit Hp Hpage Hc).
Defined.

(** X2 on the same cycle: on page 3 of 3 the bar leads to the pages 1, 2
    and 3. *)
Lemma pagination_bar_witness :
  updateTable Ref.runtime Demo.today Demo.thirdPage = (None, Sample.lastPage)
  /\ displayLimit Demo.thirdPage = Num 2 /\ 0 < 2 /\
  currentPageIndex Demo.thirdPage = Num 3 /\ 1 <= 3 /\
  exists page total pages,
    currentPageIndex Sample.lastPage = Num page /\
    totalPagesOf Sample.lastPage = Num total /\
    enabledPages (updatePagination Sample.lastPage) = map Num pages /\
    StronglySorted Z.lt pages /\
    (forall q, In q pages <->
               1 <= q <= total /\
               (q = 1 \/ q = total \/ page - 1 <= q <= page + 1)) /\
    map pageIndex (filter active (updatePagination Sample.lastPage))
    = if page <=? total then [Num page] else [].
Proof.
  assert (Hupd : updateTable Ref.runtime Demo.today Demo.thirdPage
                 = (None, Sample.lastPage)) by (vm_compute; reflexivity).
  assert (Hlimit : displayLimit Demo.thirdPage = Num 2) by reflexivity.
  assert (Hpage : currentPageIndex Demo.thirdPage = Num 3) by reflexivity.
  assert (Hp : 0 < 2) by lia. assert (Hc : 1 <= 3) by lia.
  split; [exact Hupd|]. split; [exact Hlimit|]. split; [exact Hp|].
  split; [exact Hpage|]. split; [exact Hc|].
  exact (pagination_bar Ref.runtime Demo.today Demo.thirdPage Sample.lastPage
           2 3 Hupd Hlimit Hp Hpage Hc).
Defined.

(** X3 on the same bar: the button of page 1. *)
Lemma page_button_witness :
  updateTable Ref.runtime Demo.today Demo.thirdPage = (None, Sample.lastPage)
  /\ displayLimit Demo.thirdPage = Num 2 /\ 0 < 2 /\
  currentPageIndex Demo.thirdPage = Num 3 /\ 1 <= 3 /\
  In (Num 1) (enabledPages (updatePagination Sample.lastPage)) /\
  exists s'',
    dispatch Ref.runtime Demo.today (PageClick (Num 1)) Sample.lastPage
    = (None, s'') /\
    currentPageIndex s'' = Num 1 /\
    List.length (filteredRows s'')
    = List.length (filteredRows Sample.lastPage) /\
    (0 < List.length (tbody s''))%nat.
Proof.
  assert (Hupd : updateTable Ref.runtime Demo.today Demo.thirdPage
                 = (None, Sample.lastPage)) by (vm_compute; reflexivity).
  assert (Hlimit : displayLimit Demo.thirdPage = Num 2) by reflexivity.
  assert (Hpage : currentPageIndex Demo.thirdPage = Num 3) by reflexivity.
  assert (Hp : 0 < 2) by lia. assert (Hc : 1 <= 3) by lia.
  assert (Hq : In (Num 1) (enabledPages (updatePagination Sample.lastPage)))
    by (vm_compute; left; reflexivity).
  split; [exact Hupd|]. split; [exact Hlimit|]. split; [exact Hp|].
  split; [exact Hpage|]. split; [exact Hc|]. split; [exact Hq|].
  exact (page_button_shows_its_page Ref.runtime Demo.today Demo.thirdPage
           Sample.lastPage 2 3 1 Hupd Hlimit Hp Hpage Hc Hq).
Defined.

(** X4 on the table of the tests, the page size being [NaN]. *)
Lemma nonpositive_limit_witness :
  (displayLimit Sample.noLimit = NaN \/
   exists p, displayLimit Sample.noLimit = Num p /\ p <= 0) /\
  currentPageIndex Sample.noLimit = Num 1 /\
  tableInfo Sample.noLimit <> None /\
  applyFilters Ref.runtime Demo.today (sortPhase Ref.runtime Sample.noLimit)
  = Normal (rowsCache Demo.initial) /\
  exists s',
    updateTable Ref.runtime Demo.today Sample.noLimit = (None, s') /\
    filteredRows s' = rowsCache Demo.initial /\
    tbody s' = [].
Proof.
  assert (Hlimit : displayLimit Sample.noLimit = NaN \/
                   exists p, displayLimit Sample.noLimit = Num p /\ p <= 0)
    by (left; reflexivity).
  assert (Hpage : currentPageIndex Sample.noLimit = Num 1) by reflexivity.
  assert (Hinfo : tableInfo Sample.noLimit <> None) by (simpl; discriminate).
  assert (Hfilter : applyFilters Ref.runtime Demo.today
                      (sortPhase Ref.runtime Sample.noLimit)
                    = Normal (rowsCache Demo.initial))
    by (vm_compute; reflexivity).
  split; [exact Hlimit|]. split; [exact Hpage|]. split; [exact Hinfo|].
  split; [exact Hfilter|].
  exact (nonpositive_limit_shows_nothing Ref.runtime Demo.today
           Sample.noLimit 1 (rowsCache Demo.initial) Hlimit Hpage Hinfo
           Hfilter).
Defined.

(** X5 on the manager built outside the test environment, sorted on the
    dates of column 2 in descending direction: a click on the header of
    column 1. *)
Lemma sort_indicators_witness :
  buttonOf Sample.live 1 = Some None /\
  direction (currentSort (snd (handleSort Ref.runtime Demo.today 1
                                 Sample.live)))
  = Some Asc /\
  sortButtons (snd (handleSort Ref.runtime Demo.today 1 Sample.live))
  = [Some Asc; None; None].
Proof.
  assert (Hb : buttonOf Sample.live 1 = Some None) by reflexivity.
  pose proof (sort_indicators Ref.runtime Demo.today 1 Sample.live None Hb)
    as (Hd & _ & _ & _).
  split; [exact Hb|]. split; [exact Hd|].
  vm_compute. reflexivity.
Defined.

(** X6 on the table of the tests, the bucket [week] being set on the column
    of the status: a click on a header and a click on a page button. *)
Lemma stale_view_witness :
  firstActive (currentDateFilters Demo.bucketOnStatus) = Some (1%nat, "week")
  /\ In Demo.firstRow (rowsCache Demo.bucketOnStatus) /\
  Str.isDateFormat (cellText Demo.firstRow 1) = false /\
  Forall (fun ne => keepsDateFilters (snd ne) = true) Sample.laterEvents /\
  tbody (runEvents Ref.runtime Sample.laterEvents Demo.bucketOnStatus)
  = tbody Demo.bucketOnStatus /\
  tableInfo (runEvents Ref.runtime Sample.laterEvents Demo.bucketOnStatus)
  = tableInfo Demo.bucketOnStatus /\
  filteredRows (runEvents Ref.runtime Sample.laterEvents Demo.bucketOnStatus)
  = filteredRows Demo.bucketOnStatus /\
  forall now,
    fst (updateTable Ref.runtime now
           (runEvents Ref.runtime Sample.laterEvents Demo.bucketOnStatus))
    = Some (Error dateFormatMessage).
Proof.
  assert (Hfirst : firstActive (currentDateFilters Demo.bucketOnStatus)
                   = Some (1%nat, "week")) by reflexivity.
  assert (Hin : In Demo.firstRow (rowsCache Demo.bucketOnStatus)).
  { vm_compute. do 2 right. left. reflexivity. }
  assert (Hbad : Str.isDateFormat (cellText Demo.firstRow 1) = false)
    by reflexivity.
  assert (Hevents : Forall (fun ne => keepsDateFilters (snd ne) = true)
                      Sample.laterEvents)
    by (repeat constructor).
  split; [exact Hfirst|]. split; [exact Hin|]. split; [exact Hbad|].
  split; [exact Hevents|].
  exact (stale_view_under_failing_filter Ref.runtime 1 "week" Demo.firstRow
           Demo.bucketOnStatus Sample.laterEvents Hfirst Hin Hbad Hevents).
Defined.

(** X8 on the table of the tests, [Active] being selected in the value
    filter of the status: the selection of [All]. *)
Lemma reset_witness :
  newLiteTableManager Ref.runtime Demo.today true (Some Demo.container)
  = Normal Demo.initial /\
  Reachable Ref.runtime Demo.initial Sample.filtered /\
  List.length (filteredRows Sample.filtered) = 2%nat /\
  filteredRows
    (snd (dispatch Ref.runtime Demo.today (ValueFilterChange 1 "")
            Sample.filtered))
  = rowsCache
      (snd (dispatch Ref.runtime Demo.today (ValueFilterChange 1 "")
              Sample.filtered)).
Proof.
  assert (Hnew : newLiteTableManager Ref.runtime Demo.today true
                   (Some Demo.container) = Normal Demo.initial)
    by (vm_compute; reflexivity).
  assert (Hreach : Reachable Ref.runtime Demo.initial Sample.filtered)
    by (unfold Sample.filtered; apply reach_step, reach_init).
  assert (Hvalues : forall k v,
             In (k, v) (currentValueFilters Sample.filtered) ->
             k <> 1%nat -> v = "").
  { intros k v Hin Hne. vm_compute in Hin.
    destruct Hin as [H|[]]. injection H as <- <-. contradiction. }
  assert (Hdates : forall k v,
             In (k, v) (currentDateFilters Sample.filtered) -> v = "").
  { intros k v Hin. vm_compute in Hin. contradiction. }
  assert (Hranges : forall k range,
             In (k, range) (currentDateRangeFilters Sample.filtered) ->
             rangeActive range = false).
  { intros k range Hin. vm_compute in Hin. contradiction. }
  split; [exact Hnew|]. split; [exact Hreach|].
  split; [vm_compute; reflexivity|].
  exact (proj1 (proj2
           (reset_restores_all_rows Ref.runtime Demo.today Demo.today true
              (Some Demo.container) Demo.initial Sample.filtered 1
              Hnew Hreach Hvalues Hdates Hranges))).
Defined.

(** X9 on the dates of the table of the tests, in ascending direction. *)
Lemma date_sort_witness :
  inferColumnType Ref.runtime (rowsCache Demo.initial) 2 = TypeDate /\
  map (fun r => cellText r 2) (sortCache Ref.runtime 2 Asc
                                 (rowsCache Demo.initial))
  = ["10/02/2025"; "20/03/2025"; "15/04/2025"; "30/04/2025"; "05/05/2025"] /\
  sortedBy Asc (dateKey Ref.runtime 2)
    (sortCache Ref.runtime 2 Asc (rowsCache Demo.initial)).
Proof.
  assert (Hty : inferColumnType Ref.runtime (rowsCache Demo.initial) 2
                = TypeDate) by (vm_compute; reflexivity).
  assert (Hvalid : forall r,
             In r (rowsCache Demo.initial) -> emptyKey 2 r = false ->
             parseDate Ref.runtime (cellText r 2) <> None).
  { intros r Hin _. vm_compute in Hin.
    repeat (destruct Hin as [<-|Hin]; [vm_compute; discriminate|]).
    contradiction. }
  split; [exact Hty|]. split; [vm_compute; reflexivity|].
  exact (date_sort_is_chronological Ref.runtime (rowsCache Demo.initial) 2
           Asc Hty Hvalid).
Defined.

(** X10 on the amounts of the table of the tests, in descending
    direction. *)
Lemma number_sort_witness :
  inferColumnType Ref.runtime (rowsCache Demo.initial) 3 = TypeNumber /\
  map (fun r => cellText r 3) (sortCache Ref.runtime 3 Desc
                                 (rowsCache Demo.initial))
  = ["300"; "250"; "125"; "100"; "75,5"] /\
  sortedBy Desc (numberKey Ref.runtime 3)
    (sortCache Ref.runtime 3 Desc (rowsCache Demo.initial)).
Proof.
  assert (Hty : inferColumnType Ref.runtime (rowsCache Demo.initial) 3
                = TypeNumber) by (vm_compute; reflexivity).
  assert (Hvalid : forall r,
             In r (rowsCache Demo.initial) -> emptyKey 3 r = false ->
             Float.isFinite
               (parseFloat Ref.runtime (Str.replaceComma (cellText r 3)))
             = true).
  { intros r Hin _. vm_compute in Hin.
    repeat (destruct Hin as [<-|Hin]; [vm_compute; reflexivity|]).
    contradiction. }
  split; [exact Hty|]. split; [vm_compute; reflexivity|].
  exact (number_sort_is_numeric Ref.runtime (rowsCache Demo.initial) 3
           Desc Hty Hvalid).
Defined.



(** X13 on a cell that carried a [class] and a [title], patched with the
    snapshot of a cell that has neither: the title goes, the class stays. *)
Lemma recycled_cell_witness :
  NoDup (map fst (attributes Sample.plainData)) /\
  "class" <> "innerHTML" /\
  Attr.getAttribute "class" (attributes Sample.plainData) = None /\
  Attr.getAttribute "class"
    (cellAttributes (patchCell Sample.usedCell Sample.plainData))
  = Some "overdue".
Proof.
  assert (Hnd : NoDup (map fst (attributes Sample.plainData)))
    by (repeat constructor; intros []).
  assert (Hname : "class" <> "innerHTML") by discriminate.
  assert (Hnone : Attr.getAttribute "class" (attributes Sample.plainData)
                  = None) by reflexivity.
  split; [exact Hnd|]. split; [exact Hname|]. split; [exact Hnone|].
  exact (proj2 (proj2
           (recycled_cell_attributes Sample.usedCell Sample.plainData "class"
              Hnd Hname)) Hnone).
Defined.

(** X15 on 2 November 2025, a Sunday: the week runs to Saturday the 8th. *)
Lemma week_bucket_witness :
  Str.isDateFormat "08/11/2025" = true /\
  ~ (0 <= JsDate.getFullYear Demo.today <= 99) /\
  - JsDate.maxDay + 6 <= Demo.today <= JsDate.maxDay - 6 /\
  isDateInRange Ref.runtime Demo.today "08/11/2025" "week" = Normal true.
Proof.
  assert (Hfmt : Str.isDateFormat "08/11/2025" = true) by reflexivity.
  assert (Hy : ~ (0 <= JsDate.getFullYear Demo.today <= 99))
    by (vm_compute; intros [_ H]; apply H; reflexivity).
  assert (Hr : - JsDate.maxDay + 6 <= Demo.today <= JsDate.maxDay - 6)
    by (vm_compute; split; discriminate).
  split; [exact Hfmt|]. split; [exact Hy|]. split; [exact Hr|].
  destruct (week_bucket Ref.runtime Demo.today "08/11/2025" Hfmt Hy Hr)
    as (_ & _ & _ & Hweek).
  rewrite Hweek. reflexivity.
Defined.

(** X16 on 2 November 2025: 15 October is a day of the quarter, not of the
    month. *)
Lemma calendar_buckets_witness :
  Str.isDateFormat "15/10/2025" = true /\
  ~ (0 <= JsDate.getFullYear Demo.today <= 99) /\
  - JsDate.maxDay + 366 <= Demo.today <= JsDate.maxDay - 366 /\
  isDateInRange Ref.runtime Demo.today "15/10/2025" "month" = Normal false /\
  isDateInRange Ref.runtime Demo.today "15/10/2025" "quarter" = Normal true /\
  isDateInRange Ref.runtime Demo.today "15/10/2025" "year" = Normal true.
Proof.
  assert (Hfmt : Str.isDateFormat "15/10/2025" = true) by reflexivity.
  assert (Hy : ~ (0 <= JsDate.getFullYear Demo.today <= 99))
    by (vm_compute; intros [_ H]; apply H; reflexivity).
  assert (Hr : - JsDate.maxDay + 366 <= Demo.today <= JsDate.maxDay - 366)
    by (vm_compute; split; discriminate).
  split; [exact Hfmt|]. split; [exact Hy|]. split; [exact Hr|].
  destruct (calendar_buckets Ref.runtime Demo.today "15/10/2025" Hfmt Hy Hr)
    as (Hmonth & Hquarter & Hyear).
  rewrite Hmonth, Hquarter, Hyear. repeat split; reflexivity.
Defined.

(** X17 on 31 February 2025, which [parseDate] reads as 3 March. *)
Lemma parseDate_rolls_over_witness :
  readsDigits Ref.runtime /\
  Str.isDateFormat "31/02/2025" = true /\
  exists n,
    parseDate Ref.runtime "31/02/2025" = Some n /\
    n = monthStart (12 * 2025 + (2 - 1)) + 31 - 1 /\
    (1 <= 2 <= 12 -> 1 <= 31 <= daysInMonth 2025 2 ->
     JsDate.getFullYear n = 2025 /\ JsDate.getMonth n = 2 - 1 /\
     JsDate.getDate n = 31) /\
    (1 <= 2 <= 12 -> daysInMonth 2025 2 < 31 <= 31 ->
     monthOf n = 12 * 2025 + 2 /\
     JsDate.getDate n = 31 - daysInMonth 2025 2).
Proof.
  split; [exact ref_reads_digits|]. split; [reflexivity|].
  exact (parseDate_rolls_over Ref.runtime ref_reads_digits "31/02/2025"
           eq_refl).
Defined.

(** X18 on the dates of the table of the tests. *)
Lemma filter_and_sort_types_witness :
  sampleValue (buildCache Demo.rows) 2 = Some "15/04/2025" /\
  "15/04/2025" <> "" /\
  filterDataType Ref.runtime Demo.rows 2 = TypeDate /\
  inferColumnType Ref.runtime (buildCache Demo.rows) 2 = TypeDate.
Proof.
  assert (Hsample : sampleValue (buildCache Demo.rows) 2
                    = Some "15/04/2025") by reflexivity.
  assert (Hne : "15/04/2025" <> "") by discriminate.
  split; [exact Hsample|]. split; [exact Hne|].
  rewrite (filter_and_sort_types_agree Ref.runtime Demo.rows 2 "15/04/2025"
             Hsample Hne).
  split; vm_compute; reflexivity.
Defined.


(** X20 on the manager built outside the test environment, through clicks
    on two sort buttons and on a page button. *)
Lemma buttons_show_sort_witness :
  newLiteTableManager Ref.runtime Demo.today false (Some Demo.container)
  = Normal Sample.live /\
  Forall (fun ne =>
            hitsButton (List.length (sortButtons Sample.live)) (snd ne) = true)
    Sample.clicks /\
  showsSort (runEvents Ref.runtime Sample.clicks Sample.live) /\
  List.length (sortButtons (runEvents Ref.runtime Sample.clicks Sample.live))
  = List.length (sortButtons Sample.live).
Proof.
  assert (Hnew : newLiteTableManager Ref.runtime Demo.today false
                   (Some Demo.container) = Normal Sample.live)
    by (vm_compute; reflexivity).
  assert (Hevents : Forall (fun ne =>
                              hitsButton (List.length (sortButtons Sample.live))
                                (snd ne) = true) Sample.clicks)
    by (repeat constructor).
  split; [exact Hnew|]. split; [exact Hevents|].
  exact (buttons_show_sort_state Ref.runtime Demo.today false
           (Some Demo.container) Sample.live Sample.clicks Hnew Hevents).
Defined.

(** X21 on the table of the tests, by pages of 2 rows: a click on the
    header of column 3. *)
Lemma sort_keeps_filtered_witness :
  updateTable Ref.runtime Demo.today Demo.narrowed = (None, Demo.paged) /\
  handleSort Ref.runtime Demo.today 3 Demo.paged = (None, Sample.resorted) /\
  Permutation (filteredRows Sample.resorted) (filteredRows Demo.paged) /\
  filteredRows Sample.resorted
  = filter (passesEvery Ref.runtime Demo.today Demo.paged)
      (rowsCache Sample.resorted) /\
  Permutation (rowsCache Sample.resorted) (rowsCache Demo.paged).
Proof.
  assert (Hbuilt : updateTable Ref.runtime Demo.today Demo.narrowed
                   = (None, Demo.paged)) by (vm_compute; reflexivity).
  assert (Hclick : handleSort Ref.runtime Demo.today 3 Demo.paged
                   = (None, Sample.resorted)) by (vm_compute; reflexivity).
  split; [exact Hbuilt|]. split; [exact Hclick|].
  exact (sort_keeps_filtered_rows Ref.runtime Demo.today Demo.narrowed
           Demo.paged Sample.resorted 3 Hbuilt Hclick).
Defined.
